(** * Document ingestion pipeline of the Personal Finance Assistant

    A shallow embedding of the upload route's helpers
    ([extractReceiptData], [determineCategory], [parseCSVFile],
    [parsePDFTransactions]) together with the parts of the JavaScript
    runtime they rely on: strings as sequences of UTF-16 code units,
    regular expressions with backtracking, [parseFloat], IEEE 754
    binary64 numbers, and [Date]. *)

From Stdlib Require Import ZArith NArith Bool Ascii String DecimalString Lia.
From Stdlib Require Import Floats.SpecFloat.
From stdpp Require Import base option list gmap.

Local Open Scope N_scope.

(** ** Strings *)

(** A JavaScript string is a sequence of 16-bit code units. *)
Definition char := N.
Definition jsstring := list char.

Definition ch (a : ascii) : char := N_of_ascii a.
Definition lit (s : string) : jsstring := List.map ch (list_ascii_of_string s).

(** U+20B9 INDIAN RUPEE SIGN, a single code unit. *)
Definition rupee : char := 8377.

Definition inRange (lo hi c : char) : bool := (lo <=? c) && (c <=? hi).

Definition isDigit (c : char) : bool := inRange 48 57 c.

(** LineTerminator: LF, CR, LS, PS. *)
Definition isLineTerminator (c : char) : bool :=
  (c =? 10) || (c =? 13) || (c =? 8232) || (c =? 8233).

(** WhiteSpace and LineTerminator: what [trim], [\s] and the prefix
    skipped by [parseFloat] agree on. *)
Definition isSpace (c : char) : bool :=
  inRange 9 13 c || (c =? 32) || (c =? 160) || (c =? 5760)
  || inRange 8192 8202 c || (c =? 8232) || (c =? 8233) || (c =? 8239)
  || (c =? 8287) || (c =? 12288) || (c =? 65279).

Definition asciiUpper (c : char) : char :=
  if inRange 97 122 c then c - 32 else c.

(** [toLowerCase] of one code unit, exact on ASCII.  Two units outside
    ASCII have a lower-case form with an ASCII letter in it: U+212A KELVIN
    SIGN gives [k] and U+0130 gives [i] followed by U+0307.  Any other unit
    is kept as it is: its lower-case form has no ASCII unit, and the
    program only ever searches lower-cased text for ASCII keywords. *)
Definition lowerUnit (c : char) : jsstring :=
  if inRange 65 90 c then [c + 32]
  else if c =? 8490 then [107]
  else if c =? 304 then [105; 775]
  else [c].

Definition toLowerCase (s : jsstring) : jsstring := List.flat_map lowerUnit s.

Fixpoint dropWhile (p : char -> bool) (s : jsstring) : jsstring :=
  match s with
  | [] => []
  | c :: t => if p c then dropWhile p t else s
  end.

Fixpoint span (p : char -> bool) (s : jsstring) : jsstring * jsstring :=
  match s with
  | [] => ([], [])
  | c :: t =>
      if p c then let '(a, b) := span p t in (c :: a, b) else ([], s)
  end.

Definition trimStart (s : jsstring) : jsstring := dropWhile isSpace s.
Definition trimEnd (s : jsstring) : jsstring :=
  List.rev (dropWhile isSpace (List.rev s)).
Definition trim (s : jsstring) : jsstring := trimEnd (trimStart s).

Fixpoint startsWith (p s : jsstring) : bool :=
  match p, s with
  | [], _ => true
  | _ :: _, [] => false
  | a :: p', b :: s' => (a =? b) && startsWith p' s'
  end.

(** [s.includes(k)] *)
Fixpoint includes (s k : jsstring) : bool :=
  startsWith k s ||
  match s with
  | [] => false
  | _ :: t => includes t k
  end.

(** [s.split('\n')] *)
Fixpoint splitLines (s : jsstring) : list jsstring :=
  match s with
  | [] => [[]]
  | c :: t =>
      if c =? 10 then [] :: splitLines t
      else match splitLines t with
           | [] => [[c]]
           | l :: ls => (c :: l) :: ls
           end
  end.

Definition nonEmpty (s : jsstring) : bool :=
  match s with [] => false | _ => true end.

(** [text.split('\n').map(line => line.trim()).filter(line => line.length > 0)] *)
Definition textLines (text : jsstring) : list jsstring :=
  List.filter nonEmpty (List.map trim (splitLines text)).

(** [s.substring(0, n)] *)
Definition substring0 (n : nat) (s : jsstring) : jsstring := firstn n s.

(** ** Numbers *)

(** A Number is an IEEE 754 binary64 value. *)
Definition Number := spec_float.
Definition prec : Z := 53.
Definition emax : Z := 1024.

Definition NaN : Number := S754_nan.
Definition zero : Number := S754_zero false.

Definition isNaN (x : Number) : bool :=
  match x with S754_nan => true | _ => false end.

(** [a > b] *)
Definition gt (a b : Number) : bool := SFltb b a.

Definition Math_abs (x : Number) : Number := SFabs x.

(** The Number nearest to [m * 10^e] (ties to even), for [m >= 0]. *)
Definition ofDecimal (neg : bool) (m : N) (e : Z) : Number :=
  match m with
  | N0 => S754_zero neg
  | Npos p =>
      if (0 <=? e)%Z
      then binary_round prec emax neg (p * Z.to_pos (10 ^ e)) 0
      else SFdiv prec emax (S754_finite neg p 0)
                           (S754_finite false (Z.to_pos (10 ^ (- e))) 0)
  end.

Definition digitVal (c : char) : N := c - 48.

Definition digitsValue (ds : jsstring) : N :=
  fold_left (fun acc c => 10 * acc + digitVal c) ds 0.

Definition takeSign (s : jsstring) : bool * jsstring :=
  match s with
  | c :: t =>
      if c =? ch "-" then (true, t)
      else if c =? ch "+" then (false, t)
      else (false, s)
  | [] => (false, s)
  end.

(** ExponentPart of a StrDecimalLiteral, when one is there: [e] or [E],
    an optional sign and at least one digit. *)
Definition exponentPart (s : jsstring) : Z :=
  match s with
  | c :: t =>
      if (c =? ch "e") || (c =? ch "E") then
        let '(neg, t') := takeSign t in
        let '(ds, _) := span isDigit t' in
        match ds with
        | [] => 0%Z
        | _ => if neg then (- Z.of_N (digitsValue ds))%Z
               else Z.of_N (digitsValue ds)
        end
      else 0%Z
  | [] => 0%Z
  end.

(** [parseFloat(s)]: skip leading white space, then read the longest
    prefix that is a StrDecimalLiteral; [NaN] when there is none. *)
Definition parseFloat (s : jsstring) : Number :=
  let '(neg, s2) := takeSign (trimStart s) in
  if startsWith (lit "Infinity") s2 then S754_infinity neg
  else
    let '(ip, s3) := span isDigit s2 in
    let '(fp, s4) :=
      match s3 with
      | c :: t => if c =? ch "." then span isDigit t else ([], s3)
      | [] => ([], s3)
      end in
    match ip ++ fp with
    | [] => NaN
    | ds => ofDecimal neg (digitsValue ds)
              (exponentPart s4 - Z.of_nat (length fp))
    end.

(** [parseFloat(x)] for an [x] that may be [undefined]. *)
Definition parseFloatOf (x : option jsstring) : Number :=
  match x with
  | Some s => parseFloat s
  | None => parseFloat (lit "undefined")
  end.

(** ** Regular expressions *)

(** The patterns of the program use literal characters, [.], classes,
    quantifiers (greedy and lazy) over one-character atoms, and capture
    groups that are neither nested nor repeated. *)
Inductive ClassAtom :=
| CChar (c : char)
| CRange (lo hi : char)
| CSpace
| CDigit.

Inductive Atom :=
| Char (c : char)
| Dot
| Class (cs : list ClassAtom).

Inductive Node :=
| Rep (a : Atom) (greedy : bool) (lo : nat) (hi : option nat)
| Open
| Close.

Record RegExp := {
  source : list Node;
  ignoreCase : bool;
  global : bool
}.

Definition classAtomMatches (x : char) (a : ClassAtom) : bool :=
  match a with
  | CChar c => x =? c
  | CRange lo hi => inRange lo hi x
  | CSpace => isSpace x
  | CDigit => isDigit x
  end.

(** With the [i] flag two code units match when their canonical (upper
    case) forms agree; without the [u] flag a unit outside ASCII never
    canonicalizes into ASCII, so only ASCII letters are affected.  The
    classes of the program hold no letters. *)
Definition atomMatches (i : bool) (a : Atom) (x : char) : bool :=
  match a with
  | Char c => if i then asciiUpper x =? asciiUpper c else x =? c
  | Dot => negb (isLineTerminator x)
  | Class cs => existsb (classAtomMatches x) cs
  end.

Definition belowMax (n : nat) (hi : option nat) : bool :=
  match hi with
  | Some h => Nat.ltb n h
  | None => true
  end.

Definition MatchState : Type := list jsstring * jsstring.

(** The quantified atom stops after [n] units, held in reverse in [acc],
    and the continuation [k] takes over. *)
Definition stopHere (lo : nat) (k : jsstring -> option MatchState) (n : nat)
    (acc : jsstring) (s : jsstring) : option MatchState :=
  if Nat.leb lo n
  then match k s with
       | Some (chunks, rest) => Some (List.rev acc :: chunks, rest)
       | None => None
       end
  else None.

(** One quantified atom followed by the continuation [k].  A greedy
    quantifier tries one more unit first, a lazy one tries the
    continuation first. *)
Fixpoint rep (p : char -> bool) (greedy : bool) (lo : nat) (hi : option nat)
    (k : jsstring -> option MatchState) (n : nat) (acc : jsstring)
    (s : jsstring) {struct s} : option MatchState :=
  let more (_ : unit) :=
    match s with
    | c :: s' =>
        if p c && belowMax n hi
        then rep p greedy lo hi k (S n) (c :: acc) s'
        else None
    | [] => None
    end in
  if greedy
  then match more tt with Some r => Some r | None => stopHere lo k n acc s end
  else match stopHere lo k n acc s with Some r => Some r | None => more tt end.

(** Match the nodes at the start of [s], then the continuation [k] on
    what is left: the text taken by each quantified atom, in order. *)
Fixpoint runK (i : bool) (r : list Node) (k : jsstring -> option MatchState)
    : jsstring -> option MatchState :=
  match r with
  | [] => k
  | Rep a g lo hi :: r' => rep (atomMatches i a) g lo hi (runK i r' k) 0%nat []
  | Open :: r' => runK i r' k
  | Close :: r' => runK i r' k
  end.

(** A pattern matches at the start of [s] wherever its last node ends. *)
Definition accept (s : jsstring) : option MatchState := Some ([], s).

Definition run (i : bool) (r : list Node) : jsstring -> option MatchState :=
  runK i r accept.

(** The captures, from the text taken by each atom. *)
Fixpoint groups (r : list Node) (chunks : list jsstring)
    (cur : option jsstring) : list jsstring :=
  match r with
  | [] => []
  | Open :: r' => groups r' chunks (Some [])
  | Close :: r' =>
      match cur with
      | Some g => g :: groups r' chunks None
      | None => groups r' chunks None
      end
  | Rep _ _ _ _ :: r' =>
      match chunks with
      | c :: cs => groups r' cs (option_map (fun g => g ++ c) cur)
      | [] => []
      end
  end.

(** The result array of a successful match: the matched text, then the
    captures. *)
Definition matchArray (r : list Node) (chunks : list jsstring) : list jsstring :=
  List.concat chunks :: groups r chunks None.

(** [re.exec(s)] for a pattern without the [g] flag: the leftmost start
    at which the pattern matches. *)
Fixpoint exec (i : bool) (r : list Node) (s : jsstring) : option (list jsstring) :=
  match run i r s with
  | Some (chunks, _) => Some (matchArray r chunks)
  | None =>
      match s with
      | [] => None
      | _ :: s' => exec i r s'
      end
  end.

(** All matched texts of a pattern with the [g] flag, left to right;
    [skip] units of the last match are still to be passed over.  After
    an empty match the search moves on by one unit. *)
Fixpoint execAll (i : bool) (r : list Node) (skip : nat) (s : jsstring)
    : list jsstring :=
  match skip with
  | S n =>
      match s with
      | [] => []
      | _ :: s' => execAll i r n s'
      end
  | O =>
      match run i r s with
      | Some (chunks, _) =>
          let w := List.concat chunks in
          w :: match s with
               | [] => []
               | _ :: s' => execAll i r (Nat.pred (length w)) s'
               end
      | None =>
          match s with
          | [] => []
          | _ :: s' => execAll i r 0%nat s'
          end
      end
  end.

(** [s.match(re)]: with the [g] flag the array of all matched texts (no
    captures), without it the result of [exec]; [None] is [null]. *)
Definition String_match (s : jsstring) (re : RegExp) : option (list jsstring) :=
  if global re then
    match execAll (ignoreCase re) (source re) 0%nat s with
    | [] => None
    | ms => Some ms
    end
  else exec (ignoreCase re) (source re) s.

(** [m[i]] of a match array; [None] is [undefined]. *)
Definition at_ (m : list jsstring) (i : nat) : option jsstring := nth_error m i.

(** [m[i]] where the pattern guarantees the element. *)
Definition get (m : list jsstring) (i : nat) : jsstring := nth i m [].

(** Pattern syntax. *)
Definition one (a : Atom) : Node := Rep a true 1 (Some 1%nat).
Definition opt (a : Atom) : Node := Rep a true 0 (Some 1%nat).
Definition star (a : Atom) : Node := Rep a true 0 None.
Definition plus (a : Atom) : Node := Rep a true 1 None.
Definition lazyPlus (a : Atom) : Node := Rep a false 1 None.
Definition times (lo hi : nat) (a : Atom) : Node := Rep a true lo (Some hi).
Definition str (s : string) : list Node := List.map (fun c => one (Char c)) (lit s).

Definition d_ : Atom := Class [CDigit].
Definition s_ : Atom := Class [CSpace].
Definition digit09 : Atom := Class [CRange (ch "0") (ch "9")].
Definition c_ (a : ascii) : Atom := Char (ch a).

Definition re (r : list Node) : RegExp :=
  {| source := r; ignoreCase := false; global := false |}.
Definition re_i (r : list Node) : RegExp :=
  {| source := r; ignoreCase := true; global := false |}.
Definition re_g (r : list Node) : RegExp :=
  {| source := r; ignoreCase := false; global := true |}.

(** [/[$,₹]/g] and [s.replace(/[$,₹]/g, '')] *)
Definition isMoneySymbol (c : char) : bool :=
  (c =? ch "$") || (c =? ch ",") || (c =? rupee).

Definition stripMoney (s : jsstring) : jsstring :=
  List.filter (fun c => negb (isMoneySymbol c)) s.

(** ** Dates and the host *)

(** A Date holds a time value in milliseconds since the epoch; [None] is
    the Invalid Date, whose [getTime()] is [NaN]. *)
Definition Date := option Z.

(** What the program takes from its host.  [Date_parse] is what
    [new Date(string)] makes of a string: outside the ISO format this is
    left to the engine and depends on the local time zone.  [Date_now] is
    the clock reading that [new Date()] returns during the call. *)
Record Host := {
  Date_parse : jsstring -> Date;
  Date_now : Z
}.

(** [new Date(x)] for a match element [x]; [undefined] gives the Invalid
    Date. *)
Definition newDate (h : Host) (x : option jsstring) : Date :=
  match x with
  | Some s => Date_parse h s
  | None => None
  end.

(** [new Date()] *)
Definition newDateNow (h : Host) : Date := Some (Date_now h).

(** [isNaN(d.getTime())] *)
Definition invalidDate (d : Date) : bool :=
  match d with Some _ => false | None => true end.

(** ** Records *)

Record Transaction := {
  date : Date;
  description : jsstring;
  amount : Number;
  type : jsstring;
  category : jsstring;
  paymentMethod : jsstring
}.

Record Item := {
  name : jsstring;
  itemAmount : Number
}.

Record ReceiptData := {
  total : Number;
  merchantName : jsstring;
  receiptDate : Date;
  items : list Item;
  receiptCategory : jsstring;
  rawText : jsstring
}.

(** ** determineCategory *)

Definition determineCategory (merchantName : jsstring) : jsstring :=
  let name := toLowerCase merchantName in
  if includes name (lit "grocery") || includes name (lit "food")
     || includes name (lit "supermarket") || includes name (lit "market")
  then lit "Food & Dining"
  else if includes name (lit "gas") || includes name (lit "fuel")
     || includes name (lit "shell") || includes name (lit "exxon")
  then lit "Transportation"
  else if includes name (lit "amazon") || includes name (lit "walmart")
     || includes name (lit "target") || includes name (lit "costco")
  then lit "Shopping"
  else if includes name (lit "restaurant") || includes name (lit "cafe")
     || includes name (lit "pizza") || includes name (lit "burger")
  then lit "Food & Dining"
  else if includes name (lit "uber") || includes name (lit "lyft")
     || includes name (lit "taxi")
  then lit "Transportation"
  else if includes name (lit "netflix") || includes name (lit "spotify")
     || includes name (lit "hulu") || includes name (lit "amazon prime")
  then lit "Entertainment"
  else if includes name (lit "gym") || includes name (lit "fitness")
     || includes name (lit "planet fitness")
  then lit "Health & Fitness"
  else lit "Other".

(** The category lists of the Transaction model ([getExpenseCategories],
    [getIncomeCategories]). *)
Definition expenseCategories : list jsstring :=
  List.map lit
    ["Food & Dining"; "Transportation"; "Shopping"; "Entertainment";
     "Bills & Utilities"; "Healthcare"; "Education"; "Travel";
     "Personal Care"; "Home & Garden"; "Insurance"; "Taxes"; "Business";
     "Gifts & Donations"; "Other"]%string.

Definition incomeCategories : list jsstring :=
  List.map lit
    ["Salary"; "Freelance"; "Business"; "Investment"; "Rental"; "Bonus";
     "Gift"; "Refund"; "Other"]%string.

(** ** extractReceiptData *)

(** [[0-9]+\.?[0-9]*], the number captured by most patterns. *)
Definition number : list Node :=
  [Open; plus digit09; opt (c_ "."); star digit09; Close].

Definition colonOrSpace : Atom := Class [CChar (ch ":"); CSpace].

Definition totalPatterns : list RegExp :=
  [ re_i (str "total" ++ [star colonOrSpace; opt (c_ "$")] ++ number);
    re_i (str "amount" ++ [star colonOrSpace; opt (c_ "$")] ++ number);
    re_i ([one (c_ "$")] ++ number ++ [star s_] ++ str "total");
    re_g [one (c_ "$"); Open; plus digit09; one (c_ "."); times 2 2 digit09; Close];
    re_i (str "grand" ++ [star s_] ++ str "total"
          ++ [star colonOrSpace; opt (c_ "$")] ++ number);
    re_i (str "final" ++ [star s_] ++ str "total"
          ++ [star colonOrSpace; opt (c_ "$")] ++ number) ].

(** The three shapes of a date, with the separator and the length of the
    year as they vary. *)
Definition monthDayYear (sep : ascii) (year : nat) : RegExp :=
  re [Open; times 1 2 d_; one (c_ sep); times 1 2 d_; one (c_ sep);
      times year year d_; Close].

Definition yearMonthDay : RegExp :=
  re [Open; times 4 4 d_; one (c_ "-"); times 1 2 d_; one (c_ "-");
      times 1 2 d_; Close].

Definition datePatterns : list RegExp :=
  [ monthDayYear "/" 4; monthDayYear "-" 4; yearMonthDay;
    monthDayYear "/" 2; monthDayYear "-" 2 ].

Definition itemPattern : RegExp :=
  re ([Open; lazyPlus Dot; Close; plus s_; opt (c_ "$")] ++ number).

(** The inner loop over [totalPatterns] for one line. *)
Definition totalOfLine (total : Number) (line : jsstring) : Number :=
  fold_left
    (fun total pattern =>
       match String_match line pattern with
       | Some m =>
           let amount := parseFloatOf (at_ m 1) in
           if gt amount total then amount else total
       | None => total
       end)
    totalPatterns total.

(** The inner loop over the date patterns for one line: it is left at the
    first pattern whose match is a valid date. *)
Fixpoint dateOfLine (h : Host) (line : jsstring) (patterns : list RegExp)
    (date : Date) : Date :=
  match patterns with
  | [] => date
  | pattern :: rest =>
      match String_match line pattern with
      | Some m =>
          let parsedDate := newDate h (at_ m 1) in
          if negb (invalidDate parsedDate) then parsedDate
          else dateOfLine h line rest date
      | None => dateOfLine h line rest date
      end
  end.

Definition itemOfLine (line : jsstring) : list Item :=
  match String_match line itemPattern with
  | Some itemMatch =>
      if gt (parseFloatOf (at_ itemMatch 2)) zero
      then [ {| name := trim (get itemMatch 1);
                itemAmount := parseFloatOf (at_ itemMatch 2) |} ]
      else []
  | None => []
  end.

(** [extractReceiptData] on the text that the OCR engine returned. *)
Definition extractReceiptData (h : Host) (text : jsstring) : ReceiptData :=
  let lines := textLines text in
  let total := fold_left totalOfLine lines zero in
  let merchantName :=
    match lines with
    | first :: _ => substring0 50 first
    | [] => []
    end in
  let date :=
    fold_left (fun date line => dateOfLine h line datePatterns date)
              lines (newDateNow h) in
  let items := List.flat_map itemOfLine lines in
  let category := determineCategory merchantName in
  {| total := total;
     merchantName := merchantName;
     receiptDate := if invalidDate date then newDateNow h else date;
     items := items;
     receiptCategory := category;
     rawText := text |}.

(** ** parseCSVFile *)

(** One row as the CSV reader hands it over: an object from keys (the
    column names, for a reader that knows them) to cell texts, given by
    its keys in the order of [Object.keys]. *)
Definition Row := list (jsstring * jsstring).

(** [cleanData]: the cells under their trimmed, lower-cased keys; a later
    key overwrites an earlier one that normalizes to the same name. *)
Definition cleanData (data : Row) : gmap (list N) jsstring :=
  fold_left
    (fun clean kv => <[ toLowerCase (trim (fst kv)) := snd kv ]> clean)
    data ∅.

(** A cell read from an object: [None] is [undefined]. *)
Definition truthy (x : option jsstring) : bool :=
  match x with
  | Some (_ :: _) => true
  | _ => false
  end.

(** [a || b] *)
Definition or_ (a b : option jsstring) : option jsstring :=
  if truthy a then a else b.

(** [String(x)] of a truthy cell. *)
Definition String_ (x : option jsstring) : jsstring :=
  match x with
  | Some s => s
  | None => lit "undefined"
  end.

Definition dateFormats : list RegExp :=
  [ yearMonthDay; monthDayYear "/" 4; monthDayYear "-" 4 ].

(** The loop over [dateFormats]: every matching format overwrites
    [parsedDate], and the loop is left once the date is valid. *)
Fixpoint tryDateFormats (h : Host) (dateField : jsstring)
    (formats : list RegExp) (parsedDate : Date) : Date :=
  match formats with
  | [] => parsedDate
  | format :: rest =>
      match String_match dateField format with
      | Some m =>
          let parsedDate := newDate h (at_ m 1) in
          if negb (invalidDate parsedDate) then parsedDate
          else tryDateFormats h dateField rest parsedDate
      | None => tryDateFormats h dateField rest parsedDate
      end
  end.

(** The date of a row: [new Date(dateField)], and the alternative formats
    when that is invalid. *)
Definition parseRowDate (h : Host) (dateField : jsstring) : Date :=
  let parsedDate := Date_parse h dateField in
  if invalidDate parsedDate
  then tryDateFormats h dateField dateFormats parsedDate
  else parsedDate.

(** The column name variations, first truthy one first. *)
Definition dateFieldOf (clean : gmap (list N) jsstring) : option jsstring :=
  or_ (or_ (clean !! lit "date") (clean !! lit "transaction_date"))
      (clean !! lit "transactiondate").

Definition descriptionFieldOf (clean : gmap (list N) jsstring) : option jsstring :=
  or_ (or_ (or_ (clean !! lit "description") (clean !! lit "memo"))
           (clean !! lit "note"))
      (clean !! lit "merchant").

Definition amountFieldOf (clean : gmap (list N) jsstring) : option jsstring :=
  or_ (or_ (clean !! lit "amount") (clean !! lit "transaction_amount"))
      (clean !! lit "transactionamount").

Definition categoryFieldOf (clean : gmap (list N) jsstring) : option jsstring :=
  or_ (or_ (clean !! lit "category") (clean !! lit "transaction_category"))
      (clean !! lit "transactioncategory").

(** The handler of one [data] event: the records it pushes on [results]. *)
Definition onData (h : Host) (data : Row) : list Transaction :=
  let clean := cleanData data in
  let dateField := dateFieldOf clean in
  let descriptionField := descriptionFieldOf clean in
  let amountField := amountFieldOf clean in
  let categoryField := categoryFieldOf clean in
  if truthy dateField && truthy descriptionField && truthy amountField then
    let parsedDate := parseRowDate h (String_ dateField) in
    let amount_ := parseFloat (stripMoney (String_ amountField)) in
    let lower := toLowerCase (String_ descriptionField) in
    let isIncome :=
      gt amount_ zero
      || includes lower (lit "deposit")
      || includes lower (lit "salary")
      || includes lower (lit "payment received")
      || includes lower (lit "credit")
      || includes lower (lit "refund") in
    let amount_ := Math_abs amount_ in
    let category :=
      if truthy categoryField then String_ categoryField
      else if isIncome then lit "Income" else lit "Other" in
    let category :=
      if negb (truthy categoryField) && negb isIncome
      then determineCategory (String_ descriptionField)
      else category in
    let normalizedData :=
      {| date := if invalidDate parsedDate then newDateNow h else parsedDate;
         description := trim (String_ descriptionField);
         amount := amount_;
         type := if isIncome then lit "income" else lit "expense";
         category := category;
         paymentMethod := lit "bank_transfer" |} in
    if gt (amount normalizedData) zero
       && Nat.ltb 0 (length (description normalizedData))
    then [normalizedData]
    else []
  else [].

(** [parseCSVFile] on the rows that the CSV reader emits: the [results]
    it resolves with.  What the reader emits, as the source sets it up,
    is [csvRows] below.  Here one clock reading serves the whole file;
    [parseCSVFileAt] below has one for each row. *)
Definition parseCSVFile (h : Host) (rows : list Row) : list Transaction :=
  List.flat_map (onData h) rows.

(** ** parsePDFTransactions *)

(** The captured amount token: an optional sign, an optional [$], an
    optional rupee sign, digits and commas, an optional point, digits. *)
Definition signedAmount : list Node :=
  [Open; opt (Class [CChar (ch "+"); CChar (ch "-")]); opt (c_ "$");
   opt (Char rupee); plus (Class [CRange (ch "0") (ch "9"); CChar (ch ",")]);
   opt (c_ "."); star digit09; Close].

Definition transactionPattern (dateShape : RegExp) : RegExp :=
  re (source dateShape ++ [plus s_; Open; lazyPlus Dot; Close; plus s_]
      ++ signedAmount).

Definition transactionPatterns : list RegExp :=
  [ transactionPattern (monthDayYear "/" 4);
    transactionPattern (monthDayYear "-" 4);
    transactionPattern yearMonthDay ].

(** The body run for the first pattern that matches a line. *)
Definition transactionOfMatch (h : Host) (m : list jsstring) : list Transaction :=
  let date := newDate h (at_ m 1) in
  let description := trim (get m 2) in
  let amountStr := stripMoney (get m 3) in
  let amount := Math_abs (parseFloat amountStr) in
  if negb (invalidDate date) && gt amount zero
     && Nat.ltb 0 (length description)
  then
    let isIncome :=
      includes (get m 3) (lit "+")
      || includes (toLowerCase description) (lit "deposit")
      || includes (toLowerCase description) (lit "payment received")
      || includes (toLowerCase description) (lit "credit") in
    [ {| date := date;
         description := description;
         amount := amount;
         type := if isIncome then lit "income" else lit "expense";
         category := if isIncome then lit "Income"
                     else determineCategory description;
         paymentMethod := lit "bank_transfer" |} ]
  else [].

(** The loop over [transactionPatterns] for one line, left at the first
    pattern that matches. *)
Fixpoint transactionsOfLine (h : Host) (line : jsstring)
    (patterns : list RegExp) : list Transaction :=
  match patterns with
  | [] => []
  | pattern :: rest =>
      match String_match line pattern with
      | Some m => transactionOfMatch h m
      | None => transactionsOfLine h line rest
      end
  end.

(** [parsePDFTransactions] on the text that the PDF reader returned. *)
Definition parsePDFTransactions (h : Host) (text : jsstring) : list Transaction :=
  List.flat_map (fun line => transactionsOfLine h line transactionPatterns)
                (textLines text).

(** ** Vocabulary of the statements *)

(** The classifier as the specification words it: an ordered table of
    keyword groups, the category of the first group with a keyword in the
    lower-cased text, and ["Other"] when there is none. *)
Definition categoryRules : list (list jsstring * jsstring) :=
  [ (List.map lit ["grocery"; "food"; "supermarket"; "market"]%string,
     lit "Food & Dining");
    (List.map lit ["gas"; "fuel"; "shell"; "exxon"]%string,
     lit "Transportation");
    (List.map lit ["amazon"; "walmart"; "target"; "costco"]%string,
     lit "Shopping");
    (List.map lit ["restaurant"; "cafe"; "pizza"; "burger"]%string,
     lit "Food & Dining");
    (List.map lit ["uber"; "lyft"; "taxi"]%string,
     lit "Transportation");
    (List.map lit ["netflix"; "spotify"; "hulu"; "amazon prime"]%string,
     lit "Entertainment");
    (List.map lit ["gym"; "fitness"; "planet fitness"]%string,
     lit "Health & Fitness") ].

Definition containsAny (text : jsstring) (keywords : list jsstring) : bool :=
  existsb (includes text) keywords.

Fixpoint firstRule (text : jsstring) (rules : list (list jsstring * jsstring))
    : jsstring :=
  match rules with
  | [] => lit "Other"
  | (keywords, label) :: rest =>
      if containsAny text keywords then label else firstRule text rest
  end.

Definition classify (text : jsstring) : jsstring :=
  firstRule (toLowerCase text) categoryRules.

(** The labels a category may carry: the two lists of the model, and the
    ["Income"] and ["Other"] that the importers assign. *)
Definition taxonomy : list jsstring :=
  expenseCategories ++ incomeCategories ++ [lit "Income"; lit "Other"].

(** The income keywords of the two importers. *)
Definition incomeKeywordsCSV : list jsstring :=
  List.map lit ["deposit"; "salary"; "payment received"; "credit"; "refund"]%string.

Definition incomeKeywordsPDF : list jsstring :=
  List.map lit ["deposit"; "payment received"; "credit"]%string.

(** The number read from the amount cell of a row, before [Math.abs]. *)
Definition amountOfRow (data : Row) : Number :=
  parseFloat (stripMoney (String_ (amountFieldOf (cleanData data)))).

Definition descriptionOfRow (data : Row) : jsstring :=
  String_ (descriptionFieldOf (cleanData data)).

Definition dateOfRow (h : Host) (data : Row) : Date :=
  parseRowDate h (String_ (dateFieldOf (cleanData data))).

(** Polarity as the specification words it. *)
Definition isIncomeCSV (data : Row) : bool :=
  gt (amountOfRow data) zero
  || containsAny (toLowerCase (descriptionOfRow data)) incomeKeywordsCSV.

Definition isIncomePDF (m : list jsstring) : bool :=
  includes (get m 3) (lit "+")
  || containsAny (toLowerCase (trim (get m 2))) incomeKeywordsPDF.

(** A logical field is absent when the row has none of its column names. *)
Definition absent (aliases : list jsstring) (data : Row) : Prop :=
  forall a, In a aliases -> cleanData data !! a = None.

Definition dateAliases : list jsstring :=
  List.map lit ["date"; "transaction_date"; "transactiondate"]%string.
Definition descriptionAliases : list jsstring :=
  List.map lit ["description"; "memo"; "note"; "merchant"]%string.
Definition amountAliases : list jsstring :=
  List.map lit ["amount"; "transaction_amount"; "transactionamount"]%string.

(** The match that decides a statement line: the one of the first pattern
    that matches. *)
Fixpoint firstMatch (line : jsstring) (patterns : list RegExp)
    : option (list jsstring) :=
  match patterns with
  | [] => None
  | pattern :: rest =>
      match String_match line pattern with
      | Some m => Some m
      | None => firstMatch line rest
      end
  end.

(** The shape of a monetary token: an optional [$] or rupee sign, digits
    and commas, an optional point, digits. *)
Definition moneyShape : list Node :=
  [ opt (Class [CChar (ch "$"); CChar rupee]);
    plus (Class [CRange (ch "0") (ch "9"); CChar (ch ",")]);
    opt (c_ "."); star digit09 ].

Definition atEnd (s : jsstring) : option MatchState :=
  match s with
  | [] => Some ([], [])
  | _ :: _ => None
  end.

(** The whole of [s] matches the nodes [r]. *)
Definition matchesWhole (r : list Node) (s : jsstring) : bool :=
  match runK false r atEnd s with
  | Some _ => true
  | None => false
  end.

Definition hasDigit (s : jsstring) : bool := existsb isDigit s.

Definition isNumeral (s : jsstring) : Prop := Forall (fun c => isDigit c = true) s.

(** A Number that is neither [NaN] nor below zero. *)
Definition nonNegative (x : Number) : Prop :=
  match x with
  | S754_zero s | S754_infinity s | S754_finite s _ _ => s = false
  | S754_nan => False
  end.

(** A shifted mantissa that is not negative. *)
Definition nonNegRecord (r : shr_record) : Prop := (0 <= shr_m r)%Z.

(** Where a StrDecimalLiteral without sign can start: at a digit or at
    the point. *)
Definition numeralHead (s : jsstring) : Prop :=
  match s with
  | [] => True
  | c :: _ => isDigit c = true \/ c = ch "."
  end.

(** A text is the decimal numeral of [m * 10^e]: digits, or digits, a
    point and digits, with a digit somewhere. *)
Inductive decimalNumeral : jsstring -> N -> Z -> Prop :=
| whole (int : jsstring) :
    isNumeral int -> int <> [] ->
    decimalNumeral int (digitsValue int) 0
| pointed (int frac : jsstring) :
    isNumeral int -> isNumeral frac -> int ++ frac <> [] ->
    decimalNumeral (int ++ ch "." :: frac) (digitsValue (int ++ frac))
                   (- Z.of_nat (length frac)).

(** The invariant of a normalized transaction. *)
Definition validRecord (r : Transaction) : Prop :=
  gt (amount r) zero = true
  /\ isNaN (amount r) = false
  /\ description r <> []
  /\ trim (description r) = description r.

(** The dates that two runs at the clock readings [now1] and [now2] give
    a result, for the date [parsed] that both read in the input: that
    date when there is one, and each run's own clock reading when there
    is none. *)
Definition datedAlike (now1 now2 : Z) (parsed d1 d2 : Date) : Prop :=
  match parsed with
  | Some t => d1 = Some t /\ d2 = Some t
  | None => d1 = Some now1 /\ d2 = Some now2
  end.

(** A record and a receipt without their dates, to compare two runs. *)
Definition undated (t : Transaction) : Transaction :=
  {| date := None;
     description := description t;
     amount := amount t;
     type := type t;
     category := category t;
     paymentMethod := paymentMethod t |}.


Definition undatedReceipt (r : ReceiptData) : ReceiptData :=
  {| total := total r;
     merchantName := merchantName r;
     receiptDate := None;
     items := items r;
     receiptCategory := receiptCategory r;
     rawText := rawText r |}.

(** ** A host for the examples *)

(** Days from 1970-01-01 to a day of the proleptic Gregorian calendar. *)
Definition daysFromCivil (y m d : Z) : Z :=
  let y' := if (m <=? 2)%Z then (y - 1)%Z else y in
  let era := (y' / 400)%Z in
  let yoe := (y' - era * 400)%Z in
  let doy := ((153 * ((m + 9) mod 12) + 2) / 5 + d - 1)%Z in
  let doe := (yoe * 365 + yoe / 4 - yoe / 100 + doy)%Z in
  (era * 146097 + doe - 719468)%Z.

Definition civil (y m d : jsstring) : Date :=
  let y := Z.of_N (digitsValue y) in
  let m := Z.of_N (digitsValue m) in
  let d := Z.of_N (digitsValue d) in
  if (1 <=? m)%Z && (m <=? 12)%Z && (1 <=? d)%Z && (d <=? 31)%Z
  then Some (daysFromCivil y m d * 86400000)%Z
  else None.

Definition wholeGroups (r : list Node) (s : jsstring) : option (list jsstring) :=
  match runK false r atEnd s with
  | Some (chunks, _) => Some (groups r chunks None)
  | None => None
  end.

Definition monthDayYearParts (sep : ascii) : list Node :=
  [Open; times 1 2 d_; Close; one (c_ sep); Open; times 1 2 d_; Close;
   one (c_ sep); Open; times 4 4 d_; Close].

Definition yearMonthDayParts : list Node :=
  [Open; times 4 4 d_; Close; one (c_ "-"); Open; times 2 2 d_; Close;
   one (c_ "-"); Open; times 2 2 d_; Close].

(** An engine that reads [MM/DD/YYYY], [MM-DD-YYYY] and [YYYY-MM-DD] as
    midnight UTC of that day and takes no other string for a date. *)
Definition exampleDateParse (s : jsstring) : Date :=
  match wholeGroups (monthDayYearParts "/") s with
  | Some [m; d; y] => civil y m d
  | _ =>
      match wholeGroups (monthDayYearParts "-") s with
      | Some [m; d; y] => civil y m d
      | _ =>
          match wholeGroups yearMonthDayParts s with
          | Some [y; m; d] => civil y m d
          | _ => None
          end
      end
  end.

(** The host with a given engine and clock reading. *)
Definition hostWith (parse : jsstring -> Date) (now : Z) : Host :=
  {| Date_parse := parse; Date_now := now |}.

Definition hostAt (now : Z) : Host := hostWith exampleDateParse now.

(** The example host, its clock at 2026-01-01T00:00:00Z. *)
Definition exampleHost : Host := hostAt 1767225600000.

Definition newline : jsstring := [10].

(** The inputs of the examples. *)
Definition groceryRow : Row :=
  [ (lit "date", lit "2024-01-15");
    (lit "description", lit "Grocery Store");
    (lit "amount", lit "-45.67") ].

Definition depositLine : jsstring :=
  lit "01/15/2024 Deposit from Employer +$1,200.00".

Definition subtotalThenTotal : jsstring :=
  lit "Subtotal: $18.50" ++ newline ++ lit "Total: $20.00".

Definition twoDates : jsstring :=
  lit "01/15/2024" ++ newline ++ lit "02/20/2025".

Definition rowWithoutAmount : Row :=
  [ (lit "date", lit "2024-01-15"); (lit "description", lit "Grocery Store") ].

Definition rowOfInfinity : Row :=
  [ (lit "date", lit "2024-01-15");
    (lit "description", lit "Grocery Store");
    (lit "amount", lit "Infinity") ].

(** ** The upload route: file types and routing *)

(** [a === b] on strings. *)
Fixpoint strEq (a b : jsstring) : bool :=
  match a, b with
  | [], [] => true
  | x :: a', y :: b' => (x =? y) && strEq a' b'
  | _, _ => false
  end.

(** [s.endsWith(suffix)] *)
Definition endsWith (s suffix : jsstring) : bool :=
  startsWith (List.rev suffix) (List.rev s).

Definition allowedTypes : list jsstring :=
  List.map lit
    [ "image/jpeg"; "image/jpg"; "image/png"; "image/gif"; "application/pdf";
      "text/csv"; "application/vnd.ms-excel";
      "application/vnd.openxmlformats-officedocument.spreadsheetml.sheet" ]%string.

(** What [fileFilter] hands to its callback: [cb(null, true)], or
    [cb(new Error(message), false)]. *)
Inductive FilterResult :=
| Accept
| Reject (message : jsstring).

Definition fileFilter (mimetype : jsstring) : FilterResult :=
  if existsb (strEq mimetype) allowedTypes then Accept
  else Reject (lit "File type " ++ mimetype
               ++ lit " is not supported. Please use JPG, PNG, PDF, or CSV files.").

(** An error as the error handling middleware of the router looks at it. *)
Record UploadError := {
  isMulterError : bool;
  code : jsstring;
  message : jsstring
}.

(** The middleware answers with a status and a message, or passes the
    error on with [next(error)]. *)
Inductive Reply :=
| Status (status : nat) (text : jsstring)
| Next.

Definition uploadErrorHandler (error : UploadError) : Reply :=
  if isMulterError error then
    if strEq (code error) (lit "LIMIT_FILE_SIZE")
    then Status 400 (lit "File too large. Maximum size is 10MB.")
    else Status 400 (message error)
  else if includes (message error) (lit "File type")
          || includes (message error) (lit "not supported")
  then Status 400 (message error)
  else Next.

(** [req.file], as far as the route reads it. *)
Record File := {
  mimetype : jsstring;
  originalname : jsstring
}.

(** [x || 0] *)
Definition orZero (x : Number) : Number :=
  match x with
  | S754_zero _ | S754_nan => zero
  | _ => x
  end.

Definition suggestedTransaction (extractedData : ReceiptData) : Transaction :=
  {| date := receiptDate extractedData;
     description :=
       lit "Receipt from "
       ++ (if nonEmpty (merchantName extractedData)
           then merchantName extractedData
           else lit "Unknown Merchant");
     amount := orZero (total extractedData);
     type := lit "expense";
     category := receiptCategory extractedData;
     paymentMethod := lit "credit_card" |}.

(** The result of the upload route; of the quick actions the data are
    kept, the messages and labels, which repeat the count, are not. *)
Inductive UploadResult :=
| CsvResult (transactions preview : list Transaction)
| PdfResult (transactions preview : list Transaction)
| ReceiptResult (extractedData : ReceiptData) (suggested : Transaction).

Inductive UploadReply :=
| NoFile
| Processed (result : UploadResult)
| ProcessingError (errorMessage : jsstring).

Section Upload.

(** The readers that the helpers call on the stored file: the CSV reader
    gives the rows or fails with a message, the PDF reader and the OCR
    engine give a text or fail. *)
Variable readCSV : File -> list Row + jsstring.
Variable readPDF : File -> option jsstring.
Variable recognize : File -> option jsstring.

(** The handler of [POST /api/upload]; deleting the stored file is left
    out. *)
Definition processUpload (h : Host) (file : option File) : UploadReply :=
  match file with
  | None => NoFile
  | Some file =>
      if strEq (mimetype file) (lit "text/csv")
         || endsWith (toLowerCase (originalname file)) (lit ".csv")
      then
        match readCSV file with
        | inl rows =>
            let transactions := parseCSVFile h rows in
            Processed (CsvResult transactions (firstn 5 transactions))
        | inr errorMessage => ProcessingError errorMessage
        end
      else if strEq (mimetype file) (lit "application/pdf") then
        match readPDF file with
        | Some text =>
            let transactions := parsePDFTransactions h text in
            Processed (PdfResult transactions (firstn 5 transactions))
        | None => ProcessingError (lit "Failed to parse PDF transaction history")
        end
      else if startsWith (lit "image/") (mimetype file) then
        match recognize file with
        | Some text =>
            let extractedData := extractReceiptData h text in
            Processed (ReceiptResult extractedData
                                     (suggestedTransaction extractedData))
        | None => ProcessingError (lit "Failed to extract data from receipt")
        end
      else ProcessingError (lit "Unsupported file type")
  end.

End Upload.

(** ** The import routes *)

(** A value of a request body, as [JSON.parse] builds it; an object is
    given by its members in the order of the text. *)
#[local] Unset Elimination Schemes.
Inductive Json :=
| JNull
| JBool (b : bool)
| JNumber (x : Number)
| JString (s : jsstring)
| JArray (elements : list Json)
| JObject (members : list (jsstring * Json)).
#[local] Set Elimination Schemes.

(** An object under construction: its properties in the order they are
    written, a later one overwriting an earlier one of the same name. *)
Definition Obj := list (jsstring * Json).

(** [o[key]]; [None] is [undefined]. *)
Fixpoint getProp (o : Obj) (key : jsstring) : option Json :=
  match o with
  | [] => None
  | (k, v) :: rest =>
      match getProp rest key with
      | Some later => Some later
      | None => if strEq k key then Some v else None
      end
  end.

(** [!!x] *)
Definition toBoolean (x : option Json) : bool :=
  match x with
  | None | Some JNull => false
  | Some (JBool b) => b
  | Some (JNumber (S754_zero _)) | Some (JNumber S754_nan) => false
  | Some (JNumber _) => true
  | Some (JString s) => nonEmpty s
  | Some (JArray _) | Some (JObject _) => true
  end.

(** The decimal text of an array index. *)
Definition indexKey (i : nat) : jsstring :=
  lit (NilZero.string_of_uint (Nat.to_uint i)).

Fixpoint indexed {A : Type} (i : nat) (l : list A) : list (jsstring * A) :=
  match l with
  | [] => []
  | x :: rest => (indexKey i, x) :: indexed (S i) rest
  end.

(** The own enumerable properties that [{...v}] copies. *)
Definition spread (v : Json) : Obj :=
  match v with
  | JObject members => members
  | JArray elements => indexed 0 elements
  | JString s => indexed 0 (List.map (fun c => JString [c]) s)
  | JNull | JBool _ | JNumber _ => []
  end.

(** [v[key]] of a parsed value, for a [key] that is no array index and
    not ["length"]. *)
Definition member (v : Json) (key : jsstring) : option Json :=
  match v with
  | JObject members => getProp members key
  | _ => None
  end.

Definition missingFields : jsstring :=
  lit "Missing required fields: amount, description, or date".

(** [{ ...transaction, user: req.user._id }] *)
Definition transactionData (userId : Json) (transaction : Json) : Obj :=
  spread transaction ++ [(lit "user", userId)].

(** [!data.amount || !data.description || !data.date] *)
Definition lacksRequired (data : Obj) : bool :=
  negb (toBoolean (getProp data (lit "amount")))
  || negb (toBoolean (getProp data (lit "description")))
  || negb (toBoolean (getProp data (lit "date"))).

Record ImportError := {
  index : nat;
  transaction : Json;
  error : jsstring
}.

Section Store.

(** The transaction store: [new Transaction(data)] and [save()] on a
    state of the database give the new state and the saved document, or
    the message of the error thrown. *)
Variables DB Doc : Type.
Variable save : DB -> Obj -> DB * (Doc + jsstring).

(** The body of the loop of the import routes: the [try] block for one
    transaction. *)
Definition importOne (userId : Json) (db : DB) (transaction : Json)
    : DB * (Doc + jsstring) :=
  let data := transactionData userId transaction in
  if lacksRequired data then (db, inr missingFields)
  else save db data.

Record ImportState := {
  database : DB;
  savedTransactions : list Doc;
  errors : list ImportError
}.

(** The loop [for (let i = 0; i < transactions.length; i++)], from
    index [i] on. *)
Fixpoint importFrom (userId : Json) (i : nat) (transactions : list Json)
    (st : ImportState) : ImportState :=
  match transactions with
  | [] => st
  | transaction :: rest =>
      match importOne userId (database st) transaction with
      | (db, inl doc) =>
          importFrom userId (S i) rest
            {| database := db;
               savedTransactions := savedTransactions st ++ [doc];
               errors := errors st |}
      | (db, inr message) =>
          importFrom userId (S i) rest
            {| database := db;
               savedTransactions := savedTransactions st;
               errors := errors st
                         ++ [ {| index := i; transaction := transaction;
                                 error := message |} ] |}
      end
  end.

(** The answer of [POST /bulk-import]: status 400 with a message, the
    report, or status 500 with a message from the outer [catch] (its
    [error] member is the text that the engine gives the exception). *)
Inductive ImportReply :=
| Refused (text : jsstring)
| Report (imported : nat) (failed : nat) (errorDetails : list ImportError)
         (transactions : list Doc)
| Failed (text : jsstring).

(** [const { transactions } = req.body] throws for a body that is
    [null]; of any other value it reads the member, [undefined] when
    there is none. *)
Definition bulkImport (userId : Json) (db : DB) (body : Json)
    : DB * ImportReply :=
  match body with
  | JNull => (db, Failed (lit "Error during bulk import"))
  | _ =>
      match member body (lit "transactions") with
      | Some (JArray transactions) =>
          match transactions with
          | [] => (db, Refused (lit "No transactions provided"))
          | _ =>
              let st := importFrom userId 0 transactions
                          {| database := db; savedTransactions := [];
                             errors := [] |} in
              (database st,
               Report (length (savedTransactions st)) (length (errors st))
                      (errors st) (savedTransactions st))
          end
      | _ => (db, Refused (lit "No transactions provided"))
      end
  end.

(** The answer of [POST /add-single]. *)
Inductive SingleReply :=
| Incomplete (text : jsstring)
| Added (doc : Doc)
| AddError (errorMessage : jsstring).

Definition addSingle (userId : Json) (db : DB) (body : Json)
    : DB * SingleReply :=
  let data := transactionData userId body in
  if lacksRequired data then (db, Incomplete missingFields)
  else
    match save db data with
    | (db', inl doc) => (db', Added doc)
    | (db', inr message) => (db', AddError message)
    end.

End Store.

(** ** The CSV reader *)

(** The row that the [csv-parser] package emits for a line of a file,
    the line given by its cells.  The source sets the option
    [headers: true]: with a value that is neither [false] nor a list of
    names the reader takes no line for the header line (and so never
    calls [mapHeaders]), has no name for any column, and puts cell [i]
    of every line under the key [_i]. *)
Definition writeRow (cells : list jsstring) : Row :=
  List.map (fun kv => (ch "_" :: fst kv, snd kv)) (indexed 0 cells).

(** The [data] events of a file, the header line among them. *)
Definition csvRows (lines : list (list jsstring)) : list Row :=
  List.map writeRow lines.

(** ** Records on the wire *)

(** [n] written with [width] digits. *)
Fixpoint padded (width : nat) (n : Z) : jsstring :=
  match width with
  | O => []
  | S w => padded w (n / 10) ++ [Z.to_N (48 + n mod 10)]
  end.

(** The day of the proleptic Gregorian calendar that is [z] days from
    1970-01-01. *)
Definition civilFromDays (z : Z) : Z * Z * Z :=
  let z := (z + 719468)%Z in
  let era := (z / 146097)%Z in
  let doe := (z - era * 146097)%Z in
  let yoe := ((doe - doe / 1460 + doe / 36524 - doe / 146096) / 365)%Z in
  let doy := (doe - (365 * yoe + yoe / 4 - yoe / 100))%Z in
  let mp := ((5 * doy + 2) / 153)%Z in
  let d := (doy - (153 * mp + 2) / 5 + 1)%Z in
  let m := if (mp <? 10)%Z then (mp + 3)%Z else (mp - 9)%Z in
  let y := (yoe + era * 400 + (if (m <=? 2)%Z then 1 else 0))%Z in
  (y, m, d).

(** [d.toISOString()] of the time value [t]. *)
Definition toISOString (t : Z) : jsstring :=
  let days := (t / 86400000)%Z in
  let ms := (t mod 86400000)%Z in
  let '(y, m, d) := civilFromDays days in
  let year :=
    if (0 <=? y)%Z && (y <=? 9999)%Z then padded 4 y
    else (if (y <? 0)%Z then lit "-" else lit "+") ++ padded 6 (Z.abs y) in
  year ++ lit "-" ++ padded 2 m ++ lit "-" ++ padded 2 d ++ lit "T"
  ++ padded 2 (ms / 3600000) ++ lit ":" ++ padded 2 (ms / 60000 mod 60)
  ++ lit ":" ++ padded 2 (ms / 1000 mod 60) ++ lit "."
  ++ padded 3 (ms mod 1000) ++ lit "Z".

(** [JSON.stringify] and [JSON.parse] of a Number: what is not finite is
    sent as [null], and zero loses its sign. *)
Definition jsonOfNumber (x : Number) : Json :=
  match x with
  | S754_finite _ _ _ => JNumber x
  | S754_zero _ => JNumber zero
  | S754_infinity _ | S754_nan => JNull
  end.

(** A Date is sent as its ISO text, the Invalid Date as [null]. *)
Definition jsonOfDate (d : Date) : Json :=
  match d with
  | Some t => JString (toISOString t)
  | None => JNull
  end.

(** A record as the client gets it in the answer of the upload route and
    sends it back to the import route. *)
Definition jsonOfTransaction (t : Transaction) : Json :=
  JObject
    [ (lit "date", jsonOfDate (date t));
      (lit "description", JString (description t));
      (lit "amount", jsonOfNumber (amount t));
      (lit "type", JString (type t));
      (lit "category", JString (category t));
      (lit "paymentMethod", JString (paymentMethod t)) ].

(** ** Vocabulary of the further statements *)

(** The amounts that the total patterns read on the lines, in the order
    of the two loops. *)
Definition candidatesOfLine (line : jsstring) : list Number :=
  List.flat_map
    (fun pattern =>
       match String_match line pattern with
       | Some m => [parseFloatOf (at_ m 1)]
       | None => []
       end)
    totalPatterns.

Definition candidates (lines : list jsstring) : list Number :=
  List.flat_map candidatesOfLine lines.

(** The cell that [cleanData] holds under a name: the one of the last
    column whose trimmed, lower-cased name it is. *)
Fixpoint lastCell (name : jsstring) (data : Row) : option jsstring :=
  match data with
  | [] => None
  | (key, cell) :: rest =>
      match lastCell name rest with
      | Some later => Some later
      | None => if strEq (toLowerCase (trim key)) name then Some cell else None
      end
  end.

(** A field is blank when each of its column names is absent or has an
    empty cell. *)
Definition blank (aliases : list jsstring) (data : Row) : Prop :=
  forall a, In a aliases ->
    cleanData data !! a = None \/ cleanData data !! a = Some [].

Definition isBlankText (text : jsstring) : Prop :=
  Forall (fun c => isSpace c = true) text.

Definition spreadsheetTypes : list jsstring :=
  List.map lit
    [ "application/vnd.ms-excel";
      "application/vnd.openxmlformats-officedocument.spreadsheetml.sheet" ]%string.

(** The three ways through the upload route. *)
Definition viaCSV (readCSV : File -> list Row + jsstring) (h : Host)
    (file : File) : UploadReply :=
  match readCSV file with
  | inl rows =>
      Processed (CsvResult (parseCSVFile h rows)
                           (firstn 5 (parseCSVFile h rows)))
  | inr errorMessage => ProcessingError errorMessage
  end.

Definition viaPDF (readPDF : File -> option jsstring) (h : Host)
    (file : File) : UploadReply :=
  match readPDF file with
  | Some text =>
      Processed (PdfResult (parsePDFTransactions h text)
                           (firstn 5 (parsePDFTransactions h text)))
  | None => ProcessingError (lit "Failed to parse PDF transaction history")
  end.

Definition viaOCR (recognize : File -> option jsstring) (h : Host)
    (file : File) : UploadReply :=
  match recognize file with
  | Some text =>
      Processed (ReceiptResult (extractReceiptData h text)
                   (suggestedTransaction (extractReceiptData h text)))
  | None => ProcessingError (lit "Failed to extract data from receipt")
  end.

Definition hasCsvName (file : File) : bool :=
  endsWith (toLowerCase (originalname file)) (lit ".csv").

(** Two texts that differ at most in the case of their ASCII letters. *)
Definition sameUpToCase (s t : jsstring) : Prop :=
  Forall2 (fun a b => asciiUpper a = asciiUpper b) s t.

(** What an import route refuses in a member: absent, [null], [false],
    0 or the empty text. *)
Definition required (transaction : Json) (key : string) : bool :=
  toBoolean (member transaction (lit key)).

(** The valid date that the date patterns find on a line, if any. *)
Definition lineDate (h : Host) (line : jsstring) : Date :=
  dateOfLine h line datePatterns None.

(** The texts taken by the quantified atoms of a pattern are made of
    units of their classes, within the bounds of the quantifiers. *)
Fixpoint fits (i : bool) (r : list Node) (chunks : list jsstring) : Prop :=
  match r with
  | [] => chunks = []
  | Rep a _ lo hi :: r' =>
      match chunks with
      | [] => False
      | c :: cs =>
          Forall (fun x => atomMatches i a x = true) c
          /\ (lo <= length c)%nat
          /\ match hi with
             | Some h => (length c <= h)%nat
             | None => True
             end
          /\ fits i r' cs
      end
  | Open :: r' => fits i r' chunks
  | Close :: r' => fits i r' chunks
  end.

Definition isDateUnit (c : char) : bool :=
  isDigit c || (c =? ch "/") || (c =? ch "-").

Definition isAmountUnit (c : char) : bool :=
  isDigit c || (c =? ch "+") || (c =? ch "-") || (c =? ch "$")
  || (c =? rupee) || (c =? ch ",") || (c =? ch ".").

(** How a statement line reads: something, a date shape, white space, a
    description, white space, an amount token, something. *)
Record LineParts := {
  lead : jsstring;
  dateText : jsstring;
  gap1 : jsstring;
  descriptionText : jsstring;
  gap2 : jsstring;
  token : jsstring;
  trail : jsstring
}.

Definition joined (p : LineParts) : jsstring :=
  lead p ++ dateText p ++ gap1 p ++ descriptionText p ++ gap2 p
  ++ token p ++ trail p.

Definition wellFormedParts (p : LineParts) : Prop :=
  dateText p <> [] /\ Forall (fun c => isDateUnit c = true) (dateText p)
  /\ gap1 p <> [] /\ Forall (fun c => isSpace c = true) (gap1 p)
  /\ descriptionText p <> []
  /\ Forall (fun c => isLineTerminator c = false) (descriptionText p)
  /\ gap2 p <> [] /\ Forall (fun c => isSpace c = true) (gap2 p)
  /\ hasDigit (token p) || includes (token p) (lit ",") = true
  /\ Forall (fun c => isAmountUnit c = true) (token p).

(** [parseCSVFile] with the clock as each handler finds it: every row
    comes with what [new Date()] gives while its [data] event is
    handled. *)
Definition parseCSVFileAt (parse : jsstring -> Date) (rows : list (Z * Row))
    : list Transaction :=
  List.flat_map (fun row => onData (hostWith parse (fst row)) (snd row)) rows.

(** The date that the engine reads in a date shape found in a text;
    the Invalid Date when the shape is not found. *)
Definition shapeDate (h : Host) (text : jsstring) (format : RegExp) : Date :=
  match String_match text format with
  | Some m => newDate h (at_ m 1)
  | None => None
  end.

Definition categoryAliases : list jsstring :=
  List.map lit ["category"; "transaction_category"; "transactioncategory"]%string.

(** White space, an optional [$] and a digit at the head of a text: what
    the item pattern wants after the name. *)
Definition numberHead (s : jsstring) : bool :=
  match s with
  | x :: rest =>
      isDigit x
      || ((x =? ch "$") && match rest with y :: _ => isDigit y | [] => false end)
  | [] => false
  end.

Definition numberAfterSpace (s : jsstring) : bool :=
  match s with
  | c :: _ => isSpace c && numberHead (dropWhile isSpace s)
  | [] => false
  end.

(** A text in which some white space is followed by a number. *)
Fixpoint numberedInside (s : jsstring) : bool :=
  match s with
  | [] => false
  | _ :: t => numberAfterSpace s || numberedInside t
  end.

(** The last unit of a text is white space. *)
Definition endsInSpace (s : jsstring) : bool :=
  match List.rev s with
  | c :: _ => isSpace c
  | [] => false
  end.

(** The file of one row under its header line, by lines and cells. *)
Definition groceryLines : list (list jsstring) :=
  [ List.map lit ["date"; "description"; "amount"]%string;
    List.map lit ["2024-01-15"; "Grocery Store"; "-45.67"]%string ].

(** A statement of five lines: a heading, a line for each of the three
    patterns, and a line that the first and the third pattern match. *)
Definition statementLines : list jsstring :=
  List.map lit
    [ "Statement of account";
      "01/15/2024 Deposit from Employer +$1,200.00";
      "01-16-2024 Shell Gas Station -45.50";
      "2024-01-17 Card credit 20.00";
      "2024-01-18 due 01/20/2024 Rent 5.00" ]%string.

Definition statementText : jsstring :=
  List.concat (List.map (fun line => line ++ newline) statementLines).

(** A row with a category cell, and a row whose date no engine reads. *)
Definition categorizedRow : Row :=
  [ (lit "Date", lit "2024-01-15"); (lit "Memo", lit "Grocery Store");
    (lit "Amount", lit "-45.67"); (lit "Category", []);
    (lit "Transaction_Category", lit "Household") ].

Definition undatedRow : Row :=
  [ (lit "date", lit "yesterday"); (lit "description", lit "Grocery Store");
    (lit "amount", lit "-45.67") ].

(** The records of two runs on one row, handled at the clock readings
    [now1] and [now2]: equal in every field but the date, with the date
    of the row in both when the row's date parses, and with the clock
    reading of each when it does not. *)
Definition agree (parse : jsstring -> Date) (now1 now2 : Z) (data : Row)
    (r1 r2 : Transaction) : Prop :=
  undated r1 = undated r2
  /\ datedAlike now1 now2 (dateOfRow (hostWith parse now1) data)
                (date r1) (date r2).

(** The date on the last line that has one. *)
Definition lastLineDate (h : Host) (lines : list jsstring) : Date :=
  fold_left
    (fun d line => match lineDate h line with Some t => Some t | None => d end)
    lines None.

(** The six labels of [determineCategory]. *)
Definition classifierLabels : list jsstring :=
  List.map lit ["Food & Dining"; "Transportation"; "Shopping";
                "Entertainment"; "Health & Fitness"; "Other"]%string.

(** What the import routes ask of an object before they store it. *)
Definition storable (userId : Json) (data : Obj) : Prop :=
  lacksRequired data = false /\ getProp data (lit "user") = Some userId.

(** Indices that grow and stay below [n]. *)
Fixpoint increasingBelow (lo n : nat) (l : list nat) : Prop :=
  match l with
  | [] => True
  | i :: rest => (lo <= i < n)%nat /\ increasingBelow (S i) n rest
  end.

(** * Properties *)

(** Decide every comparison of a code unit with a constant from the
    bounds in the context. *)
Ltac decide_units :=
  repeat match goal with
    | |- context [N.eqb ?a ?b] =>
        let H := fresh in
        first [ assert (H : N.eqb a b = true) by (apply N.eqb_eq; lia)
              | assert (H : N.eqb a b = false) by (apply N.eqb_neq; lia) ];
        rewrite H; clear H
    | |- context [N.leb ?a ?b] =>
        let H := fresh in
        first [ assert (H : N.leb a b = true) by (apply N.leb_le; lia)
              | assert (H : N.leb a b = false) by (apply N.leb_gt; lia) ];
        rewrite H; clear H
    end.

(** ** Strings *)

Section Strings.

Lemma dropWhile_twice (p : char -> bool) (s : jsstring) :
  dropWhile p (dropWhile p s) = dropWhile p s.
Proof.
  induction s as [|c t IH]; simpl; [reflexivity|].
  destruct (p c) eqn:Hc; [exact IH|].
  simpl. now rewrite Hc.
Qed.

Lemma dropWhile_keeps_last (p : char -> bool) (s : jsstring) (c : char) :
  p c = false -> dropWhile p (s ++ [c]) = dropWhile p s ++ [c].
Proof.
  intros Hc. induction s as [|x t IH]; simpl.
  - now rewrite Hc.
  - destruct (p x); [exact IH | reflexivity].
Qed.

Lemma dropWhile_head (p : char -> bool) (s : jsstring) :
  match dropWhile p s with
  | [] => True
  | c :: _ => p c = false
  end.
Proof.
  induction s as [|x t IH]; simpl; [exact I|].
  destruct (p x) eqn:Hx; [exact IH | exact Hx].
Qed.

Lemma dropWhile_id (p : char -> bool) (c : char) (s : jsstring) :
  p c = false -> dropWhile p (c :: s) = c :: s.
Proof. intros Hc. simpl. now rewrite Hc. Qed.

Lemma trimEnd_twice (s : jsstring) : trimEnd (trimEnd s) = trimEnd s.
Proof.
  unfold trimEnd. now rewrite List.rev_involutive, dropWhile_twice.
Qed.

Lemma trimEnd_head (c : char) (s : jsstring) :
  isSpace c = false -> exists t, trimEnd (c :: s) = c :: t.
Proof.
  intros Hc. unfold trimEnd.
  assert (Hrev : exists u, List.rev (c :: s) = u ++ [c]) by (now exists (List.rev s)).
  destruct Hrev as [u ->].
  rewrite dropWhile_keeps_last by exact Hc.
  rewrite List.rev_app_distr. simpl. eauto.
Qed.

(** [trim] leaves no white space at either end, so trimming again changes
    nothing. *)
Lemma trim_idempotent (s : jsstring) : trim (trim s) = trim s.
Proof.
  unfold trim.
  assert (Hstart : trimStart (trimEnd (trimStart s)) = trimEnd (trimStart s)).
  { pose proof (dropWhile_head isSpace s) as Hh.
    fold (trimStart s) in Hh.
    destruct (trimStart s) as [|c t]; [reflexivity|].
    destruct (trimEnd_head c t Hh) as [u ->].
    now apply dropWhile_id. }
  rewrite Hstart. apply trimEnd_twice.
Qed.

Lemma trim_id (s : jsstring) :
  Forall (fun c => isSpace c = false) s -> trim s = s.
Proof.
  intros Hs. unfold trim, trimStart, trimEnd.
  destruct s as [|c t]; [reflexivity|].
  inversion Hs as [|? ? Hc Ht]; subst.
  rewrite dropWhile_id by exact Hc.
  assert (Hlast : exists u x, List.rev (c :: t) = x :: u /\ isSpace x = false).
  { destruct (List.rev (c :: t)) as [|x u] eqn:Hr.
    - apply (f_equal (@length _)) in Hr. rewrite List.length_rev in Hr. discriminate.
    - exists u, x. split; [reflexivity|].
      assert (Hin : In x (c :: t)).
      { apply List.in_rev. rewrite Hr. now left. }
      rewrite List.Forall_forall in Hs. now apply Hs. }
  destruct Hlast as (u & x & Hr & Hx).
  rewrite Hr, dropWhile_id by exact Hx.
  rewrite <- Hr. apply List.rev_involutive.
Qed.

End Strings.

(** ** Numbers *)

Section Numbers.

Lemma gt_zero_not_NaN (x : Number) : gt x zero = true -> isNaN x = false.
Proof. destruct x; simpl; intros H; try reflexivity; discriminate. Qed.

Lemma gt_zero_abs (x : Number) :
  gt (Math_abs x) zero = true <-> (gt x zero = true \/ gt zero x = true).
Proof.
  destruct x as [s|s| |s m e]; simpl; unfold gt, SFltb; simpl;
    try destruct s; intuition congruence.
Qed.

Lemma nonNegative_spec (x : Number) :
  nonNegative x -> isNaN x = false /\ gt zero x = false /\ Math_abs x = x.
Proof.
  destruct x as [s|s| |s m e]; simpl; intros H; try contradiction; subst;
    repeat split; reflexivity.
Qed.

Lemma shr_1_nonNeg (r : shr_record) : nonNegRecord r -> nonNegRecord (shr_1 r).
Proof.
  destruct r as [m b c]. unfold nonNegRecord. simpl.
  destruct m as [|p|p]; simpl; try lia; destruct p; simpl; lia.
Qed.

Lemma iter_pos_nonNeg (n : positive) (r : shr_record) :
  nonNegRecord r -> nonNegRecord (SpecFloat.iter_pos shr_1 n r).
Proof.
  revert r. induction n as [n IH|n IH|]; intros r Hr; simpl.
  - apply IH, IH, shr_1_nonNeg, Hr.
  - apply IH, IH, Hr.
  - apply shr_1_nonNeg, Hr.
Qed.

Lemma shr_fexp_nonNeg (m e : Z) (l : location) :
  (0 <= m)%Z -> nonNegRecord (fst (shr_fexp prec emax m e l)).
Proof.
  intros Hm. unfold shr_fexp, shr.
  assert (H0 : nonNegRecord (shr_record_of_loc m l)).
  { unfold nonNegRecord. destruct l as [|[]]; simpl; exact Hm. }
  destruct (fexp prec emax (Zdigits2 m + e) - e)%Z; simpl;
    try exact H0. now apply iter_pos_nonNeg.
Qed.

Lemma round_nearest_even_nonNeg (m : Z) (l : location) :
  (0 <= m)%Z -> (0 <= round_nearest_even m l)%Z.
Proof.
  intros Hm. unfold round_nearest_even.
  destruct l as [|[]]; try lia. destruct (Z.even m); lia.
Qed.

(** Rounding a mantissa that is not negative gives a Number with the sign
    asked for, never [NaN]. *)
Lemma binary_round_aux_sign (m e : Z) (l : location) :
  (0 <= m)%Z -> nonNegative (binary_round_aux prec emax false m e l).
Proof.
  intros Hm. unfold binary_round_aux.
  pose proof (shr_fexp_nonNeg m e l Hm) as H1.
  destruct (shr_fexp prec emax m e l) as [r1 e1]. simpl in H1.
  pose proof (shr_fexp_nonNeg
                (round_nearest_even (shr_m r1) (loc_of_shr_record r1)) e1 loc_Exact
                (round_nearest_even_nonNeg _ _ H1)) as H2.
  destruct (shr_fexp prec emax _ e1 loc_Exact) as [r2 e2]. simpl in H2.
  unfold nonNegRecord in H2.
  destruct (shr_m r2) as [|p|p]; simpl; try reflexivity; try lia.
  destruct (e2 <=? emax - prec)%Z; reflexivity.
Qed.

Lemma ofDecimal_nonNegative (m : N) (e : Z) : nonNegative (ofDecimal false m e).
Proof.
  unfold ofDecimal. destruct m as [|p]; [reflexivity|].
  destruct (0 <=? e)%Z.
  - unfold binary_round.
    destruct (shl_align _ _ _) as [mz ez].
    apply binary_round_aux_sign. lia.
  - unfold SFdiv.
    destruct (SFdiv_core_binary _ _ _ _ _ _) as [[q eq] l] eqn:Hdiv.
    simpl. apply binary_round_aux_sign.
    unfold SFdiv_core_binary in Hdiv.
    match type of Hdiv with
    | context [Z.div_eucl ?a ?b] =>
        pose proof (Z_div_mod a b ltac:(lia)) as Hq;
        assert (Ha : (0 <= a)%Z)
    end.
    { destruct (_ - _ - _)%Z; try lia. apply Z.shiftl_nonneg. lia. }
    destruct (Z.div_eucl _ _) as [q' r'].
    injection Hdiv as <- _ _. nia.
Qed.

End Numbers.

(** ** The matcher *)

Section Matcher.

Variable p : char -> bool.
Variable k : jsstring -> option MatchState.

Lemma rep_nil (g : bool) (lo : nat) (hi : option nat) (n : nat) (acc : jsstring) :
  rep p g lo hi k n acc [] = stopHere lo k n acc [].
Proof. destruct g; simpl; [reflexivity|]. now destruct (stopHere lo k n acc []). Qed.

Lemma rep_cons (g : bool) (lo : nat) (hi : option nat) (n : nat)
    (acc : jsstring) (c : char) (s : jsstring) :
  rep p g lo hi k n acc (c :: s) =
  let more := if p c && belowMax n hi
              then rep p g lo hi k (S n) (c :: acc) s else None in
  if g then match more with Some r => Some r | None => stopHere lo k n acc (c :: s) end
  else match stopHere lo k n acc (c :: s) with Some r => Some r | None => more end.
Proof. destruct g; reflexivity. Qed.

Lemma stopHere_inv (lo n : nat) (acc s : jsstring) (r : MatchState) :
  stopHere lo k n acc s = Some r ->
  (lo <= n)%nat /\ exists cs, k s = Some (cs, snd r) /\ fst r = List.rev acc :: cs.
Proof.
  unfold stopHere. destruct (Nat.leb lo n) eqn:Hlo; [|discriminate].
  apply Nat.leb_le in Hlo.
  destruct (k s) as [[cs rest]|]; [|discriminate].
  intros [= <-]. simpl. eauto.
Qed.

(** Whatever the matcher returns is a split of the input: units of the
    class, within the bounds of the quantifier, then a text that the
    continuation accepts. *)
Lemma rep_sound (g : bool) (lo : nat) (hi : option nat) (s : jsstring) :
  forall (n : nat) (acc : jsstring) (chunks : list jsstring) (rest : jsstring),
    rep p g lo hi k n acc s = Some (chunks, rest) ->
    exists taken s' cs,
      s = taken ++ s'
      /\ Forall (fun c => p c = true) taken
      /\ (lo <= n + length taken)%nat
      /\ match hi with
         | Some h => taken = [] \/ (n + length taken <= h)%nat
         | None => True
         end
      /\ k s' = Some (cs, rest)
      /\ chunks = (List.rev acc ++ taken) :: cs.
Proof.
  induction s as [|c s IH]; intros n acc chunks rest H.
  - rewrite rep_nil in H. apply stopHere_inv in H as (Hlo & cs & Hk & Hc).
    simpl in *. exists [], [], cs. rewrite (List.app_nil_r (List.rev acc)).
    split; [reflexivity|]. split; [constructor|]. split; [simpl; lia|].
    split; [destruct hi; auto|]. split; assumption.
  - rewrite rep_cons in H. cbv zeta in H.
    assert (Hstop : stopHere lo k n acc (c :: s) = Some (chunks, rest) ->
            exists taken s' cs,
              c :: s = taken ++ s'
              /\ Forall (fun c => p c = true) taken
              /\ (lo <= n + length taken)%nat
              /\ match hi with
                 | Some h => taken = [] \/ (n + length taken <= h)%nat
                 | None => True
                 end
              /\ k s' = Some (cs, rest)
              /\ chunks = (List.rev acc ++ taken) :: cs).
    { intros Hs. apply stopHere_inv in Hs as (Hlo & cs & Hk & Hc).
      simpl in *. exists [], (c :: s), cs. rewrite (List.app_nil_r (List.rev acc)).
      split; [reflexivity|]. split; [constructor|]. split; [simpl; lia|].
      split; [destruct hi; auto|]. split; assumption. }
    assert (Hmore : (if p c && belowMax n hi
                     then rep p g lo hi k (S n) (c :: acc) s else None)
                    = Some (chunks, rest) ->
            exists taken s' cs,
              c :: s = taken ++ s'
              /\ Forall (fun c => p c = true) taken
              /\ (lo <= n + length taken)%nat
              /\ match hi with
                 | Some h => taken = [] \/ (n + length taken <= h)%nat
                 | None => True
                 end
              /\ k s' = Some (cs, rest)
              /\ chunks = (List.rev acc ++ taken) :: cs).
    { destruct (p c) eqn:Hp; [|discriminate].
      destruct (belowMax n hi) eqn:Hb; [|discriminate]. simpl.
      intros Hr. apply IH in Hr as (taken & s' & cs & -> & Hall & Hlo & Hhi & Hk & ->).
      exists (c :: taken), s', cs. simpl.
      repeat split; auto; try lia.
      - destruct hi as [h|]; [|exact I]. right. simpl in Hb.
        apply Nat.ltb_lt in Hb. destruct Hhi as [-> | Hle]; simpl; lia.
      - now rewrite <- List.app_assoc. }
    destruct g.
    + destruct (if p c && belowMax n hi then _ else None) as [r|] eqn:Hm.
      * injection H as ->. now apply Hmore.
      * now apply Hstop.
    + destruct (stopHere lo k n acc (c :: s)) as [r|] eqn:Hs.
      * injection H as ->. now apply Hstop.
      * now apply Hmore.
Qed.

(** A text that does not start with a unit of the class fails a
    quantifier that wants at least one. *)
Lemma rep_fail_head (g : bool) (lo : nat) (hi : option nat) (acc s : jsstring) :
  (1 <= lo)%nat ->
  match s with [] => True | c :: _ => p c = false end ->
  rep p g lo hi k 0 acc s = None.
Proof.
  intros Hlo Hs.
  assert (Hstop : stopHere lo k 0 acc s = None).
  { unfold stopHere. destruct (Nat.leb lo 0) eqn:H0; [|reflexivity].
    apply Nat.leb_le in H0. lia. }
  destruct s as [|c s].
  - now rewrite rep_nil.
  - rewrite rep_cons. cbv zeta. rewrite Hs, Hstop. simpl. now destruct g.
Qed.

(** A greedy quantifier takes all the units it can when the continuation
    accepts what follows them. *)
Lemma rep_greedy_take (lo : nat) (hi : option nat) (taken s' : jsstring)
    (cs : list jsstring) (rest : jsstring) :
  Forall (fun c => p c = true) taken ->
  match s' with [] => True | c :: _ => p c = false end ->
  k s' = Some (cs, rest) ->
  forall (n : nat) (acc : jsstring),
    (lo <= n + length taken)%nat ->
    match hi with Some h => (n + length taken <= h)%nat | None => True end ->
    rep p true lo hi k n acc (taken ++ s') = Some ((List.rev acc ++ taken) :: cs, rest).
Proof.
  intros Hall Hhead Hk.
  induction Hall as [|c t Hc Ht IH]; intros n acc Hlo Hhi; cbn [app length] in *.
  - assert (Hstop : stopHere lo k n acc s' = Some (List.rev acc :: cs, rest)).
    { unfold stopHere. rewrite Hk.
      destruct (Nat.leb lo n) eqn:H0; [reflexivity|].
      apply Nat.leb_gt in H0. lia. }
    rewrite List.app_nil_r.
    destruct s' as [|c s'].
    + now rewrite rep_nil.
    + rewrite rep_cons. cbv zeta. now rewrite Hhead, Hstop.
  - rewrite rep_cons. cbv zeta. rewrite Hc.
    assert (Hb : belowMax n hi = true).
    { destruct hi as [h|]; [|reflexivity]. simpl. apply Nat.ltb_lt. lia. }
    rewrite Hb. simpl.
    rewrite (IH (S n) (c :: acc)).
    + simpl. now rewrite <- List.app_assoc.
    + lia.
    + destruct hi; [lia | exact I].
Qed.

(** A lazy quantifier without upper bound takes units until the
    continuation accepts for the first time. *)
Lemma rep_lazy_scan (lo : nat) (taken s' : jsstring)
    (cs : list jsstring) (rest : jsstring) :
  Forall (fun c => p c = true) taken ->
  (forall t1 c t2, taken = t1 ++ c :: t2 -> k (c :: t2 ++ s') = None) ->
  k s' = Some (cs, rest) ->
  forall (n : nat) (acc : jsstring),
    (lo <= n + length taken)%nat ->
    rep p false lo None k n acc (taken ++ s') = Some ((List.rev acc ++ taken) :: cs, rest).
Proof.
  intros Hall. induction Hall as [|c t Hc Ht IH]; intros Hfail Hk n acc Hlo;
    cbn [app length] in *.
  - assert (Hstop : stopHere lo k n acc s' = Some (List.rev acc :: cs, rest)).
    { unfold stopHere. rewrite Hk.
      destruct (Nat.leb lo n) eqn:H0; [reflexivity|].
      apply Nat.leb_gt in H0. lia. }
    rewrite List.app_nil_r.
    destruct s' as [|c s'].
    + now rewrite rep_nil.
    + rewrite rep_cons. cbv zeta. now rewrite Hstop.
  - rewrite rep_cons. cbv zeta. rewrite Hc. simpl.
    assert (Hstop : stopHere lo k n acc (c :: t ++ s') = None).
    { unfold stopHere. rewrite (Hfail [] c t eq_refl). now destruct (Nat.leb lo n). }
    rewrite Hstop, (IH).
    + simpl. now rewrite <- List.app_assoc.
    + intros t1 c' t2 ->. apply (Hfail (c :: t1) c' t2). reflexivity.
    + exact Hk.
    + lia.
Qed.

End Matcher.

Lemma exec_here (i : bool) (r : list Node) (s : jsstring)
    (chunks : list jsstring) (rest : jsstring) :
  run i r s = Some (chunks, rest) -> exec i r s = Some (matchArray r chunks).
Proof. intros H. destruct s; simpl; now rewrite H. Qed.

(** ** What a match is made of *)

Lemma runK_sound (i : bool) (r : list Node) :
  forall (k : jsstring -> option MatchState) (s : jsstring)
         (chunks : list jsstring) (rest : jsstring),
    runK i r k s = Some (chunks, rest) ->
    exists cs1 cs2 s',
      chunks = cs1 ++ cs2 /\ s = List.concat cs1 ++ s'
      /\ k s' = Some (cs2, rest) /\ fits i r cs1.
Proof.
  induction r as [|[a g lo hi| |] r IH]; intros k s chunks rest H;
    cbn [runK] in H.
  - exists [], chunks, s. repeat split; auto.
  - apply rep_sound in H
      as (taken & s1 & cs & -> & Hall & Hlo & Hhi & Hk & ->).
    apply IH in Hk as (cs1 & cs2 & s' & -> & -> & Hk & Hfit).
    exists (taken :: cs1), cs2, s'. cbn [List.rev app List.concat fits].
    rewrite <- List.app_assoc. repeat split; auto.
    destruct hi as [h|]; [|exact I].
    destruct Hhi as [-> | Hle]; simpl in *; lia.
  - apply IH in H as (cs1 & cs2 & s' & -> & -> & Hk & Hfit). eauto 8.
  - apply IH in H as (cs1 & cs2 & s' & -> & -> & Hk & Hfit). eauto 8.
Qed.

Lemma run_sound (i : bool) (r : list Node) (s : jsstring)
    (chunks : list jsstring) (rest : jsstring) :
  run i r s = Some (chunks, rest) ->
  s = List.concat chunks ++ rest /\ fits i r chunks.
Proof.
  intros H. apply runK_sound in H as (cs1 & cs2 & s' & -> & -> & Hk & Hfit).
  unfold accept in Hk. injection Hk as <- <-.
  now rewrite List.app_nil_r.
Qed.

(** A match of a pattern without the [g] flag is a piece of the text,
    made as the pattern says. *)
Lemma exec_sound (i : bool) (r : list Node) (s : jsstring) (m : list jsstring) :
  exec i r s = Some m ->
  exists pre chunks rest,
    s = pre ++ List.concat chunks ++ rest
    /\ fits i r chunks /\ m = matchArray r chunks.
Proof.
  induction s as [|c s IH]; cbn [exec].
  - destruct (run i r []) as [[chunks rest]|] eqn:Hrun; [|discriminate].
    intros [= <-]. apply run_sound in Hrun as [Hs Hfit].
    exists [], chunks, rest. auto.
  - destruct (run i r (c :: s)) as [[chunks rest]|] eqn:Hrun.
    + intros [= <-]. apply run_sound in Hrun as [Hs Hfit].
      exists [], chunks, rest. auto.
    + intros H. apply IH in H as (pre & chunks & rest & -> & Hfit & ->).
      exists (c :: pre), chunks, rest. auto.
Qed.

(** ** The importers, record by record *)

Section Importers.

Variable h : Host.

Lemma labels_differ : lit "income" <> lit "expense".
Proof. discriminate. Qed.

Lemma isIncomeCSV_eq (a : bool) (lower : jsstring) :
  a || includes lower (lit "deposit") || includes lower (lit "salary")
    || includes lower (lit "payment received") || includes lower (lit "credit")
    || includes lower (lit "refund")
  = a || containsAny lower incomeKeywordsCSV.
Proof.
  unfold containsAny, incomeKeywordsCSV. cbn [List.map existsb].
  rewrite orb_false_r, <- !orb_assoc. reflexivity.
Qed.

Lemma isIncomePDF_eq (a : bool) (lower : jsstring) :
  a || includes lower (lit "deposit") || includes lower (lit "payment received")
    || includes lower (lit "credit")
  = a || containsAny lower incomeKeywordsPDF.
Proof.
  unfold containsAny, incomeKeywordsPDF. cbn [List.map existsb].
  rewrite orb_false_r, <- !orb_assoc. reflexivity.
Qed.

Lemma containsAny_spec (text : jsstring) (keywords : list jsstring) :
  containsAny text keywords = true <->
  exists kw, In kw keywords /\ includes text kw = true.
Proof. unfold containsAny. apply List.existsb_exists. Qed.

Lemma nonEmpty_length (s : jsstring) :
  Nat.ltb 0 (length s) = true -> s <> [].
Proof. destruct s; [discriminate | discriminate]. Qed.

(** What a row that yields a record looks like. *)
Lemma onData_inv (data : Row) (r : Transaction) :
  In r (onData h data) ->
  onData h data = [r]
  /\ truthy (dateFieldOf (cleanData data)) = true
  /\ truthy (descriptionFieldOf (cleanData data)) = true
  /\ truthy (amountFieldOf (cleanData data)) = true
  /\ date r = (if invalidDate (dateOfRow h data) then newDateNow h
               else dateOfRow h data)
  /\ description r = trim (descriptionOfRow data)
  /\ description r <> []
  /\ amount r = Math_abs (amountOfRow data)
  /\ gt (amount r) zero = true
  /\ type r = (if isIncomeCSV data then lit "income" else lit "expense")
  /\ paymentMethod r = lit "bank_transfer".
Proof.
  unfold onData, dateOfRow, isIncomeCSV, amountOfRow, descriptionOfRow.
  cbv zeta. cbn [amount description].
  rewrite isIncomeCSV_eq.
  destruct (truthy (dateFieldOf (cleanData data))); [|intros []].
  destruct (truthy (descriptionFieldOf (cleanData data))); [|intros []].
  destruct (truthy (amountFieldOf (cleanData data))); [|intros []].
  cbn [andb].
  set (a := parseFloat (stripMoney (String_ (amountFieldOf (cleanData data))))).
  destruct (gt (Math_abs a) zero) eqn:Hgt; [|intros []].
  destruct (Nat.ltb 0 _) eqn:Hlen; [|intros []].
  cbn [andb]. intros [<- | []].
  cbn [date description amount type category paymentMethod].
  repeat split; auto using nonEmpty_length.
Qed.

Lemma onData_skips (data : Row) :
  truthy (dateFieldOf (cleanData data)) = false
  \/ truthy (descriptionFieldOf (cleanData data)) = false
  \/ truthy (amountFieldOf (cleanData data)) = false
  \/ gt (Math_abs (amountOfRow data)) zero = false ->
  onData h data = [].
Proof.
  unfold onData, amountOfRow. cbv zeta. cbn [amount description].
  intros [H | [H | [H | H]]]; rewrite H;
    repeat match goal with
           | |- context [truthy ?x] => destruct (truthy x)
           end; reflexivity.
Qed.

Lemma absent_not_truthy (data : Row) :
  (absent dateAliases data -> truthy (dateFieldOf (cleanData data)) = false)
  /\ (absent descriptionAliases data ->
      truthy (descriptionFieldOf (cleanData data)) = false)
  /\ (absent amountAliases data ->
      truthy (amountFieldOf (cleanData data)) = false).
Proof.
  unfold absent, dateFieldOf, descriptionFieldOf, amountFieldOf.
  repeat split; intros H;
    repeat (rewrite H by (cbn; tauto)); reflexivity.
Qed.

Lemma transactionsOfLine_firstMatch (line : jsstring) (patterns : list RegExp) :
  transactionsOfLine h line patterns =
  match firstMatch line patterns with
  | Some m => transactionOfMatch h m
  | None => []
  end.
Proof.
  induction patterns as [|pattern rest IH]; simpl; [reflexivity|].
  destruct (String_match line pattern); [reflexivity | exact IH].
Qed.

(** What a match that yields a record looks like. *)
Lemma transactionOfMatch_inv (m : list jsstring) (r : Transaction) :
  In r (transactionOfMatch h m) ->
  transactionOfMatch h m = [r]
  /\ date r = newDate h (at_ m 1)
  /\ invalidDate (date r) = false
  /\ description r = trim (get m 2)
  /\ description r <> []
  /\ amount r = Math_abs (parseFloat (stripMoney (get m 3)))
  /\ gt (amount r) zero = true
  /\ type r = (if isIncomePDF m then lit "income" else lit "expense")
  /\ category r = (if isIncomePDF m then lit "Income"
                   else determineCategory (trim (get m 2)))
  /\ paymentMethod r = lit "bank_transfer".
Proof.
  unfold transactionOfMatch, isIncomePDF. cbv zeta.
  rewrite isIncomePDF_eq.
  destruct (invalidDate (newDate h (at_ m 1))) eqn:Hd; [intros []|].
  destruct (gt _ zero) eqn:Hgt; [|intros []].
  destruct (Nat.ltb 0 _) eqn:Hlen; [|intros []].
  cbn [negb andb]. intros [<- | []].
  cbn [date description amount type category paymentMethod].
  repeat split; auto using nonEmpty_length.
Qed.

Lemma transactionOfMatch_skips (m : list jsstring) :
  gt (Math_abs (parseFloat (stripMoney (get m 3)))) zero = false ->
  transactionOfMatch h m = [].
Proof.
  unfold transactionOfMatch. cbv zeta. intros ->.
  now rewrite andb_false_r.
Qed.

End Importers.

(** ** The importers, file by file *)

Lemma parseCSVFile_app (h : Host) (before after : list Row) :
  parseCSVFile h (before ++ after) = parseCSVFile h before ++ parseCSVFile h after.
Proof. unfold parseCSVFile. apply List.flat_map_app. Qed.

Lemma parseCSVFile_cons (h : Host) (data : Row) (rows : list Row) :
  parseCSVFile h (data :: rows) = onData h data ++ parseCSVFile h rows.
Proof. reflexivity. Qed.

Lemma onData_valid (h : Host) (data : Row) (r : Transaction) :
  In r (onData h data) -> validRecord r.
Proof.
  intros Hin.
  destruct (onData_inv h data r Hin)
    as (_ & _ & _ & _ & _ & Hdesc & Hne & _ & Hgt & _).
  repeat split; auto using gt_zero_not_NaN.
  rewrite Hdesc. apply trim_idempotent.
Qed.

Lemma transactionOfMatch_valid (h : Host) (m : list jsstring) (r : Transaction) :
  In r (transactionOfMatch h m) -> validRecord r.
Proof.
  intros Hin.
  destruct (transactionOfMatch_inv h m r Hin)
    as (_ & _ & _ & Hdesc & Hne & _ & Hgt & _).
  repeat split; auto using gt_zero_not_NaN.
  rewrite Hdesc. apply trim_idempotent.
Qed.

(** C1: every record that [parseCSVFile] or [parsePDFTransactions] returns
    has an amount above zero (so not [NaN]) and a description that is
    trimmed and not empty; a row, or the deciding match of a line, whose
    absolute amount is not above zero (zero, or [NaN] for a text that
    is no number) yields no record. *)
Theorem imported_records_are_valid (h : Host) :
  (forall rows r, In r (parseCSVFile h rows) -> validRecord r)
  /\ (forall text r, In r (parsePDFTransactions h text) -> validRecord r)
  /\ (forall data before after,
        gt (Math_abs (amountOfRow data)) zero = false ->
        parseCSVFile h (before ++ data :: after)
        = parseCSVFile h before ++ parseCSVFile h after)
  /\ (forall line m,
        firstMatch line transactionPatterns = Some m ->
        gt (Math_abs (parseFloat (stripMoney (get m 3)))) zero = false ->
        transactionsOfLine h line transactionPatterns = []).
Proof.
  split; [|split; [|split]].
  - intros rows r Hin. unfold parseCSVFile in Hin.
    apply List.in_flat_map in Hin as (data & _ & Hin).
    eapply onData_valid, Hin.
  - intros text r Hin. unfold parsePDFTransactions in Hin.
    apply List.in_flat_map in Hin as (line & _ & Hin).
    rewrite transactionsOfLine_firstMatch in Hin.
    destruct (firstMatch line transactionPatterns) as [m|]; [|destruct Hin].
    eapply transactionOfMatch_valid, Hin.
  - intros data before after Hgt.
    rewrite parseCSVFile_app, parseCSVFile_cons, onData_skips; auto.
  - intros line m Hm Hgt.
    rewrite transactionsOfLine_firstMatch, Hm.
    now apply transactionOfMatch_skips.
Qed.

Lemma imported_records_are_valid_witness :
  validRecord
    {| date := Some 1705276800000%Z;
       description := lit "Grocery Store";
       amount := parseFloat (lit "45.67");
       type := lit "expense";
       category := lit "Food & Dining";
       paymentMethod := lit "bank_transfer" |}.
Proof.
  apply (proj1 (imported_records_are_valid exampleHost) [groceryRow]).
  vm_compute. left. reflexivity.
Defined.

(** C8: a row in which the date, the description or the amount is absent
    under all of its column names yields no record, and the parse goes
    on: the result is made of the records of the rows before and after
    it.  The handler has no operation that can throw. *)
Theorem rows_without_required_field_are_skipped (h : Host) (data : Row) :
  absent dateAliases data \/ absent descriptionAliases data
  \/ absent amountAliases data ->
  onData h data = []
  /\ forall before after,
       parseCSVFile h (before ++ data :: after)
       = parseCSVFile h before ++ parseCSVFile h after.
Proof.
  intros Habsent.
  destruct (absent_not_truthy data) as (Hdate & Hdesc & Hamount).
  assert (Hskip : onData h data = []).
  { apply onData_skips. tauto. }
  split; [exact Hskip|].
  intros before after.
  now rewrite parseCSVFile_app, parseCSVFile_cons, Hskip.
Qed.

Lemma rows_without_required_field_are_skipped_witness :
  onData exampleHost rowWithoutAmount = []
  /\ forall before after,
       parseCSVFile exampleHost (before ++ rowWithoutAmount :: after)
       = parseCSVFile exampleHost before ++ parseCSVFile exampleHost after.
Proof.
  apply rows_without_required_field_are_skipped.
  right. right. intros a [<- | [<- | [<- | []]]]; vm_compute; reflexivity.
Defined.

Lemma type_income_iff (b : bool) :
  (if b then lit "income" else lit "expense") = lit "income" <-> b = true.
Proof. destruct b; split; auto; intros H; discriminate H. Qed.

(** What the handler makes of a row that has its cells under the column
    names, as a reader that takes the first line for the header line
    emits them: the row with date 2024-01-15, description "Grocery
    Store" and amount "-45.67" gives exactly one record: that date, the
    description, the amount 45.67, an expense, in "Food & Dining".  For
    every record of every list of rows, the amount is the absolute value
    of the number read, and the record is income exactly when that
    number is above zero or the lower-cased description contains one of
    the income keywords. *)
Theorem csv_rows_are_normalized (h : Host) :
  (forall t, Date_parse h (lit "2024-01-15") = Some t ->
     parseCSVFile h [groceryRow] =
     [ {| date := Some t;
          description := lit "Grocery Store";
          amount := parseFloat (lit "45.67");
          type := lit "expense";
          category := lit "Food & Dining";
          paymentMethod := lit "bank_transfer" |} ])
  /\ (forall rows r, In r (parseCSVFile h rows) ->
      exists data,
        In data rows
        /\ onData h data = [r]
        /\ amount r = Math_abs (amountOfRow data)
        /\ (type r = lit "income" <->
            gt (amountOfRow data) zero = true
            \/ exists kw, In kw incomeKeywordsCSV
                 /\ includes (toLowerCase (descriptionOfRow data)) kw = true)
        /\ (type r <> lit "income" -> type r = lit "expense")).
Proof.
  split.
  - intros t Ht. destruct h as [parse now]. cbn [Date_parse] in Ht.
    vm_compute in Ht. vm_compute. rewrite Ht. reflexivity.
  - intros rows r Hin. unfold parseCSVFile in Hin.
    apply List.in_flat_map in Hin as (data & Hdata & Hin).
    destruct (onData_inv h data r Hin)
      as (Hone & _ & _ & _ & _ & _ & _ & Hamount & _ & Htype & _).
    exists data. repeat split; auto.
    + rewrite Htype, type_income_iff. unfold isIncomeCSV.
      rewrite orb_true_iff, containsAny_spec. tauto.
    + rewrite Htype, type_income_iff. unfold isIncomeCSV.
      rewrite orb_true_iff, containsAny_spec. tauto.
    + rewrite Htype. destruct (isIncomeCSV data); [congruence | reflexivity].
Qed.

Lemma csv_rows_are_normalized_witness :
  parseCSVFile exampleHost [groceryRow] =
  [ {| date := Some 1705276800000%Z;
       description := lit "Grocery Store";
       amount := parseFloat (lit "45.67");
       type := lit "expense";
       category := lit "Food & Dining";
       paymentMethod := lit "bank_transfer" |} ].
Proof.
  apply (proj1 (csv_rows_are_normalized exampleHost)).
  vm_compute. reflexivity.
Defined.

(** C6: the line "01/15/2024 Deposit from Employer +$1,200.00" gives
    exactly one record, an income of 1200.00.  Every line of a text is
    looked at, in the order of the text, and gives the record, if any,
    of the first of the three patterns that matches it: on a statement
    of five lines, the heading gives nothing, the lines dated
    01/15/2024, 01-16-2024 and 2024-01-17 give the record of the first,
    the second and the third pattern, and the line that both the first
    and the third pattern match gives the record of the first.  A record
    is income exactly when the amount token contains [+] or the
    lower-cased description contains "deposit", "payment received" or
    "credit". *)
Theorem pdf_lines_are_normalized (h : Host) :
  (forall t, Date_parse h (lit "01/15/2024") = Some t ->
     parsePDFTransactions h depositLine =
     [ {| date := Some t;
          description := lit "Deposit from Employer";
          amount := parseFloat (lit "1200.00");
          type := lit "income";
          category := lit "Income";
          paymentMethod := lit "bank_transfer" |} ])
  /\ (forall t1 t2 t3 t4,
        Date_parse h (lit "01/15/2024") = Some t1 ->
        Date_parse h (lit "01-16-2024") = Some t2 ->
        Date_parse h (lit "2024-01-17") = Some t3 ->
        Date_parse h (lit "01/20/2024") = Some t4 ->
        parsePDFTransactions h statementText =
     [ {| date := Some t1;
          description := lit "Deposit from Employer";
          amount := parseFloat (lit "1200.00");
          type := lit "income";
          category := lit "Income";
          paymentMethod := lit "bank_transfer" |};
       {| date := Some t2;
          description := lit "Shell Gas Station";
          amount := parseFloat (lit "45.50");
          type := lit "expense";
          category := lit "Transportation";
          paymentMethod := lit "bank_transfer" |};
       {| date := Some t3;
          description := lit "Card credit";
          amount := parseFloat (lit "20.00");
          type := lit "income";
          category := lit "Income";
          paymentMethod := lit "bank_transfer" |};
       {| date := Some t4;
          description := lit "Rent";
          amount := parseFloat (lit "5.00");
          type := lit "expense";
          category := lit "Other";
          paymentMethod := lit "bank_transfer" |} ])
  /\ (forall text,
        parsePDFTransactions h text =
        List.flat_map
          (fun line =>
             match firstMatch line transactionPatterns with
             | Some m => transactionOfMatch h m
             | None => []
             end)
          (textLines text))
  /\ (forall text r, In r (parsePDFTransactions h text) ->
      exists line m,
        In line (textLines text)
        /\ firstMatch line transactionPatterns = Some m
        /\ transactionsOfLine h line transactionPatterns = [r]
        /\ (type r = lit "income" <->
            includes (get m 3) (lit "+") = true
            \/ exists kw, In kw incomeKeywordsPDF
                 /\ includes (toLowerCase (description r)) kw = true)
        /\ (type r <> lit "income" -> type r = lit "expense")).
Proof.
  split; [|split; [|split]].
  - intros t Ht. destruct h as [parse now]. cbn [Date_parse] in Ht.
    vm_compute in Ht. vm_compute. rewrite Ht. reflexivity.
  - intros t1 t2 t3 t4 H1 H2 H3 H4. destruct h as [parse now].
    cbn [Date_parse] in H1, H2, H3, H4.
    vm_compute in H1, H2, H3, H4. vm_compute.
    rewrite H1, H2, H3, H4. reflexivity.
  - intros text. unfold parsePDFTransactions.
    apply List.flat_map_ext. intros line.
    apply transactionsOfLine_firstMatch.
  - intros text r Hin. unfold parsePDFTransactions in Hin.
    apply List.in_flat_map in Hin as (line & Hline & Hin).
    pose proof (transactionsOfLine_firstMatch h line transactionPatterns) as Hfirst.
    rewrite Hfirst in Hin.
    destruct (firstMatch line transactionPatterns) as [m|] eqn:Hm; [|destruct Hin].
    destruct (transactionOfMatch_inv h m r Hin)
      as (Hone & _ & _ & Hdesc & _ & _ & _ & Htype & _).
    exists line, m. repeat split; auto; try congruence.
    + rewrite Htype, type_income_iff, Hdesc. unfold isIncomePDF.
      rewrite orb_true_iff, containsAny_spec. tauto.
    + rewrite Htype, type_income_iff, Hdesc. unfold isIncomePDF.
      rewrite orb_true_iff, containsAny_spec. tauto.
    + rewrite Htype. destruct (isIncomePDF m); [congruence | reflexivity].
Qed.

Lemma pdf_lines_are_normalized_witness :
  parsePDFTransactions exampleHost depositLine =
  [ {| date := Some 1705276800000%Z;
       description := lit "Deposit from Employer";
       amount := parseFloat (lit "1200.00");
       type := lit "income";
       category := lit "Income";
       paymentMethod := lit "bank_transfer" |} ]
  /\ parsePDFTransactions exampleHost statementText =
     [ {| date := Some 1705276800000%Z;
          description := lit "Deposit from Employer";
          amount := parseFloat (lit "1200.00");
          type := lit "income";
          category := lit "Income";
          paymentMethod := lit "bank_transfer" |};
       {| date := Some 1705363200000%Z;
          description := lit "Shell Gas Station";
          amount := parseFloat (lit "45.50");
          type := lit "expense";
          category := lit "Transportation";
          paymentMethod := lit "bank_transfer" |};
       {| date := Some 1705449600000%Z;
          description := lit "Card credit";
          amount := parseFloat (lit "20.00");
          type := lit "income";
          category := lit "Income";
          paymentMethod := lit "bank_transfer" |};
       {| date := Some 1705708800000%Z;
          description := lit "Rent";
          amount := parseFloat (lit "5.00");
          type := lit "expense";
          category := lit "Other";
          paymentMethod := lit "bank_transfer" |} ].
Proof.
  split.
  - apply (proj1 (pdf_lines_are_normalized exampleHost)).
    vm_compute. reflexivity.
  - apply (proj1 (proj2 (pdf_lines_are_normalized exampleHost)));
      vm_compute; reflexivity.
Defined.

(** ** The classifier *)

(** [determineCategory] is the ordered keyword table of the
    specification: first group with a keyword in the lower-cased text,
    else "Other". *)
Lemma determineCategory_classify (text : jsstring) :
  determineCategory text = classify text.
Proof.
  unfold determineCategory, classify, categoryRules. cbv zeta.
  cbn [firstRule containsAny existsb List.map].
  rewrite !orb_false_r, <- !orb_assoc. reflexivity.
Qed.

Lemma determineCategory_examples :
  determineCategory (lit "Shell Gas Station") = lit "Transportation"
  /\ determineCategory (lit "Whole Foods Market") = lit "Food & Dining"
  /\ determineCategory (lit "Random Store XYZ") = lit "Other".
Proof. repeat split; vm_compute; reflexivity. Qed.

Lemma firstRule_label (text : jsstring) (rules : list (list jsstring * jsstring)) :
  In (firstRule text rules) (lit "Other" :: List.map snd rules).
Proof.
  induction rules as [|[keywords label] rest IH]; simpl; [now left|].
  destruct (containsAny text keywords); [right; now left|].
  destruct IH as [IH | IH]; [now left | right; now right].
Qed.

(** The labels that [determineCategory] can return. *)
Lemma determineCategory_labels (text : jsstring) :
  In (determineCategory text)
     (List.map lit ["Food & Dining"; "Transportation"; "Shopping";
                    "Entertainment"; "Health & Fitness"; "Other"]%string).
Proof.
  rewrite determineCategory_classify. unfold classify.
  pose proof (firstRule_label (toLowerCase text) categoryRules) as H.
  cbn [List.map categoryRules snd In] in *.
  intuition congruence.
Qed.

(** C4, where the program departs from it: for a fitness merchant the
    classifier answers "Health & Fitness", a label that is in neither
    category list of the model and is not "Income" or "Other". *)
Theorem classifier_label_outside_taxonomy :
  determineCategory (lit "Planet Fitness") = lit "Health & Fitness"
  /\ ~ In (lit "Health & Fitness") taxonomy.
Proof.
  split; [vm_compute; reflexivity|].
  vm_compute. intros H.
  repeat (destruct H as [H | H]; [discriminate H|]). exact H.
Qed.

(** ** The receipt extractor *)

Lemma parseFloat_dollar (s : jsstring) : parseFloat (ch "$" :: s) = NaN.
Proof. reflexivity. Qed.

Lemma concat_cons_app (taken : jsstring) (cs : list jsstring) :
  List.concat (taken :: cs) = taken ++ List.concat cs.
Proof. reflexivity. Qed.

(** A match of the bare dollar pattern starts with its [$]. *)
Lemma bare_dollar_match (s : jsstring) (chunks : list jsstring) (rest : jsstring) :
  run false (source (nth 3 totalPatterns (re []))) s = Some (chunks, rest) ->
  exists t, List.concat chunks = ch "$" :: t.
Proof.
  unfold run. cbn [nth totalPatterns re_g source runK one].
  intros H. apply rep_sound in H
    as (taken & s' & cs & _ & Hall & Hlo & _ & _ & ->).
  destruct taken as [|c taken]; [simpl in Hlo; lia|].
  apply Forall_inv in Hall. cbn [atomMatches c_] in Hall.
  apply N.eqb_eq in Hall. subst c.
  rewrite concat_cons_app. cbn [List.rev app]. eauto.
Qed.

Lemma execAll_bare_dollar (s : jsstring) :
  forall (skip : nat) (w : jsstring),
    In w (execAll false (source (nth 3 totalPatterns (re []))) skip s) ->
    exists t, w = ch "$" :: t.
Proof.
  induction s as [|c s IH]; intros skip w Hin.
  - destruct skip; [|destruct Hin]. cbn [execAll] in Hin.
    destruct (run false _ []) as [[chunks rest]|] eqn:Hrun; [|destruct Hin].
    destruct Hin as [<- | []]. eapply bare_dollar_match, Hrun.
  - destruct skip as [|skip]; cbn [execAll] in Hin; [|eapply IH, Hin].
    destruct (run false _ (c :: s)) as [[chunks rest]|] eqn:Hrun;
      [|eapply IH, Hin].
    destruct Hin as [<- | Hin]; [eapply bare_dollar_match, Hrun | eapply IH, Hin].
Qed.

(** With its [g] flag the bare dollar pattern never changes the total:
    element 1 of its match array is a second matched text, with its [$],
    or [undefined], and neither is a number. *)
Lemma bare_dollar_never_counts (line : jsstring) (m : list jsstring) :
  String_match line (nth 3 totalPatterns (re [])) = Some m ->
  parseFloatOf (at_ m 1) = NaN.
Proof.
  unfold String_match. cbn [nth totalPatterns re_g global ignoreCase].
  destruct (execAll false _ 0 line) as [|w ws] eqn:Hall; [discriminate|].
  intros [= <-]. destruct ws as [|w2 ws]; [reflexivity|].
  cbn [at_ nth_error parseFloatOf].
  destruct (execAll_bare_dollar line 0%nat w2) as [t ->].
  - cbn [nth totalPatterns]. rewrite Hall. right. now left.
  - apply parseFloat_dollar.
Qed.

(** C2, where the program departs from it: a receipt whose only amount is
    a bare "$25.00" gets the total 0, because the bare dollar pattern
    carries the [g] flag and its capture is never read.  The
    subtotal-and-total example of the claim does give 20.00. *)
Theorem bare_dollar_amount_is_not_the_total (h : Host) :
  total (extractReceiptData h (lit "$25.00")) = zero
  /\ total (extractReceiptData h subtotalThenTotal) = parseFloat (lit "20.00").
Proof. split; vm_compute; reflexivity. Qed.

(** A line with a valid date replaces the date found on the lines before
    it. *)
Lemma later_line_replaces_date (h : Host) (before : list jsstring)
    (line : jsstring) (t : Z) :
  (forall d, dateOfLine h line datePatterns d = Some t) ->
  fold_left (fun date l => dateOfLine h l datePatterns date)
            (before ++ [line]) (newDateNow h) = Some t.
Proof. intros H. rewrite List.fold_left_app. cbn [fold_left]. apply H. Qed.

(** C3, where the program departs from it: on two lines with a date each,
    the receipt carries the date of the second line, not of the first;
    the [break] leaves the loop over the patterns only. *)
Theorem receipt_date_is_of_the_last_dated_line (h : Host) (t1 t2 : Z) :
  Date_parse h (lit "01/15/2024") = Some t1 ->
  Date_parse h (lit "02/20/2025") = Some t2 ->
  receiptDate (extractReceiptData h twoDates) = Some t2.
Proof.
  intros H1 H2. destruct h as [parse now]. cbn [Date_parse] in H1, H2.
  vm_compute in H1, H2. vm_compute. rewrite H1, H2. reflexivity.
Qed.

Lemma receipt_date_is_of_the_last_dated_line_witness :
  receiptDate (extractReceiptData exampleHost twoDates) = Some 1740009600000%Z.
Proof.
  apply (receipt_date_is_of_the_last_dated_line exampleHost 1705276800000);
    vm_compute; reflexivity.
Defined.

(** ** Reading numbers *)

Lemma isDigit_bounds (c : char) : isDigit c = true <-> 48 <= c <= 57.
Proof.
  unfold isDigit, inRange. rewrite andb_true_iff, !N.leb_le. tauto.
Qed.

Lemma digit09_isDigit (i : bool) (c : char) : atomMatches i digit09 c = isDigit c.
Proof. cbn. apply orb_false_r. Qed.

Lemma numeral_prefix (s : jsstring) :
  numeralHead s ->
  trimStart s = s /\ takeSign s = (false, s)
  /\ startsWith (lit "Infinity") s = false.
Proof.
  destruct s as [|c s]; [repeat split|].
  intros [Hc | ->]; [|repeat split].
  apply isDigit_bounds in Hc.
  unfold trimStart, takeSign. cbn [dropWhile startsWith lit List.map list_ascii_of_string].
  unfold isSpace, inRange, ch. cbn [N_of_ascii N_of_digits].
  decide_units. repeat split.
Qed.

Lemma span_numeral (ds rest : jsstring) :
  isNumeral ds ->
  match rest with [] => True | c :: _ => isDigit c = false end ->
  span isDigit (ds ++ rest) = (ds, rest).
Proof.
  intros Hds Hrest. induction Hds as [|c ds Hc _ IH]; cbn [app].
  - destruct rest as [|c rest]; [reflexivity|]. simpl. now rewrite Hrest.
  - simpl. now rewrite Hc, IH.
Qed.

Lemma span_numeral_all (ds : jsstring) : isNumeral ds -> span isDigit ds = (ds, []).
Proof.
  intros Hds. rewrite <- (List.app_nil_r ds) at 1. now apply span_numeral.
Qed.

Lemma numeralHead_numeral (ds rest : jsstring) :
  isNumeral ds -> numeralHead rest -> numeralHead (ds ++ rest).
Proof. intros Hds Hrest. destruct Hds; [exact Hrest | now left]. Qed.

(** The Number of digits, a point and digits. *)
Lemma parseFloat_point (int frac : jsstring) :
  isNumeral int -> isNumeral frac ->
  parseFloat (int ++ ch "." :: frac) =
  match int ++ frac with
  | [] => NaN
  | ds => ofDecimal false (digitsValue ds) (- Z.of_nat (length frac))
  end.
Proof.
  intros Hint Hfrac. unfold parseFloat.
  destruct (numeral_prefix (int ++ ch "." :: frac)) as (-> & -> & ->).
  { apply numeralHead_numeral; [exact Hint | now right]. }
  rewrite span_numeral by (auto; reflexivity).
  cbn [N.eqb ch]. rewrite N.eqb_refl, span_numeral_all by exact Hfrac.
  destruct (int ++ frac); reflexivity.
Qed.

(** The Number of digits alone. *)
Lemma parseFloat_numeral (int : jsstring) :
  isNumeral int ->
  parseFloat int =
  match int with
  | [] => NaN
  | ds => ofDecimal false (digitsValue ds) 0
  end.
Proof.
  intros Hint. unfold parseFloat.
  destruct (numeral_prefix int) as (-> & -> & ->).
  { rewrite <- (List.app_nil_r int). now apply numeralHead_numeral. }
  rewrite span_numeral_all by exact Hint.
  rewrite List.app_nil_r. destruct int; reflexivity.
Qed.

Lemma parseFloat_lone_point : parseFloat [ch "."] = NaN.
Proof. reflexivity. Qed.

(** ** Monetary tokens *)

Lemma stripMoney_app (a b : jsstring) :
  stripMoney (a ++ b) = stripMoney a ++ stripMoney b.
Proof. apply List.filter_app. Qed.

Lemma hasDigit_app (a b : jsstring) : hasDigit (a ++ b) = hasDigit a || hasDigit b.
Proof. apply List.existsb_app. Qed.

Lemma stripMoney_numeral (ds : jsstring) : isNumeral ds -> stripMoney ds = ds.
Proof.
  intros Hds. induction Hds as [|c ds Hc _ IH]; [reflexivity|].
  unfold stripMoney in *. cbn [List.filter]. rewrite IH.
  apply isDigit_bounds in Hc.
  unfold isMoneySymbol, rupee, ch. cbn [N_of_ascii N_of_digits].
  decide_units. reflexivity.
Qed.

Lemma hasDigit_numeral (ds : jsstring) :
  isNumeral ds -> hasDigit ds = true <-> ds <> [].
Proof.
  intros Hds. destruct Hds as [|c ds Hc _]; simpl.
  - split; [discriminate | congruence].
  - rewrite Hc. split; [discriminate | reflexivity].
Qed.

(** The currency sign of a token is stripped and holds no digit. *)
Lemma strip_sign (sym : jsstring) :
  Forall (fun c => atomMatches false (Class [CChar (ch "$"); CChar rupee]) c = true) sym ->
  stripMoney sym = [] /\ hasDigit sym = false.
Proof.
  intros H. induction H as [|c sym Hc _ [IH1 IH2]]; [split; reflexivity|].
  unfold stripMoney in *. cbn [List.filter hasDigit existsb].
  unfold hasDigit in IH2. rewrite IH1, IH2.
  cbn in Hc. rewrite orb_false_r in Hc.
  apply orb_true_iff in Hc. rewrite !N.eqb_eq in Hc.
  destruct Hc as [-> | ->]; split; reflexivity.
Qed.

(** The digits and commas of a token: the commas are stripped, which
    leaves a numeral with the same digits. *)
Lemma strip_body (body : jsstring) :
  Forall (fun c => atomMatches false
            (Class [CRange (ch "0") (ch "9"); CChar (ch ",")]) c = true) body ->
  isNumeral (stripMoney body)
  /\ (hasDigit body = true <-> stripMoney body <> []).
Proof.
  intros H. induction H as [|c body Hc _ [IH1 IH2]].
  - split; [constructor|].
    split; [discriminate | intros Hne; exfalso; apply Hne; reflexivity].
  - cbn in Hc. rewrite orb_false_r in Hc. apply orb_true_iff in Hc.
    unfold stripMoney in *. cbn [List.filter hasDigit existsb].
    destruct Hc as [Hc | Hc].
    + assert (Hd : isDigit c = true) by exact Hc.
      apply isDigit_bounds in Hc.
      assert (Hm : isMoneySymbol c = false).
      { unfold isMoneySymbol, rupee, ch. cbn [N_of_ascii N_of_digits].
        decide_units. reflexivity. }
      rewrite Hm, Hd. cbn [negb orb]. split; [now constructor|].
      split; [discriminate | reflexivity].
    + apply N.eqb_eq in Hc. subst c. cbn [isMoneySymbol].
      change (isMoneySymbol (ch ",")) with true.
      change (isDigit (ch ",")) with false. cbn [negb orb].
      split; [exact IH1 | exact IH2].
Qed.

Lemma strip_point (dot : jsstring) :
  Forall (fun c => atomMatches false (c_ ".") c = true) dot ->
  (length dot <= 1)%nat ->
  (dot = [] \/ dot = [ch "."]) /\ stripMoney dot = dot /\ hasDigit dot = false.
Proof.
  intros H Hlen. destruct H as [|c dot Hc Hdot].
  - repeat split. now left.
  - destruct dot; [|simpl in Hlen; lia].
    cbn [atomMatches c_] in Hc. apply N.eqb_eq in Hc. subst c.
    repeat split. now right.
Qed.

(** The parts of a text that has the shape of a monetary token. *)
Lemma moneyShape_parts (s : jsstring) :
  matchesWhole moneyShape s = true ->
  exists body dot frac,
    isNumeral body /\ isNumeral frac
    /\ (dot = [] \/ dot = [ch "."])
    /\ stripMoney s = body ++ dot ++ frac
    /\ (hasDigit s = true <-> body ++ frac <> []).
Proof.
  unfold matchesWhole, moneyShape.
  destruct (runK false _ atEnd s) as [[chunks rest]|] eqn:Hrun; [|discriminate].
  intros _. cbn [runK opt plus star] in Hrun.
  apply rep_sound in Hrun as (sym & s1 & cs1 & -> & Hsym & _ & _ & Hrun & _).
  apply rep_sound in Hrun as (body & s2 & cs2 & -> & Hbody & _ & _ & Hrun & _).
  apply rep_sound in Hrun as (dot & s3 & cs3 & -> & Hdot & _ & Hlen & Hrun & _).
  apply rep_sound in Hrun as (frac & s4 & cs4 & -> & Hfrac & _ & _ & Hrun & _).
  destruct s4; [|discriminate]. clear Hrun.
  rewrite List.app_nil_r.
  destruct (strip_sign sym Hsym) as [Hs1 Hs2].
  destruct (strip_body body Hbody) as [Hb1 Hb2].
  destruct (strip_point dot Hdot) as (Hd1 & Hd2 & Hd3).
  { destruct Hlen as [-> | Hlen]; simpl in *; lia. }
  assert (Hf : isNumeral frac).
  { eapply List.Forall_impl; [|exact Hfrac].
    intros c Hc. cbv beta in Hc. now rewrite digit09_isDigit in Hc. }
  exists (stripMoney body), dot, frac.
  rewrite !stripMoney_app, !hasDigit_app, Hs1, Hs2, Hd2, Hd3.
  rewrite (stripMoney_numeral frac Hf).
  repeat split; auto.
  - cbn [orb]. rewrite orb_true_iff, Hb2, (hasDigit_numeral frac Hf).
    intros [H | H] Hnil; apply List.app_eq_nil in Hnil; tauto.
  - cbn [orb]. rewrite orb_true_iff, Hb2, (hasDigit_numeral frac Hf).
    intros Hne. destruct (stripMoney body); [right; exact Hne | left; discriminate].
Qed.

(** C7, as the program has it: for a text [s] of the shape of a monetary
    token with a digit in it, stripping the currency signs and the commas
    leaves a decimal numeral, and the parser returns the Number nearest to
    its value, which is not [NaN] and not below zero, so [Math.abs] keeps
    it.  For a token without a digit the parser returns [NaN], and both
    importers drop the record. *)
Theorem monetary_token_value (s : jsstring) :
  matchesWhole moneyShape s = true ->
  (hasDigit s = true ->
     exists m e,
       decimalNumeral (stripMoney s) m e
       /\ parseFloat (stripMoney s) = ofDecimal false m e
       /\ nonNegative (parseFloat (stripMoney s))
       /\ Math_abs (parseFloat (stripMoney s)) = parseFloat (stripMoney s))
  /\ (hasDigit s = false ->
      parseFloat (stripMoney s) = NaN
      /\ (forall h m, get m 3 = s -> transactionOfMatch h m = [])
      /\ (forall h data,
            amountFieldOf (cleanData data) = Some s -> onData h data = [])).
Proof.
  intros Hshape.
  destruct (moneyShape_parts s Hshape)
    as (body & dot & frac & Hbody & Hfrac & Hdot & Hstrip & Hdigit).
  split.
  - intros Hd. apply Hdigit in Hd.
    assert (Hvalue : exists m e,
               decimalNumeral (stripMoney s) m e
               /\ parseFloat (stripMoney s) = ofDecimal false m e).
    { rewrite Hstrip. destruct Hdot as [-> | ->]; cbn [app].
      - exists (digitsValue (body ++ frac)), 0%Z. split.
        + constructor; [apply Forall_app; now split | exact Hd].
        + rewrite parseFloat_numeral by (apply Forall_app; now split).
          destruct (body ++ frac); [congruence | reflexivity].
      - exists (digitsValue (body ++ frac)), (- Z.of_nat (length frac))%Z. split.
        + now constructor.
        + rewrite parseFloat_point by assumption.
          destruct (body ++ frac); [congruence | reflexivity]. }
    destruct Hvalue as (m & e & Hnum & Hparse).
    exists m, e. rewrite Hparse.
    pose proof (ofDecimal_nonNegative m e) as Hnn.
    repeat split; auto. now apply nonNegative_spec.
  - intros Hd.
    assert (Hnan : parseFloat (stripMoney s) = NaN).
    { assert (Hnil : body ++ frac = []).
      { destruct (body ++ frac) eqn:E; [reflexivity|].
        assert (Ht : hasDigit s = true) by (apply Hdigit; discriminate).
        congruence. }
      apply List.app_eq_nil in Hnil as [-> ->].
      rewrite Hstrip. destruct Hdot as [-> | ->]; reflexivity. }
    split; [exact Hnan|]. split.
    + intros h m <-. apply transactionOfMatch_skips. now rewrite Hnan.
    + intros h data Hfield. apply onData_skips.
      right. right. right. unfold amountOfRow. rewrite Hfield.
      cbn [String_]. now rewrite Hnan.
Qed.

Lemma monetary_token_value_witness :
  exists m e,
    decimalNumeral (stripMoney (lit "$1,200.00")) m e
    /\ parseFloat (stripMoney (lit "$1,200.00")) = ofDecimal false m e
    /\ nonNegative (parseFloat (stripMoney (lit "$1,200.00")))
    /\ Math_abs (parseFloat (stripMoney (lit "$1,200.00")))
       = parseFloat (stripMoney (lit "$1,200.00")).
Proof.
  apply (monetary_token_value (lit "$1,200.00")); vm_compute; reflexivity.
Defined.

(** C7, as it is stated, fails: a lone comma has the shape of a monetary
    token, and the parser makes [NaN] of it, not a Number at or above
    zero. *)
Lemma lone_comma_is_no_amount :
  matchesWhole moneyShape (lit ",") = true
  /\ ~ nonNegative (parseFloat (stripMoney (lit ","))).
Proof. split; [vm_compute; reflexivity | vm_compute; tauto]. Qed.

(** Outside the shape of a token, a cell without a digit need not be
    dropped: ["Infinity"] is a Number for [parseFloat], and the row is
    kept with that amount. *)
Lemma infinity_cell_is_kept :
  hasDigit (lit "Infinity") = false
  /\ List.map amount (parseCSVFile exampleHost [rowOfInfinity])
     = [S754_infinity false].
Proof. split; vm_compute; reflexivity. Qed.

(** ** Receipt items *)

Lemma runK_rep (i : bool) (a : Atom) (g : bool) (lo : nat) (hi : option nat)
    (r : list Node) (k : jsstring -> option MatchState) (s : jsstring) :
  runK i (Rep a g lo hi :: r) k s = rep (atomMatches i a) g lo hi (runK i r k) 0 [] s.
Proof. reflexivity. Qed.

Lemma space_not_digit (c : char) : isDigit c = true -> isSpace c = false.
Proof.
  intros Hc. apply isDigit_bounds in Hc.
  unfold isSpace, inRange. decide_units. reflexivity.
Qed.

Lemma lineTerminator_is_space (c : char) :
  isSpace c = false -> isLineTerminator c = false.
Proof.
  intros Hc. destruct (isLineTerminator c) eqn:E; [|reflexivity].
  unfold isLineTerminator in E. rewrite !orb_true_iff, !N.eqb_eq in E.
  destruct E as [[[-> | ->] | ->] | ->]; discriminate Hc.
Qed.

(** *** Where the name of an item ends *)

Lemma endsInSpace_suffix (t u : jsstring) :
  u <> [] -> endsInSpace (t ++ u) = endsInSpace u.
Proof.
  intros Hu. unfold endsInSpace. rewrite List.rev_app_distr.
  destruct (List.rev u) as [|x r] eqn:Hr; [|reflexivity].
  apply (f_equal (@length _)) in Hr. rewrite List.length_rev in Hr.
  destruct u; [congruence | discriminate Hr].
Qed.

Lemma numberedInside_suffix (t u : jsstring) :
  numberedInside (t ++ u) = false -> numberAfterSpace u = false.
Proof.
  induction t as [|x t IH]; cbn [app].
  - destruct u as [|c u]; [reflexivity|]. cbn [numberedInside].
    intros H. now apply orb_false_iff in H.
  - cbn [numberedInside]. intros H. apply orb_false_iff in H as [_ H].
    now apply IH.
Qed.

(** A text that does not end in white space, before white space or the
    end: when it goes on as white space, an optional [$] and a digit,
    white space in it is followed by a number. *)
Lemma number_after_space (spc dol ds more s' : jsstring) :
  Forall (fun c => isSpace c = true) spc ->
  Forall (fun c => c = ch "$") dol -> (length dol <= 1)%nat ->
  Forall (fun c => isDigit c = true) ds -> ds <> [] ->
  match s' with [] => True | c :: _ => isSpace c = true end ->
  forall u,
    u <> [] -> endsInSpace u = false ->
    u ++ s' = spc ++ dol ++ ds ++ more ->
    numberHead (dropWhile isSpace u) = true.
Proof.
  intros Hspc Hdol Hlen Hds Hne Hs'.
  induction Hspc as [|c spc Hc _ IH]; intros u Hu Hend E; cbn [app] in E.
  - destruct u as [|x u]; [congruence|]. clear Hu.
    destruct ds as [|d0 ds]; [congruence|].
    apply Forall_inv in Hds.
    destruct dol as [|y [|z dol]]; cbn [app length] in *; [| |lia].
    + injection E as -> E.
      rewrite dropWhile_id by now apply space_not_digit.
      cbn [numberHead]. now rewrite Hds.
    + injection E as -> E. apply Forall_inv in Hdol. subst y.
      rewrite dropWhile_id by reflexivity. cbn [numberHead].
      rewrite N.eqb_refl. cbn [andb].
      destruct u as [|y u]; cbn [app] in E.
      * subst s'. apply space_not_digit in Hds. congruence.
      * injection E as -> E. rewrite Hds. apply orb_true_r.
  - destruct u as [|x u]; [congruence|]. injection E as -> E.
    cbn [dropWhile]. rewrite Hc.
    destruct u as [|y u].
    + unfold endsInSpace in Hend. cbn in Hend. congruence.
    + apply IH; [discriminate | | exact E].
      rewrite <- Hend. symmetry.
      apply (endsInSpace_suffix [c] (y :: u)). discriminate.
Qed.

Section ItemLine.

Variables w sp dollar d rest : jsstring.

Hypothesis w_line : Forall (fun c => isLineTerminator c = false) w.
Hypothesis w_some : w <> [].
Hypothesis w_end : endsInSpace w = false.
Hypothesis w_plain : numberedInside w = false.
Hypothesis sp_space : Forall (fun c => isSpace c = true) sp.
Hypothesis sp_some : sp <> [].
Hypothesis dollar_opt : dollar = [] \/ dollar = [ch "$"].
Hypothesis d_numeral : isNumeral d.
Hypothesis d_some : d <> [].

Local Abbreviation tail := (ch "," :: rest).

Lemma item_fraction :
  runK false [opt (c_ "."); star digit09; Close] accept tail
  = Some ([[]; []], tail).
Proof.
  unfold opt, star. rewrite runK_rep.
  apply (rep_greedy_take _ _ 0 (Some 1%nat) [] tail [[]] tail);
    try reflexivity; try constructor; try (simpl; lia).
Qed.

Lemma item_digits :
  runK false number accept (d ++ tail) = Some ([d; []; []], tail).
Proof.
  unfold number, plus. cbn [runK].
  apply (rep_greedy_take _ _ 1 None d tail [[]; []] tail).
  - eapply List.Forall_impl; [|exact d_numeral].
    intros c Hc. now rewrite digit09_isDigit.
  - reflexivity.
  - apply item_fraction.
  - destruct d; [congruence | simpl; lia].
  - exact I.
Qed.

Lemma item_dollar :
  runK false (opt (c_ "$") :: number) accept (dollar ++ d ++ tail)
  = Some ([dollar; d; []; []], tail).
Proof.
  unfold opt. rewrite runK_rep.
  apply (rep_greedy_take _ _ 0 (Some 1%nat) dollar (d ++ tail) [d; []; []] tail).
  - destruct dollar_opt as [-> | ->]; repeat constructor.
  - destruct d as [|c d']; [congruence|].
    apply Forall_inv in d_numeral. apply isDigit_bounds in d_numeral.
    cbn [app atomMatches c_]. unfold ch. cbn [N_of_ascii N_of_digits].
    decide_units. reflexivity.
  - apply item_digits.
  - lia.
  - destruct dollar_opt as [-> | ->]; simpl; lia.
Qed.

Lemma item_spaces :
  runK false (Close :: plus s_ :: opt (c_ "$") :: number) accept
       (sp ++ dollar ++ d ++ tail)
  = Some ([sp; dollar; d; []; []], tail).
Proof.
  unfold plus. cbn [runK].
  apply (rep_greedy_take _ _ 1 None sp (dollar ++ d ++ tail)
           [dollar; d; []; []] tail).
  - eapply List.Forall_impl; [|exact sp_space].
    intros c Hc. cbn. now rewrite Hc.
  - destruct dollar_opt as [-> | ->]; [|reflexivity].
    destruct d as [|c d']; [congruence|].
    apply Forall_inv in d_numeral. apply space_not_digit in d_numeral.
    cbn. now rewrite d_numeral.
  - apply item_dollar.
  - destruct sp; [congruence | simpl; lia].
  - exact I.
Qed.

(** No shorter name will do: inside the label the pattern finds no white
    space followed by a number. *)
Lemma item_no_shorter_name (t1 : jsstring) (c : char) (t2 : jsstring) :
  w = t1 ++ c :: t2 ->
  runK false (Close :: plus s_ :: opt (c_ "$") :: number) accept
       (c :: t2 ++ sp ++ dollar ++ d ++ tail) = None.
Proof.
  intros Hw.
  destruct (runK _ _ _ _) as [[chunks left]|] eqn:Hrun; [exfalso|reflexivity].
  apply runK_sound in Hrun as (cs1 & cs2 & s' & _ & E & _ & Hfit).
  unfold number, plus, opt, star in Hfit. cbn [fits] in Hfit.
  destruct cs1 as [|spc cs1]; [contradiction|].
  destruct Hfit as (Hspc & Lspc & _ & Hfit).
  destruct cs1 as [|dol cs1]; [contradiction|].
  destruct Hfit as (Hdol & _ & Ldol & Hfit).
  destruct cs1 as [|ds cs1]; [contradiction|].
  destruct Hfit as (Hds & Lds & _ & Hfit).
  cbn [List.concat] in E. rewrite <- !List.app_assoc in E.
  assert (Hu : numberAfterSpace (c :: t2) = false).
  { apply (numberedInside_suffix t1). now rewrite <- Hw. }
  assert (Hend : endsInSpace (c :: t2) = false).
  { rewrite <- (endsInSpace_suffix t1) by discriminate. now rewrite <- Hw. }
  assert (Hhead : numberHead (dropWhile isSpace (c :: t2)) = true).
  { apply (number_after_space spc dol ds (List.concat cs1 ++ s')
             (sp ++ dollar ++ d ++ tail)).
    - eapply List.Forall_impl; [|exact Hspc].
      intros x Hx. cbn [atomMatches s_ existsb classAtomMatches] in Hx.
      now rewrite orb_false_r in Hx.
    - eapply List.Forall_impl; [|exact Hdol].
      intros x Hx. cbn [atomMatches c_] in Hx. now apply N.eqb_eq in Hx.
    - exact Ldol.
    - eapply List.Forall_impl; [|exact Hds].
      intros x Hx. rewrite <- (digit09_isDigit false x). exact Hx.
    - destruct ds; [simpl in Lds; lia | discriminate].
    - destruct sp as [|x sp']; [congruence|]. now apply Forall_inv in sp_space.
    - discriminate.
    - exact Hend.
    - exact E. }
  cbn [numberAfterSpace] in Hu. rewrite Hhead, andb_true_r in Hu.
  destruct spc as [|x spc]; [simpl in Lspc; lia|].
  cbn [app] in E. injection E as -> _.
  apply Forall_inv in Hspc.
  cbn [atomMatches s_ existsb classAtomMatches] in Hspc.
  rewrite orb_false_r in Hspc. congruence.
Qed.

(** The item pattern on a label, white space, an optional [$], digits
    and a comma: the name is the label and the number stops at the
    comma. *)
Lemma item_match :
  run false (source itemPattern) (w ++ sp ++ dollar ++ d ++ tail)
  = Some ([w; sp; dollar; d; []; []], tail).
Proof.
  unfold run, itemPattern, re. cbn [source app runK].
  unfold lazyPlus.
  apply (rep_lazy_scan _ _ 1 w (sp ++ dollar ++ d ++ tail)
           [sp; dollar; d; []; []] tail).
  - eapply List.Forall_impl; [|exact w_line].
    intros c Hc. cbn [atomMatches]. now rewrite Hc.
  - intros t1 c t2 Hw. now apply (item_no_shorter_name t1).
  - apply item_spaces.
  - destruct w; [congruence | simpl; lia].
Qed.

Lemma item_of_line :
  itemOfLine (w ++ sp ++ dollar ++ d ++ tail) =
  if gt (parseFloat d) zero
  then [ {| name := trim w; itemAmount := parseFloat d |} ]
  else [].
Proof.
  unfold itemOfLine, String_match.
  change (global itemPattern) with false.
  change (ignoreCase itemPattern) with false.
  rewrite (exec_here _ _ _ _ _ item_match).
  unfold matchArray, itemPattern, re, number, lazyPlus, plus, opt, star.
  cbn [source app groups option_map at_ nth_error get nth parseFloatOf].
  rewrite !List.app_nil_r. reflexivity.
Qed.

End ItemLine.




(** * Further properties *)

(** ** Lines of a text *)

Lemma splitLines_some (s : jsstring) : splitLines s <> [].
Proof.
  destruct s as [|c s]; simpl; [discriminate|].
  destruct (c =? 10); [discriminate|]. destruct (splitLines s); discriminate.
Qed.

Lemma splitLines_newline (a b : jsstring) :
  splitLines (a ++ newline ++ b) = splitLines a ++ splitLines b.
Proof.
  induction a as [|c a IH]; [reflexivity|].
  cbn [app splitLines]. rewrite IH.
  destruct (c =? 10); [reflexivity|].
  pose proof (splitLines_some a) as Ha.
  destruct (splitLines a); [congruence | reflexivity].
Qed.

Lemma textLines_newline (a b : jsstring) :
  textLines (a ++ newline ++ b) = textLines a ++ textLines b.
Proof.
  unfold textLines.
  now rewrite splitLines_newline, List.map_app, List.filter_app.
Qed.

Lemma dropWhile_all (p : char -> bool) (s : jsstring) :
  Forall (fun c => p c = true) s -> dropWhile p s = [].
Proof.
  intros H. induction H as [|c s Hc _ IH]; simpl; [reflexivity|].
  now rewrite Hc.
Qed.

Lemma trim_blank (s : jsstring) : isBlankText s -> trim s = [].
Proof.
  intros H. unfold trim, trimStart. now rewrite (dropWhile_all _ _ H).
Qed.

Lemma splitLines_blank (s : jsstring) :
  isBlankText s -> Forall isBlankText (splitLines s).
Proof.
  intros H. induction H as [|c s Hc _ IH]; simpl.
  - repeat constructor.
  - destruct (c =? 10); [constructor; [constructor | exact IH]|].
    destruct (splitLines s) as [|l ls]; [repeat constructor; exact Hc|].
    inversion IH; subst. constructor; [now constructor | assumption].
Qed.

Lemma textLines_blank (text : jsstring) : isBlankText text -> textLines text = [].
Proof.
  intros H. unfold textLines.
  pose proof (splitLines_blank text H) as Hl.
  induction Hl as [|l ls Hb _ IH]; [reflexivity|].
  cbn [List.map List.filter]. now rewrite (trim_blank l Hb).
Qed.

Lemma splitLines_no_newline (s line : jsstring) :
  In line (splitLines s) -> ~ In 10 line.
Proof.
  revert line. induction s as [|c s IH]; intros line; simpl.
  - intros [<- | []] [].
  - destruct (c =? 10) eqn:Hc.
    + intros [<- | Hin]; [intros [] | now apply IH].
    + apply N.eqb_neq in Hc.
      destruct (splitLines s) as [|l ls].
      * intros [<- | []] [E | []]. congruence.
      * intros [<- | Hin].
        -- intros [E | Hl]; [congruence|].
           apply (IH l); [now left | exact Hl].
        -- apply IH. now right.
Qed.

Lemma dropWhile_suffix (p : char -> bool) (s : jsstring) (c : char) :
  In c (dropWhile p s) -> In c s.
Proof.
  induction s as [|x s IH]; simpl; [tauto|].
  destruct (p x); [intros H; right; now apply IH | tauto].
Qed.

Lemma trim_sub (s : jsstring) (c : char) : In c (trim s) -> In c s.
Proof.
  unfold trim, trimEnd, trimStart. intros H.
  apply List.in_rev, dropWhile_suffix, List.in_rev in H.
  now apply dropWhile_suffix in H.
Qed.

Lemma textLines_line (text line : jsstring) :
  In line (textLines text) ->
  line <> [] /\ trim line = line /\ ~ In 10 line.
Proof.
  unfold textLines. intros H.
  apply List.filter_In in H as [H Hne].
  apply List.in_map_iff in H as (raw & <- & Hraw).
  split; [|split].
  - intros E. rewrite E in Hne. discriminate Hne.
  - apply trim_idempotent.
  - intros Hin. apply trim_sub in Hin.
    exact (splitLines_no_newline text raw Hraw Hin).
Qed.

(** X1: on a text with nothing but white space (the empty text too)
    [parsePDFTransactions] returns no record, and [extractReceiptData]
    returns the total 0, no merchant name, no item, the category
    "Other" and the time of the call for the date. *)
Theorem blank_text_gives_nothing (h : Host) (text : jsstring) :
  isBlankText text ->
  parsePDFTransactions h text = []
  /\ extractReceiptData h text =
     {| total := zero;
        merchantName := [];
        receiptDate := Some (Date_now h);
        items := [];
        receiptCategory := lit "Other";
        rawText := text |}.
Proof.
  intros H. unfold parsePDFTransactions, extractReceiptData.
  rewrite (textLines_blank text H). split; reflexivity.
Qed.

Lemma blank_text_gives_nothing_witness :
  parsePDFTransactions exampleHost (lit "  " ++ newline ++ lit " ") = []
  /\ extractReceiptData exampleHost (lit "  " ++ newline ++ lit " ") =
     {| total := zero;
        merchantName := [];
        receiptDate := Some (Date_now exampleHost);
        items := [];
        receiptCategory := lit "Other";
        rawText := lit "  " ++ newline ++ lit " " |}.
Proof.
  apply blank_text_gives_nothing. repeat constructor.
Defined.

(** X2: the statement extractor and the item list of the receipt
    extractor work line by line: the result for two texts joined by a
    line feed is the result for the first followed by the result for the
    second. *)
Theorem extractors_work_line_by_line (h : Host) (a b : jsstring) :
  parsePDFTransactions h (a ++ newline ++ b)
  = parsePDFTransactions h a ++ parsePDFTransactions h b
  /\ items (extractReceiptData h (a ++ newline ++ b))
     = items (extractReceiptData h a) ++ items (extractReceiptData h b).
Proof.
  unfold parsePDFTransactions, extractReceiptData. cbv zeta. cbn [items].
  rewrite textLines_newline, !List.flat_map_app. split; reflexivity.
Qed.

(** X3: every line that the extractors look at is not empty, carries no
    white space at either end and no line feed; so a record or an item
    never spans two lines of the text, and there is at most one record
    per line of a statement, one per row of a CSV file and one item per
    line of a receipt. *)
Theorem one_result_per_line (h : Host) :
  (forall text line, In line (textLines text) ->
     line <> [] /\ trim line = line /\ ~ In 10 line)
  /\ (forall text,
        (length (parsePDFTransactions h text) <= length (textLines text))%nat)
  /\ (forall rows, (length (parseCSVFile h rows) <= length rows)%nat)
  /\ (forall text,
        (length (items (extractReceiptData h text))
         <= length (textLines text))%nat).
Proof.
  assert (Hflat : forall (A B : Type) (f : A -> list B) (l : list A),
             (forall x, (length (f x) <= 1)%nat) ->
             (length (List.flat_map f l) <= length l)%nat).
  { intros A B f l Hf. induction l as [|x l IH]; simpl; [lia|].
    rewrite List.length_app. specialize (Hf x). lia. }
  split; [exact textLines_line|]. split; [|split].
  - intros text. unfold parsePDFTransactions. apply Hflat. intros line.
    rewrite transactionsOfLine_firstMatch.
    destruct (firstMatch line transactionPatterns) as [m|]; [|simpl; lia].
    unfold transactionOfMatch. cbv zeta.
    destruct (_ && _ && _); simpl; lia.
  - intros rows. unfold parseCSVFile. apply Hflat. intros data.
    destruct (onData h data) as [|r rest] eqn:E; [simpl; lia|].
    destruct (onData_inv h data r) as (Hone & _); [rewrite E; now left|].
    rewrite E in Hone. injection Hone as ->. simpl. lia.
  - intros text. unfold extractReceiptData. cbv zeta. cbn [items].
    apply Hflat. intros line. unfold itemOfLine.
    destruct (String_match line itemPattern); [|simpl; lia].
    destruct (gt _ zero); simpl; lia.
Qed.

Lemma one_result_per_line_witness :
  lit "Total: $20.00" <> []
  /\ trim (lit "Total: $20.00") = lit "Total: $20.00"
  /\ ~ In 10 (lit "Total: $20.00").
Proof.
  apply (proj1 (one_result_per_line exampleHost) subtotalThenTotal).
  vm_compute. right. left. reflexivity.
Defined.

(** ** The total of a receipt *)

Lemma gt_irrefl (x : Number) : gt x x = false.
Proof.
  unfold gt, SFltb, SFcompare.
  destruct x as [s|s| |s m e]; try destruct s; try reflexivity;
    rewrite Z.compare_refl, Pos.compare_cont_refl; reflexivity.
Qed.

Lemma finite_lt (s1 s2 : bool) (m1 m2 : positive) (e1 e2 : Z) :
  SFltb (S754_finite s1 m1 e1) (S754_finite s2 m2 e2) = true <->
  match s1, s2 with
  | true, false => True
  | false, true => False
  | false, false => (e1 < e2)%Z \/ (e1 = e2 /\ (m1 < m2)%positive)
  | true, true => (e2 < e1)%Z \/ (e1 = e2 /\ (m2 < m1)%positive)
  end.
Proof.
  unfold SFltb, SFcompare.
  change (Pos.compare_cont Eq m1 m2) with (Pos.compare m1 m2).
  destruct s1, s2;
    destruct (Z.compare_spec e1 e2) as [He | He | He],
             (Pos.compare_spec m1 m2) as [Hm | Hm | Hm];
    simpl; split; intros Hx;
    try discriminate Hx; try reflexivity; try exact I; try lia; try tauto.
Qed.

(** [>] on Numbers is transitive. *)
Lemma gt_trans (x y z : Number) :
  gt x y = true -> gt y z = true -> gt x z = true.
Proof.
  unfold gt.
  destruct x as [sx|sx| |sx mx ex], y as [sy|sy| |sy my ey],
           z as [sz|sz| |sz mz ez];
    try (intros H1 H2; discriminate H1 || discriminate H2);
    try (rewrite !finite_lt; destruct sx, sy, sz; intros; lia || tauto);
    try (destruct sx, sy, sz; intros H1 H2;
         (discriminate H1 || discriminate H2 || reflexivity)).
Qed.

Lemma gt_nonNegative (a t : Number) :
  nonNegative t -> gt a t = true -> nonNegative a.
Proof.
  unfold gt, SFltb, SFcompare.
  destruct t as [st|st| |st mt et], a as [sa|sa| |sa ma ea]; simpl;
    intros Ht H; subst; try contradiction; try discriminate H;
    destruct sa; try discriminate H; reflexivity.
Qed.

Lemma totalOfLine_candidates (total : Number) (line : jsstring) :
  totalOfLine total line
  = fold_left (fun t a => if gt a t then a else t) (candidatesOfLine line) total.
Proof.
  unfold totalOfLine, candidatesOfLine. revert total.
  induction totalPatterns as [|pattern rest IH]; intros total; [reflexivity|].
  cbn [fold_left List.flat_map]. rewrite List.fold_left_app, IH.
  destruct (String_match line pattern); reflexivity.
Qed.

Lemma total_candidates (lines : list jsstring) (total : Number) :
  fold_left totalOfLine lines total
  = fold_left (fun t a => if gt a t then a else t) (candidates lines) total.
Proof.
  unfold candidates. revert total.
  induction lines as [|line lines IH]; intros total; [reflexivity|].
  cbn [fold_left List.flat_map].
  now rewrite List.fold_left_app, IH, totalOfLine_candidates.
Qed.

(** Keeping the greater of the total and each amount in turn ends on an
    amount that none of them exceeds. *)
Lemma greatest_bound (cs : list Number) :
  forall (t : Number) (seen : list Number),
    (forall a, In a seen -> gt a t = false) ->
    forall a, In a (seen ++ cs) ->
      gt a (fold_left (fun t a => if gt a t then a else t) cs t) = false.
Proof.
  induction cs as [|c cs IH]; intros t seen Hseen a Ha.
  - rewrite List.app_nil_r in Ha. now apply Hseen.
  - cbn [fold_left]. apply (IH _ (seen ++ [c])).
    + intros b Hb. apply List.in_app_or in Hb as [Hb | [<- | []]].
      * specialize (Hseen b Hb). destruct (gt c t) eqn:Hc; [|exact Hseen].
        destruct (gt b c) eqn:Hbc; [|reflexivity].
        rewrite (gt_trans b c t Hbc Hc) in Hseen. discriminate Hseen.
      * destruct (gt c t) eqn:Hc; [apply gt_irrefl | exact Hc].
    + now rewrite <- List.app_assoc.
Qed.

Lemma greatest_attained (cs : list Number) (t : Number) :
  let T := fold_left (fun t a => if gt a t then a else t) cs t in
  T = t \/ In T cs.
Proof.
  revert t. induction cs as [|c cs IH]; intros t; cbn [fold_left]; [now left|].
  destruct (IH (if gt c t then c else t)) as [E | Hin]; [|right; now right].
  cbv zeta in E. rewrite E.
  destruct (gt c t); [right; now left | now left].
Qed.

Lemma greatest_nonNegative (cs : list Number) (t : Number) :
  nonNegative t ->
  nonNegative (fold_left (fun t a => if gt a t then a else t) cs t).
Proof.
  revert t. induction cs as [|c cs IH]; intros t Ht; cbn [fold_left]; [exact Ht|].
  apply IH. destruct (gt c t) eqn:Hc; [|exact Ht].
  eapply gt_nonNegative; eauto.
Qed.

Lemma candidate_of_match (lines : list jsstring) (a : Number) :
  In a (candidates lines) <->
  exists line pattern m,
    In line lines /\ In pattern totalPatterns
    /\ String_match line pattern = Some m /\ a = parseFloatOf (at_ m 1).
Proof.
  unfold candidates, candidatesOfLine. rewrite List.in_flat_map. split.
  - intros (line & Hline & Ha). apply List.in_flat_map in Ha as (pattern & Hp & Ha).
    destruct (String_match line pattern) as [m|] eqn:Hm; [|destruct Ha].
    destruct Ha as [<- | []]. exists line, pattern, m. auto.
  - intros (line & pattern & m & Hline & Hp & Hm & ->).
    exists line. split; [exact Hline|]. apply List.in_flat_map.
    exists pattern. split; [exact Hp|]. rewrite Hm. now left.
Qed.

(** X5: the total of a receipt is the greatest of the amounts read: no
    pattern reads, on any line, an amount above the total, and the total
    is 0 or one of the amounts read.  (What the pattern with the [g] flag
    reads is no Number and never counts.) *)
Theorem total_is_the_greatest_amount_read (h : Host) (text : jsstring) :
  (forall line pattern m,
     In line (textLines text) -> In pattern totalPatterns ->
     String_match line pattern = Some m ->
     gt (parseFloatOf (at_ m 1)) (total (extractReceiptData h text)) = false)
  /\ (total (extractReceiptData h text) = zero
      \/ exists line pattern m,
           In line (textLines text) /\ In pattern totalPatterns
           /\ String_match line pattern = Some m
           /\ total (extractReceiptData h text) = parseFloatOf (at_ m 1)).
Proof.
  unfold extractReceiptData. cbv zeta. cbn [total].
  rewrite total_candidates. split.
  - intros line pattern m Hline Hp Hm.
    apply (greatest_bound (candidates (textLines text)) zero []);
      [intros a [] |].
    cbn [app]. apply candidate_of_match. exists line, pattern, m. auto.
  - destruct (greatest_attained (candidates (textLines text)) zero) as [E | Hin];
      [now left | right].
    now apply candidate_of_match in Hin.
Qed.

Lemma total_is_the_greatest_amount_read_witness :
  gt (parseFloat (lit "18.50"))
     (total (extractReceiptData exampleHost subtotalThenTotal)) = false.
Proof.
  apply (proj1 (total_is_the_greatest_amount_read exampleHost subtotalThenTotal)
           (lit "Subtotal: $18.50") (nth 0 totalPatterns (re []))
           [lit "total: $18.50"; lit "18.50"]);
    vm_compute; auto.
Defined.

(** X6: the total of a receipt is never [NaN] and never below zero, and
    the amount of the suggested transaction is that total: [total || 0]
    changes nothing. *)
Theorem suggested_amount_is_the_total (h : Host) (text : jsstring) :
  let data := extractReceiptData h text in
  nonNegative (total data)
  /\ amount (suggestedTransaction data) = total data.
Proof.
  cbv zeta.
  assert (Hnn : nonNegative (total (extractReceiptData h text))).
  { unfold extractReceiptData. cbv zeta. cbn [total].
    rewrite total_candidates. now apply greatest_nonNegative. }
  split; [exact Hnn|].
  unfold suggestedTransaction. cbn [amount].
  destruct (total (extractReceiptData h text)) as [s|s| |s m e];
    simpl in *; subst; try reflexivity; contradiction.
Qed.

(** X7: the suggested transaction is an expense paid by credit card.
    For a text that has no line with something on it, it is described
    as "Receipt from Unknown Merchant"; otherwise as "Receipt from " and
    the first such line, cut after 50 code units.  So the description
    "Receipt from Unknown Merchant" tells that the text has no such
    line or that its first line, cut after 50 code units, reads
    "Unknown Merchant". *)
Theorem suggested_description (h : Host) (text : jsstring) :
  let suggested := suggestedTransaction (extractReceiptData h text) in
  type suggested = lit "expense"
  /\ paymentMethod suggested = lit "credit_card"
  /\ match textLines text with
     | [] => description suggested = lit "Receipt from Unknown Merchant"
     | first :: _ =>
         description suggested = lit "Receipt from " ++ firstn 50 first
         /\ firstn 50 first <> []
         /\ (length (merchantName (extractReceiptData h text)) <= 50)%nat
     end
  /\ (description suggested = lit "Receipt from Unknown Merchant" <->
      match textLines text with
      | [] => True
      | first :: _ => firstn 50 first = lit "Unknown Merchant"
      end).
Proof.
  cbv zeta. unfold suggestedTransaction, extractReceiptData. cbv zeta.
  cbn [type paymentMethod description merchantName].
  split; [reflexivity|]. split; [reflexivity|].
  destruct (textLines text) as [|first rest] eqn:E;
    [split; [reflexivity | tauto]|].
  assert (Hne : first <> []).
  { apply (textLines_line text first). rewrite E. now left. }
  unfold substring0. destruct first as [|c first]; [congruence|].
  cbn [firstn nonEmpty]. split.
  - repeat split; [discriminate|].
    simpl. pose proof (List.firstn_le_length 49 first). lia.
  - change (lit "Receipt from Unknown Merchant")
      with (lit "Receipt from " ++ lit "Unknown Merchant").
    split; [apply List.app_inv_head | intros ->; reflexivity].
Qed.

(** ** Routing of an upload *)

Lemma strEq_eq (a b : jsstring) : strEq a b = true <-> a = b.
Proof.
  revert b. induction a as [|x a IH]; intros [|y b]; simpl;
    try (split; [discriminate | discriminate]); [tauto|].
  rewrite andb_true_iff, N.eqb_eq, IH. split; [intros [-> ->] | intros [= -> ->]]; auto.
Qed.

Lemma strEq_refl (a : jsstring) : strEq a a = true.
Proof. now apply strEq_eq. Qed.

Lemma fileFilter_accepts (mimetype : jsstring) :
  fileFilter mimetype = Accept <-> In mimetype allowedTypes.
Proof.
  unfold fileFilter.
  destruct (existsb (strEq mimetype) allowedTypes) eqn:E.
  - split; [intros _ | reflexivity].
    apply List.existsb_exists in E as (t & Ht & E).
    apply strEq_eq in E. now subst.
  - split; [discriminate|]. intros Hin.
    assert (Ht : existsb (strEq mimetype) allowedTypes = true).
    { apply List.existsb_exists. exists mimetype. split; [exact Hin | apply strEq_refl]. }
    congruence.
Qed.

(** X8: of the files that [fileFilter] lets in, those of the two
    spreadsheet types whose name does not end in ".csv" are answered with
    the error "Unsupported file type"; every other one is handed to
    exactly one reader: the CSV reader for the type text/csv or a name
    ending in ".csv", else the PDF reader for application/pdf, else the
    OCR engine for the four image types. *)
Theorem accepted_files_are_routed
    (readCSV : File -> list Row + jsstring)
    (readPDF recognize : File -> option jsstring) (h : Host) (file : File) :
  fileFilter (mimetype file) = Accept ->
  let reply := processUpload readCSV readPDF recognize h (Some file) in
  if hasCsvName file then reply = viaCSV readCSV h file
  else if strEq (mimetype file) (lit "text/csv") then reply = viaCSV readCSV h file
  else if strEq (mimetype file) (lit "application/pdf")
       then reply = viaPDF readPDF h file
  else if existsb (strEq (mimetype file)) spreadsheetTypes
       then reply = ProcessingError (lit "Unsupported file type")
  else reply = viaOCR recognize h file.
Proof.
  intros Hacc. apply fileFilter_accepts in Hacc.
  cbv zeta. unfold processUpload, hasCsvName, viaCSV, viaPDF, viaOCR.
  destruct (endsWith (toLowerCase (originalname file)) (lit ".csv"));
    [now rewrite orb_true_r|].
  rewrite orb_false_r.
  cbn in Hacc.
  repeat (destruct Hacc as [<- | Hacc]; [reflexivity|]). destruct Hacc.
Qed.

Lemma accepted_files_are_routed_witness :
  processUpload (fun _ => inl []) (fun _ => None) (fun _ => None) exampleHost
    (Some {| mimetype := lit "application/vnd.ms-excel";
             originalname := lit "statement.xls" |})
  = ProcessingError (lit "Unsupported file type").
Proof.
  apply (accepted_files_are_routed (fun _ => inl []) (fun _ => None)
           (fun _ => None) exampleHost
           {| mimetype := lit "application/vnd.ms-excel";
              originalname := lit "statement.xls" |}).
  vm_compute. reflexivity.
Defined.

Lemma startsWith_app (a b : jsstring) : startsWith a (a ++ b) = true.
Proof. induction a as [|x a IH]; simpl; [reflexivity|]. now rewrite N.eqb_refl. Qed.

Lemma includes_here (k s : jsstring) : includes (k ++ s) k = true.
Proof. destruct k; simpl; [now destruct s | now rewrite N.eqb_refl, startsWith_app]. Qed.

Lemma includes_later (p s k : jsstring) :
  includes s k = true -> includes (p ++ s) k = true.
Proof.
  intros H. induction p as [|x p IH]; [exact H|].
  cbn [app includes]. rewrite IH. apply orb_true_r.
Qed.

(** X10: when [fileFilter] turns a file down, the error middleware of the
    router answers with status 400 and the message of the filter, which
    names the type of the file. *)
Theorem rejected_type_is_answered_400 (mimetype msg code : jsstring) :
  fileFilter mimetype = Reject msg ->
  uploadErrorHandler
    {| isMulterError := false; code := code; message := msg |}
  = Status 400 msg
  /\ includes msg mimetype = true
  /\ ~ In mimetype allowedTypes.
Proof.
  intros H.
  assert (Hmsg : msg = lit "File type" ++ lit " " ++ mimetype
                 ++ lit " is not supported. Please use JPG, PNG, PDF, or CSV files."
                 /\ ~ In mimetype allowedTypes).
  { split.
    - unfold fileFilter in H.
      destruct (existsb (strEq mimetype) allowedTypes); [discriminate|].
      now injection H as <-.
    - intros Hin. apply fileFilter_accepts in Hin. congruence. }
  destruct Hmsg as [-> Hout]. split; [|split; [|exact Hout]].
  - unfold uploadErrorHandler. cbn [isMulterError message].
    now rewrite includes_here.
  - apply includes_later, includes_later, includes_here.
Qed.

Lemma rejected_type_is_answered_400_witness :
  uploadErrorHandler
    {| isMulterError := false; code := [];
       message := lit "File type text/plain is not supported. Please use JPG, PNG, PDF, or CSV files." |}
  = Status 400 (lit "File type text/plain is not supported. Please use JPG, PNG, PDF, or CSV files.")
  /\ includes (lit "File type text/plain is not supported. Please use JPG, PNG, PDF, or CSV files.")
              (lit "text/plain") = true
  /\ ~ In (lit "text/plain") allowedTypes.
Proof.
  apply rejected_type_is_answered_400. vm_compute. reflexivity.
Defined.

(** ** Columns of a row *)

Lemma cleanData_from (name : jsstring) (data : Row) :
  forall clean : gmap (list N) jsstring,
    fold_left
      (fun clean kv => <[ toLowerCase (trim (fst kv)) := snd kv ]> clean)
      data clean !! name
    = match lastCell name data with
      | Some cell => Some cell
      | None => clean !! name
      end.
Proof.
  induction data as [|[key cell] rest IH]; intros clean; [reflexivity|].
  cbn [fold_left lastCell fst snd]. rewrite IH.
  destruct (lastCell name rest); [reflexivity|].
  destruct (strEq (toLowerCase (trim key)) name) eqn:E.
  - apply strEq_eq in E. subst name. apply lookup_insert_eq.
  - apply lookup_insert_ne. intros Heq.
    apply strEq_eq in Heq. congruence.
Qed.

(** X11: the cell that a row holds under a column name is looked up by
    the trimmed, lower-cased name of the column, and of several columns
    with the same such name the last one counts. *)
Theorem column_lookup (name : jsstring) (data : Row) :
  cleanData data !! name = lastCell name data.
Proof.
  unfold cleanData. rewrite cleanData_from.
  destruct (lastCell name data); [reflexivity | apply lookup_empty].
Qed.

Lemma blank_not_truthy (data : Row) :
  (blank dateAliases data -> truthy (dateFieldOf (cleanData data)) = false)
  /\ (blank descriptionAliases data ->
      truthy (descriptionFieldOf (cleanData data)) = false)
  /\ (blank amountAliases data ->
      truthy (amountFieldOf (cleanData data)) = false).
Proof.
  unfold blank, dateFieldOf, descriptionFieldOf, amountFieldOf.
  assert (Hcell : forall aliases, blank aliases data ->
            forall a : string, In (lit a) aliases ->
              truthy (cleanData data !! lit a) = false).
  { intros aliases H a Ha. destruct (H (lit a) Ha) as [E | E].
    - transitivity (truthy None); [f_equal; exact E | reflexivity].
    - transitivity (truthy (Some [])); [f_equal; exact E | reflexivity]. }
  assert (Hor : forall x y, truthy x = false -> truthy y = false ->
                            truthy (or_ x y) = false).
  { intros x y Hx Hy. unfold or_. now rewrite Hx. }
  repeat split; intros H; repeat apply Hor;
    apply (Hcell _ H); cbn; tauto.
Qed.

(** X12: an empty cell counts like a missing one: a row whose date,
    description or amount has, under each of its column names, no cell
    or an empty cell yields no record, and the rows around it are parsed
    as without it. *)
Theorem rows_with_blank_field_are_skipped (h : Host) (data : Row) :
  blank dateAliases data \/ blank descriptionAliases data
  \/ blank amountAliases data ->
  forall before after,
    parseCSVFile h (before ++ data :: after)
    = parseCSVFile h before ++ parseCSVFile h after.
Proof.
  intros Hblank before after.
  destruct (blank_not_truthy data) as (Hdate & Hdesc & Hamount).
  rewrite parseCSVFile_app, parseCSVFile_cons, onData_skips; [reflexivity|].
  tauto.
Qed.

Lemma rows_with_blank_field_are_skipped_witness :
  parseCSVFile exampleHost
    ([groceryRow] ++ [ (lit "date", lit "2024-01-15");
                       (lit "description", lit "Grocery Store");
                       (lit "amount", []) ] :: [groceryRow])
  = parseCSVFile exampleHost [groceryRow]
    ++ parseCSVFile exampleHost [groceryRow].
Proof.
  refine (rows_with_blank_field_are_skipped exampleHost _ _
            [groceryRow] [groceryRow]).
  right. right. intros a [<- | [<- | [<- | []]]];
    vm_compute; auto.
Defined.

(** ** What the reader hands over *)

Lemma reader_key_normalized (k : jsstring) :
  exists t, toLowerCase (trim (ch "_" :: k)) = ch "_" :: t.
Proof.
  unfold trim, trimStart. rewrite dropWhile_id by reflexivity.
  destruct (trimEnd_head (ch "_") k eq_refl) as [t ->].
  exists (toLowerCase t). reflexivity.
Qed.

Lemma writeRow_key (cells : list jsstring) (key cell : jsstring) :
  In (key, cell) (writeRow cells) -> exists k, key = ch "_" :: k.
Proof.
  unfold writeRow. intros H.
  apply List.in_map_iff in H as ([k c] & [= <- <-] & _). eauto.
Qed.

Lemma lastCell_none (name : jsstring) (data : Row) :
  (forall key cell, In (key, cell) data ->
     strEq (toLowerCase (trim key)) name = false) ->
  lastCell name data = None.
Proof.
  induction data as [|[key cell] rest IH]; intros H; [reflexivity|].
  cbn [lastCell]. rewrite IH by (intros k c Hin; apply (H k c); now right).
  now rewrite (H key cell) by now left.
Qed.

(** No row of the reader has a cell under a name that does not start
    with [_]. *)
Lemma writeRow_names_no_column (cells : list jsstring) (c : char) (name : jsstring) :
  c <> ch "_" -> cleanData (writeRow cells) !! (c :: name) = None.
Proof.
  intros Hc. unfold cleanData. rewrite cleanData_from.
  rewrite lastCell_none; [apply lookup_empty|].
  intros key cell Hin. apply writeRow_key in Hin as [k ->].
  destruct (reader_key_normalized k) as [t ->].
  cbn [strEq]. apply andb_false_iff. left. apply N.eqb_neq. congruence.
Qed.

Lemma writeRow_has_no_date (cells : list jsstring) :
  absent dateAliases (writeRow cells).
Proof.
  intros a Ha. cbn in Ha.
  destruct Ha as [<- | [<- | [<- | []]]];
    apply writeRow_names_no_column; discriminate.
Qed.

(** C5, where the program departs from it: the reader is set up with
    [headers: true], so it takes no line for the header line and puts
    the cells of every line under the keys [_0], [_1], ...; no row has a
    cell under a name that the handler looks for.  The file of the row
    with date 2024-01-15, description "Grocery Store" and amount
    "-45.67" under its header line gives no record, where the claim has
    one; and so does every file. *)
Theorem csv_file_gives_no_record (h : Host) :
  csvRows groceryLines
  = [ [ (lit "_0", lit "date"); (lit "_1", lit "description");
        (lit "_2", lit "amount") ];
      [ (lit "_0", lit "2024-01-15"); (lit "_1", lit "Grocery Store");
        (lit "_2", lit "-45.67") ] ]
  /\ parseCSVFile h (csvRows groceryLines) = []
  /\ forall lines, parseCSVFile h (csvRows lines) = [].
Proof.
  assert (Hall : forall lines, parseCSVFile h (csvRows lines) = []).
  { intros lines. unfold parseCSVFile, csvRows.
    induction lines as [|cells lines IH]; [reflexivity|].
    cbn [List.map List.flat_map]. rewrite IH, List.app_nil_r.
    apply onData_skips. left.
    apply (proj1 (absent_not_truthy (writeRow cells))), writeRow_has_no_date. }
  split; [reflexivity|]. split; [apply Hall | exact Hall].
Qed.

(** ** More on the classifier *)

(** X13: [determineCategory] is the ordered keyword table: it answers
    with the label of the first keyword group that has a keyword in the
    lower-cased text, with "Other" when no group has one, and so with
    one of six labels. *)
Theorem classifier_is_the_keyword_table (text : jsstring) :
  determineCategory text = firstRule (toLowerCase text) categoryRules
  /\ In (determineCategory text) classifierLabels.
Proof.
  split; [apply determineCategory_classify | apply determineCategory_labels].
Qed.

Lemma startsWith_shorter (a b s : jsstring) :
  startsWith (a ++ b) s = true -> startsWith a s = true.
Proof.
  revert s. induction a as [|x a IH]; intros s; [reflexivity|].
  destruct s as [|y s]; cbn [app startsWith]; [discriminate|].
  rewrite !andb_true_iff. intros [Hx Hs]. split; [exact Hx | now apply IH].
Qed.

Lemma includes_shorter (s a b : jsstring) :
  includes s (a ++ b) = true -> includes s a = true.
Proof.
  induction s as [|x s IH]; cbn [includes]; rewrite !orb_true_iff.
  - intros [H | H]; [left; eapply startsWith_shorter, H | discriminate H].
  - intros [H | H]; [left; eapply startsWith_shorter, H | right; now apply IH].
Qed.

(** X14: the keyword "amazon prime" of the entertainment group never
    decides: a text with "amazon" in it gets a label of the three groups
    before, and a text labelled "Entertainment" has "netflix", "spotify"
    or "hulu" in it. *)
Theorem amazon_prime_never_decides (text : jsstring) :
  (includes (toLowerCase text) (lit "amazon") = true ->
   In (determineCategory text)
      (List.map lit ["Food & Dining"; "Transportation"; "Shopping"]%string))
  /\ (determineCategory text = lit "Entertainment" ->
      containsAny (toLowerCase text)
        (List.map lit ["netflix"; "spotify"; "hulu"]%string) = true).
Proof.
  unfold determineCategory. cbv zeta.
  set (name := toLowerCase text).
  assert (Hprime : includes name (lit "amazon") = false ->
                   includes name (lit "amazon prime") = false).
  { intros Hno. destruct (includes name (lit "amazon prime")) eqn:E; [|reflexivity].
    rewrite (includes_shorter name (lit "amazon") (lit " prime") E) in Hno.
    discriminate Hno. }
  split.
  - intros Ha. rewrite Ha.
    destruct (_ || _ || _ || _); [left; reflexivity|].
    destruct (_ || _ || _ || _); [right; left; reflexivity|].
    cbn [orb]. right. right. left. reflexivity.
  - destruct (_ || _ || _ || _); [discriminate|].
    destruct (_ || _ || _ || _); [discriminate|].
    destruct (includes name (lit "amazon")) eqn:Ha; [discriminate|].
    rewrite (Hprime eq_refl). cbn [orb].
    destruct (_ || _ || _); [discriminate|].
    destruct (_ || _ || _ || _); [discriminate|].
    destruct (_ || _ || _); [discriminate|].
    unfold containsAny. cbn [List.map existsb].
    rewrite !orb_false_r.
    destruct (includes name (lit "netflix") || includes name (lit "spotify")
              || includes name (lit "hulu")) eqn:E.
    + intros _. rewrite orb_assoc. exact E.
    + destruct (includes name (lit "gym") || _ || _); intros Hx; discriminate Hx.
Qed.

Lemma amazon_prime_never_decides_witness :
  In (determineCategory (lit "Amazon Prime Video"))
     (List.map lit ["Food & Dining"; "Transportation"; "Shopping"]%string).
Proof.
  apply (proj1 (amazon_prime_never_decides (lit "Amazon Prime Video"))).
  vm_compute. reflexivity.
Defined.

Lemma lowerUnit_case (a b : char) :
  asciiUpper a = asciiUpper b -> lowerUnit a = lowerUnit b.
Proof.
  unfold asciiUpper, lowerUnit, inRange.
  destruct (N.leb_spec 97 a), (N.leb_spec a 122),
           (N.leb_spec 97 b), (N.leb_spec b 122);
    cbn [andb]; intros E;
    first [ assert (a = b) by lia; subst; reflexivity
          | decide_units; cbn [andb]; f_equal; lia ].
Qed.

(** X15: the classifier does not look at the case of ASCII letters: two
    texts that differ only there get the same label. *)
Theorem classifier_ignores_case (s t : jsstring) :
  sameUpToCase s t -> determineCategory s = determineCategory t.
Proof.
  intros H.
  assert (E : toLowerCase s = toLowerCase t).
  { unfold toLowerCase. induction H as [|a b s t Hab _ IH]; [reflexivity|].
    cbn [List.flat_map]. now rewrite IH, (lowerUnit_case a b Hab). }
  unfold determineCategory. cbv zeta. now rewrite E.
Qed.

Lemma classifier_ignores_case_witness :
  determineCategory (lit "SHELL gas") = determineCategory (lit "Shell Gas").
Proof.
  apply classifier_ignores_case. repeat constructor.
Defined.

(** ** Fields of the imported records *)

Lemma onData_category (h : Host) (data : Row) (r : Transaction) :
  In r (onData h data) ->
  category r =
  if truthy (categoryFieldOf (cleanData data))
  then String_ (categoryFieldOf (cleanData data))
  else if isIncomeCSV data then lit "Income"
       else determineCategory (descriptionOfRow data).
Proof.
  unfold onData, isIncomeCSV, amountOfRow, descriptionOfRow.
  cbv zeta. cbn [amount description].
  rewrite isIncomeCSV_eq.
  destruct (truthy (dateFieldOf (cleanData data))); [|intros []].
  destruct (truthy (descriptionFieldOf (cleanData data))); [|intros []].
  destruct (truthy (amountFieldOf (cleanData data))); [|intros []].
  cbn [andb].
  destruct (gt (Math_abs _) zero && Nat.ltb 0 _); [|intros []].
  intros [<- | []]. cbn [category].
  destruct (truthy (categoryFieldOf (cleanData data))); cbn [negb andb];
    [reflexivity|].
  now destruct (_ || containsAny _ _).
Qed.

Lemma classifierLabels_proper (label : jsstring) :
  In label classifierLabels -> label <> [] /\ label <> lit "Income".
Proof.
  cbn. intros H.
  repeat (destruct H as [<- | H]; [split; discriminate|]). destruct H.
Qed.

Lemma or_first (x y : option jsstring) : truthy x = true -> or_ x y = x.
Proof. unfold or_. now intros ->. Qed.

Lemma or_skip (x y : option jsstring) : truthy x = false -> or_ x y = y.
Proof. unfold or_. now intros ->. Qed.

Lemma blank_cell (aliases : list jsstring) (data : Row) (a : jsstring) :
  blank aliases data -> In a aliases -> truthy (cleanData data !! a) = false.
Proof.
  intros H Ha. destruct (H a Ha) as [E | E].
  - transitivity (truthy None); [f_equal; exact E | reflexivity].
  - transitivity (truthy (Some [])); [f_equal; exact E | reflexivity].
Qed.

Lemma filled_cell (data : Row) (a cell : jsstring) :
  cleanData data !! a = Some cell -> cell <> [] ->
  truthy (cleanData data !! a) = true.
Proof.
  intros E Hne. transitivity (truthy (Some cell)); [f_equal; exact E|].
  destruct cell; [congruence | reflexivity].
Qed.

(** The category cell of a row: the first cell that is not empty under
    the three column names, in their order. *)
Lemma categoryField_first (data : Row) (tried : list jsstring) (a : jsstring)
    (later : list jsstring) (cell : jsstring) :
  categoryAliases = tried ++ a :: later ->
  blank tried data ->
  cleanData data !! a = Some cell -> cell <> [] ->
  categoryFieldOf (cleanData data) = Some cell.
Proof.
  intros Hsplit Hblank Hcell Hne.
  pose proof (filled_cell data a cell Hcell Hne) as Ha.
  unfold categoryFieldOf. unfold categoryAliases in Hsplit.
  cbn [List.map] in Hsplit.
  destruct tried as [|t1 [|t2 [|t3 tried]]]; cbn [app] in Hsplit.
  - injection Hsplit as <- _.
    rewrite (or_first (cleanData data !! lit "category")) by exact Ha.
    rewrite or_first by exact Ha. exact Hcell.
  - injection Hsplit as <- <- _.
    pose proof (blank_cell _ data (lit "category") Hblank ltac:(now left)) as H1.
    rewrite (or_skip (cleanData data !! lit "category")) by exact H1.
    rewrite or_first by exact Ha. exact Hcell.
  - injection Hsplit as <- <- <- _.
    pose proof (blank_cell _ data (lit "category") Hblank ltac:(now left)) as H1.
    pose proof (blank_cell _ data (lit "transaction_category") Hblank
                  ltac:(right; now left)) as H2.
    rewrite (or_skip (cleanData data !! lit "category")) by exact H1.
    rewrite or_skip by exact H2. exact Hcell.
  - injection Hsplit as _ _ _ Hsplit. destruct tried; discriminate Hsplit.
Qed.

Lemma categoryField_blank (data : Row) :
  blank categoryAliases data -> truthy (categoryFieldOf (cleanData data)) = false.
Proof.
  intros Hblank. unfold categoryFieldOf.
  pose proof (blank_cell _ data (lit "category") Hblank ltac:(now left)) as H1.
  pose proof (blank_cell _ data (lit "transaction_category") Hblank
                ltac:(right; now left)) as H2.
  pose proof (blank_cell _ data (lit "transactioncategory") Hblank
                ltac:(right; right; now left)) as H3.
  rewrite (or_skip (cleanData data !! lit "category")) by exact H1.
  rewrite or_skip by exact H2. exact H3.
Qed.

(** X16: every imported record is paid by bank transfer, is an income or
    an expense, and has a category that is not empty.  A record of a
    statement is in "Income" when it is an income, and carries the label
    that the classifier gives its description when it is an expense.  A
    record of a CSV row carries the first cell of its row that is not
    empty under the column names category, transaction_category and
    transactioncategory, in this order; when the row has no such cell
    it is in "Income" when it is an income and carries the label that
    the classifier gives the description cell when it is an expense. *)
Theorem imported_record_fields (h : Host) :
  (forall data r, In r (onData h data) ->
     paymentMethod r = lit "bank_transfer"
     /\ (type r = lit "income" \/ type r = lit "expense")
     /\ category r <> []
     /\ (forall tried a later cell,
           categoryAliases = tried ++ a :: later ->
           blank tried data ->
           cleanData data !! a = Some cell -> cell <> [] ->
           category r = cell)
     /\ (blank categoryAliases data ->
         (category r = lit "Income" <-> type r = lit "income")
         /\ (type r = lit "expense" ->
             category r = determineCategory (descriptionOfRow data))
         /\ In (category r) (lit "Income" :: classifierLabels)))
  /\ (forall rows r, In r (parseCSVFile h rows) ->
        exists data, In data rows /\ In r (onData h data))
  /\ (forall text r, In r (parsePDFTransactions h text) ->
        paymentMethod r = lit "bank_transfer"
        /\ (type r = lit "income" \/ type r = lit "expense")
        /\ (category r = lit "Income" <-> type r = lit "income")
        /\ (type r = lit "expense" ->
            category r = determineCategory (description r))
        /\ In (category r) (lit "Income" :: classifierLabels)).
Proof.
  assert (Hlabel : forall (b : bool) (text : jsstring) (c t : jsstring),
            c = (if b then lit "Income" else determineCategory text) ->
            t = (if b then lit "income" else lit "expense") ->
            (t = lit "income" \/ t = lit "expense")
            /\ c <> []
            /\ (c = lit "Income" <-> t = lit "income")
            /\ (t = lit "expense" -> c = determineCategory text)
            /\ In c (lit "Income" :: classifierLabels)).
  { intros b text c t -> ->.
    pose proof (determineCategory_labels text) as Hl.
    fold classifierLabels in Hl.
    destruct (classifierLabels_proper _ Hl) as [Hne Hni].
    destruct b.
    - split; [now left|]. split; [discriminate|].
      split; [tauto|]. split; [discriminate | now left].
    - split; [now right|]. split; [exact Hne|].
      split; [split; intros Hx; [congruence | discriminate Hx]|].
      split; [reflexivity | now right]. }
  split; [|split].
  - intros data r Hin.
    pose proof (onData_category h data r Hin) as Hcat.
    destruct (onData_inv h data r Hin)
      as (_ & _ & _ & _ & _ & _ & _ & _ & _ & Htype & Hpay).
    split; [exact Hpay|].
    split; [rewrite Htype; destruct (isIncomeCSV data); auto|].
    split; [|split].
    + destruct (truthy (categoryFieldOf (cleanData data))) eqn:Hc.
      * destruct (categoryFieldOf (cleanData data)) as [[|c cell]|];
          try discriminate Hc.
        rewrite Hcat. discriminate.
      * now destruct (Hlabel _ _ _ _ Hcat Htype) as (_ & H2 & _).
    + intros tried a later cell Hsplit Hblank Hcell Hne.
      rewrite (categoryField_first data tried a later cell
                 Hsplit Hblank Hcell Hne) in Hcat.
      destruct cell; [congruence | exact Hcat].
    + intros Hblank. rewrite (categoryField_blank data Hblank) in Hcat.
      destruct (Hlabel _ _ _ _ Hcat Htype) as (_ & _ & H3 & H4 & H5).
      split; [exact H3 | split; [exact H4 | exact H5]].
  - intros rows r Hin. unfold parseCSVFile in Hin.
    apply List.in_flat_map in Hin as (data & Hdata & Hin). eauto.
  - intros text r Hin. unfold parsePDFTransactions in Hin.
    apply List.in_flat_map in Hin as (line & _ & Hin).
    rewrite transactionsOfLine_firstMatch in Hin.
    destruct (firstMatch line transactionPatterns) as [m|]; [|destruct Hin].
    destruct (transactionOfMatch_inv h m r Hin)
      as (_ & _ & _ & Hdesc & _ & _ & _ & Htype & Hcat & Hpay).
    rewrite <- Hdesc in Hcat.
    destruct (Hlabel _ _ _ _ Hcat Htype) as (H1 & H2 & H3 & H4 & H5).
    split; [exact Hpay|]. split; [exact H1|]. split; [exact H3|].
    split; [exact H4 | exact H5].
Qed.

Lemma imported_record_fields_witness :
  lit "Household" = lit "Household"
  /\ (lit "Transportation" = lit "Income" <-> lit "expense" = lit "income").
Proof.
  split.
  - pose proof (proj1 (imported_record_fields exampleHost) categorizedRow
      {| date := Some 1705276800000%Z;
         description := lit "Grocery Store";
         amount := parseFloat (lit "45.67");
         type := lit "expense";
         category := lit "Household";
         paymentMethod := lit "bank_transfer" |}
      ltac:(vm_compute; left; reflexivity)) as (_ & _ & _ & H & _).
    apply (H [lit "category"] (lit "transaction_category")
             [lit "transactioncategory"] (lit "Household")).
    + reflexivity.
    + intros a [<- | []]. right. vm_compute. reflexivity.
    + vm_compute. reflexivity.
    + discriminate.
  - pose proof (proj2 (proj2 (imported_record_fields exampleHost)) statementText
      {| date := Some 1705363200000%Z;
         description := lit "Shell Gas Station";
         amount := parseFloat (lit "45.50");
         type := lit "expense";
         category := lit "Transportation";
         paymentMethod := lit "bank_transfer" |}
      ltac:(vm_compute; right; left; reflexivity)) as (_ & _ & H & _).
    exact H.
Defined.

(** ** The import routes *)

Lemma getProp_last (o : Obj) (key : jsstring) (v : Json) :
  getProp (o ++ [(key, v)]) key = Some v.
Proof.
  induction o as [|[k x] o IH]; cbn [app getProp].
  - now rewrite strEq_refl.
  - now rewrite IH.
Qed.

Lemma getProp_other (o : Obj) (k key : jsstring) (v : Json) :
  strEq k key = false -> getProp (o ++ [(k, v)]) key = getProp o key.
Proof.
  intros Hk. induction o as [|[k' x] o IH]; cbn [app getProp].
  - now rewrite Hk.
  - now rewrite IH.
Qed.

Lemma indexKey_digit (i : nat) :
  exists c rest, indexKey i = c :: rest /\ isDigit c = true.
Proof.
  unfold indexKey, NilZero.string_of_uint.
  destruct (Nat.to_uint i); cbn; eauto.
Qed.

(** A name that does not start with a digit is no index. *)
Lemma getProp_indexed (key : jsstring) (l : list Json) :
  match key with [] => True | c :: _ => isDigit c = false end ->
  forall i, getProp (indexed i l) key = None.
Proof.
  intros Hkey. induction l as [|x l IH]; intros i; [reflexivity|].
  cbn [indexed getProp]. rewrite IH.
  destruct (indexKey_digit i) as (c & rest & -> & Hc).
  destruct key as [|k key]; [reflexivity|].
  cbn [strEq]. destruct (N.eqb_spec c k) as [-> | _]; [congruence | reflexivity].
Qed.

Lemma spread_member (transaction : Json) (key : jsstring) :
  match key with [] => True | c :: _ => isDigit c = false end ->
  getProp (spread transaction) key = member transaction key.
Proof.
  intros Hkey. destruct transaction; cbn [spread member getProp];
    try reflexivity; now apply getProp_indexed.
Qed.

Lemma lacksRequired_members (userId transaction : Json) :
  lacksRequired (transactionData userId transaction)
  = negb (required transaction "amount" && required transaction "description"
          && required transaction "date").
Proof.
  unfold lacksRequired, transactionData, required.
  rewrite !getProp_other by reflexivity.
  rewrite !spread_member by reflexivity.
  now rewrite !negb_andb.
Qed.

Section StoreProperties.

Variables DB Doc : Type.
Variable userId : Json.

(** X17: an import route stores a transaction or refuses it by its own
    amount, description and date alone: when one of the three is absent,
    [null], [false], 0 or the empty text, and so for an amount of 0 and
    for every entry that is not an object, the store is not asked and
    the error is "Missing required fields"; otherwise the entry goes to
    the store with the identifier of the signed-in user in place of
    whatever [user] it named. *)
Theorem import_checks_three_members
    (save : DB -> Obj -> DB * (Doc + jsstring)) (db : DB) (transaction : Json) :
  importOne DB Doc save userId db transaction
  = (if required transaction "amount" && required transaction "description"
        && required transaction "date"
     then save db (transactionData userId transaction)
     else (db, inr missingFields))
  /\ addSingle DB Doc save userId db transaction
     = (if required transaction "amount" && required transaction "description"
           && required transaction "date"
        then match save db (transactionData userId transaction) with
             | (db', inl doc) => (db', Added Doc doc)
             | (db', inr msg) => (db', AddError Doc msg)
             end
        else (db, Incomplete Doc missingFields))
  /\ getProp (transactionData userId transaction) (lit "user") = Some userId.
Proof.
  unfold importOne, addSingle. cbv zeta. rewrite lacksRequired_members.
  split; [|split].
  - now destruct (_ && _ && _).
  - now destruct (_ && _ && _).
  - apply getProp_last.
Qed.

Lemma increasingBelow_from (lo lo' n : nat) (l : list nat) :
  (lo' <= lo)%nat -> increasingBelow lo n l -> increasingBelow lo' n l.
Proof. destruct l; simpl; [tauto|]. intros Hlo [Hi Hrest]. split; [lia | exact Hrest]. Qed.

Lemma increasingBelow_bounds (l : list nat) :
  forall lo n x, increasingBelow lo n l -> In x l -> (lo <= x < n)%nat.
Proof.
  induction l as [|y l IH]; intros lo n x; simpl; [tauto|].
  intros [Hy Hrest] [<- | Hin]; [exact Hy|].
  specialize (IH (S y) n x Hrest Hin). lia.
Qed.

Lemma importFrom_spec (save : DB -> Obj -> DB * (Doc + jsstring))
    (transactions : list Json) :
  forall (i : nat) (st : ImportState DB Doc),
    exists docs errs,
      savedTransactions DB Doc (importFrom DB Doc save userId i transactions st)
      = savedTransactions DB Doc st ++ docs
      /\ errors DB Doc (importFrom DB Doc save userId i transactions st)
         = errors DB Doc st ++ errs
      /\ (length docs + length errs = length transactions)%nat
      /\ increasingBelow i (i + length transactions) (List.map index errs)
      /\ forall e, In e errs ->
           nth_error transactions (index e - i) = Some (transaction e).
Proof.
  induction transactions as [|t rest IH]; intros i st.
  - exists [], []. cbn [importFrom]. rewrite !List.app_nil_r.
    repeat split; auto. intros e [].
  - cbn [importFrom].
    destruct (importOne DB Doc save userId (database DB Doc st) t)
      as [db [doc | msg]] eqn:Hone.
    + destruct (IH (S i) {| database := db;
                            savedTransactions := savedTransactions DB Doc st ++ [doc];
                            errors := errors DB Doc st |})
        as (docs & errs & Hs & He & Hlen & Hinc & Herr).
      cbn [savedTransactions errors] in Hs, He.
      exists (doc :: docs), errs.
      rewrite Hs, He, <- List.app_assoc. cbn [length app].
      split; [reflexivity|]. split; [reflexivity|]. split; [lia|].
      replace (i + S (length rest))%nat with (S i + length rest)%nat by lia.
      split; [apply (increasingBelow_from (S i)); [lia | exact Hinc]|].
      intros e Hin.
      assert (Hlo : (S i <= index e < S i + length rest)%nat).
      { apply (increasingBelow_bounds _ _ _ _ Hinc), List.in_map, Hin. }
      replace (index e - i)%nat with (S (index e - S i)) by lia.
      now apply Herr.
    + destruct (IH (S i) {| database := db;
                            savedTransactions := savedTransactions DB Doc st;
                            errors := errors DB Doc st
                                      ++ [ {| index := i; transaction := t;
                                              error := msg |} ] |})
        as (docs & errs & Hs & He & Hlen & Hinc & Herr).
      cbn [savedTransactions errors] in Hs, He.
      exists docs, ({| index := i; transaction := t; error := msg |} :: errs).
      rewrite Hs, He, <- List.app_assoc. cbn [length app List.map index].
      split; [reflexivity|]. split; [reflexivity|]. split; [lia|].
      replace (i + S (length rest))%nat with (S i + length rest)%nat by lia.
      split; [split; [lia | exact Hinc]|].
      intros e [<- | Hin].
      * cbn [index transaction]. now rewrite Nat.sub_diag.
      * assert (Hlo : (S i <= index e < S i + length rest)%nat).
        { apply (increasingBelow_bounds _ _ _ _ Hinc), List.in_map, Hin. }
        replace (index e - i)%nat with (S (index e - S i)) by lia.
        now apply Herr.
Qed.

End StoreProperties.

Section Imports.

Variables DB Doc : Type.
Variable userId : Json.

(** X18: [POST /bulk-import] accounts for every entry of a list that is
    not empty: each is stored or reported, so the two counts add up to
    the length of the list; the reports come in the order of the list,
    each with the index and the entry it is about.  For a body that is
    not [null] and has no list under [transactions], or an empty one,
    the route refuses with status 400 and stores nothing; for the body
    [null] reading [transactions] throws, and the route answers with
    status 500, "Error during bulk import", and stores nothing. *)
Theorem bulk_import_accounts_for_every_entry
    (save : DB -> Obj -> DB * (Doc + jsstring)) (db : DB) (body : Json) :
  (forall transactions,
     member body (lit "transactions") = Some (JArray transactions) ->
     transactions <> [] ->
     exists db' docs errs,
       bulkImport DB Doc save userId db body
       = (db', Report Doc (length docs) (length errs) errs docs)
       /\ (length docs + length errs = length transactions)%nat
       /\ increasingBelow 0 (length transactions) (List.map index errs)
       /\ forall e, In e errs ->
            nth_error transactions (index e) = Some (transaction e))
  /\ (body <> JNull ->
      (forall transactions,
         member body (lit "transactions") = Some (JArray transactions) ->
         transactions = []) ->
      bulkImport DB Doc save userId db body
      = (db, Refused Doc (lit "No transactions provided")))
  /\ (body = JNull ->
      bulkImport DB Doc save userId db body
      = (db, Failed Doc (lit "Error during bulk import"))).
Proof.
  unfold bulkImport. split; [|split].
  - intros transactions Hm Hne.
    destruct body as [| | | | |members]; try discriminate Hm.
    rewrite Hm.
    destruct transactions as [|t rest]; [congruence|]. cbv zeta.
    destruct (importFrom_spec DB Doc userId save (t :: rest) 0
                {| database := db; savedTransactions := []; errors := [] |})
      as (docs & errs & Hs & He & Hlen & Hinc & Herr).
    cbn [savedTransactions errors app] in Hs, He.
    rewrite Hs, He. eexists _, docs, errs.
    split; [reflexivity|]. split; [exact Hlen|]. split; [exact Hinc|].
    intros e Hin. specialize (Herr e Hin). now rewrite Nat.sub_0_r in Herr.
  - intros Hbody Hnone.
    destruct body as [| | | | |members]; try reflexivity; [congruence|].
    destruct (member (JObject members) (lit "transactions"))
      as [[| | | |transactions|]|]; try reflexivity.
    now rewrite (Hnone transactions eq_refl).
  - intros ->. reflexivity.
Qed.

Lemma importOne_storable (save1 save2 : DB -> Obj -> DB * (Doc + jsstring)) :
  (forall db o, storable userId o -> save1 db o = save2 db o) ->
  forall db t, importOne DB Doc save1 userId db t = importOne DB Doc save2 userId db t.
Proof.
  intros H db t. unfold importOne. cbv zeta.
  destruct (lacksRequired (transactionData userId t)) eqn:E; [reflexivity|].
  apply H. split; [exact E | apply getProp_last].
Qed.

(** X19: the store is only ever asked to save an object that has an
    amount, a description and a date and that carries the identifier of
    the signed-in user: two stores that treat such objects alike give
    the same answers and end in the same state, on [POST /bulk-import]
    and on [POST /add-single]. *)
Theorem only_storable_objects_reach_the_store
    (save1 save2 : DB -> Obj -> DB * (Doc + jsstring)) :
  (forall db o, storable userId o -> save1 db o = save2 db o) ->
  forall db body,
    bulkImport DB Doc save1 userId db body = bulkImport DB Doc save2 userId db body
    /\ addSingle DB Doc save1 userId db body = addSingle DB Doc save2 userId db body.
Proof.
  intros H db body. split.
  - unfold bulkImport.
    assert (Hfrom : forall ts i st,
              importFrom DB Doc save1 userId i ts st
              = importFrom DB Doc save2 userId i ts st).
    { induction ts as [|t ts IH]; intros i st; [reflexivity|].
      cbn [importFrom]. rewrite (importOne_storable save1 save2 H).
      destruct (importOne DB Doc save2 userId (database DB Doc st) t)
        as [db' [doc | msg]]; apply IH. }
    destruct body as [| | | | |members]; try reflexivity.
    destruct (member (JObject members) (lit "transactions"))
      as [[| | | |ts|]|]; try reflexivity.
    destruct ts; [reflexivity|]. cbv zeta. now rewrite Hfrom.
  - unfold addSingle. cbv zeta.
    destruct (lacksRequired (transactionData userId body)) eqn:E; [reflexivity|].
    rewrite (H db (transactionData userId body)); [reflexivity|].
    split; [exact E | apply getProp_last].
Qed.

End Imports.

Lemma bulk_import_accounts_for_every_entry_witness :
  exists db' docs errs,
    bulkImport nat Obj (fun db o => (S db, inl o)) JNull 0%nat
      (JObject [(lit "transactions", JArray [JNull; JObject []])])
    = (db', Report Obj (length docs) (length errs) errs docs)
    /\ (length docs + length errs = length [JNull; JObject []])%nat
    /\ increasingBelow 0 (length [JNull; JObject []]) (List.map index errs)
    /\ forall e, In e errs ->
         nth_error [JNull; JObject []] (index e) = Some (transaction e).
Proof.
  apply (proj1 (bulk_import_accounts_for_every_entry
                  nat Obj JNull (fun db o => (S db, inl o)) 0%nat
                  (JObject [(lit "transactions", JArray [JNull; JObject []])]))
               [JNull; JObject []]);
    [reflexivity | discriminate].
Defined.

Lemma only_storable_objects_reach_the_store_witness :
  bulkImport nat Obj (fun db o => (S db, inl o)) JNull 0%nat
    (JObject [(lit "transactions", JArray [JNull; JObject []])])
  = bulkImport nat Obj
      (fun db o => if lacksRequired o then (0%nat, inr []) else (S db, inl o))
      JNull 0%nat
      (JObject [(lit "transactions", JArray [JNull; JObject []])])
  /\ addSingle nat Obj (fun db o => (S db, inl o)) JNull 0%nat
       (JObject [(lit "transactions", JArray [JNull; JObject []])])
     = addSingle nat Obj
         (fun db o => if lacksRequired o then (0%nat, inr []) else (S db, inl o))
         JNull 0%nat
         (JObject [(lit "transactions", JArray [JNull; JObject []])]).
Proof.
  apply (only_storable_objects_reach_the_store nat Obj JNull).
  intros db o [Ho _]. now rewrite Ho.
Defined.

(** ** From the parsers to the import routes *)

Lemma toISOString_some (t : Z) : nonEmpty (toISOString t) = true.
Proof.
  destruct (toISOString t) as [|c s] eqn:E; [exfalso | reflexivity].
  unfold toISOString in E. cbv zeta in E.
  destruct (civilFromDays (t / 86400000)) as [[y m] d].
  apply List.app_eq_nil in E as [_ E]. discriminate E.
Qed.

Lemma required_of_record (t : Transaction) :
  required (jsonOfTransaction t) "amount" = toBoolean (Some (jsonOfNumber (amount t)))
  /\ required (jsonOfTransaction t) "description" = nonEmpty (description t)
  /\ required (jsonOfTransaction t) "date" = toBoolean (Some (jsonOfDate (date t))).
Proof. repeat split. Qed.

Lemma total_nonNegative (h : Host) (text : jsstring) :
  nonNegative (total (extractReceiptData h text)).
Proof.
  unfold extractReceiptData. cbv zeta. cbn [total].
  rewrite total_candidates. now apply greatest_nonNegative.
Qed.

Lemma receiptDate_some (h : Host) (text : jsstring) :
  exists t, receiptDate (extractReceiptData h text) = Some t.
Proof.
  unfold extractReceiptData. cbv zeta. cbn [receiptDate].
  set (d := fold_left _ (textLines text) (newDateNow h)).
  destruct d as [t|]; cbn [invalidDate]; unfold newDateNow; eauto.
Qed.

(** X20: a record of [parseCSVFile] or of [parsePDFTransactions], sent to
    the client and back to an import route, has the amount, description
    and date that the route asks for, unless its amount is infinite:
    that is sent as [null] and the route refuses the record. *)
Theorem imported_records_pass_the_import_check
    (h : Host) (userId : Json) (r : Transaction) :
  (exists rows, In r (parseCSVFile h rows))
  \/ (exists text, In r (parsePDFTransactions h text)) ->
  lacksRequired (transactionData userId (jsonOfTransaction r)) = true
  <-> amount r = S754_infinity false.
Proof.
  intros Hr.
  assert (Hv : validRecord r /\ invalidDate (date r) = false).
  { destruct Hr as [[rows Hin] | [text Hin]].
    - unfold parseCSVFile in Hin.
      apply List.in_flat_map in Hin as (data & _ & Hin).
      split; [eapply onData_valid, Hin|].
      destruct (onData_inv h data r Hin) as (_ & _ & _ & _ & -> & _).
      now destruct (invalidDate (dateOfRow h data)) eqn:E.
    - unfold parsePDFTransactions in Hin.
      apply List.in_flat_map in Hin as (line & _ & Hin).
      rewrite transactionsOfLine_firstMatch in Hin.
      destruct (firstMatch line transactionPatterns) as [m|]; [|destruct Hin].
      split; [eapply transactionOfMatch_valid, Hin|].
      now destruct (transactionOfMatch_inv h m r Hin) as (_ & _ & Hd & _). }
  destruct Hv as [(Hgt & _ & Hne & _) Hd].
  rewrite lacksRequired_members.
  destruct (required_of_record r) as (-> & -> & ->).
  destruct (date r) as [t|]; [|discriminate Hd].
  cbn [jsonOfDate toBoolean]. rewrite toISOString_some.
  destruct (description r); [congruence|]. cbn [nonEmpty].
  rewrite !andb_true_r.
  destruct (amount r) as [s|s| |s m e]; try discriminate Hgt;
    destruct s; try discriminate Hgt; cbn; split; congruence.
Qed.

Lemma imported_records_pass_the_import_check_witness :
  lacksRequired
    (transactionData JNull
       (jsonOfTransaction
          {| date := Some 1705276800000%Z;
             description := lit "Grocery Store";
             amount := parseFloat (lit "45.67");
             type := lit "expense";
             category := lit "Food & Dining";
             paymentMethod := lit "bank_transfer" |})) = true
  <-> parseFloat (lit "45.67") = S754_infinity false.
Proof.
  apply (imported_records_pass_the_import_check exampleHost JNull
    {| date := Some 1705276800000%Z;
       description := lit "Grocery Store";
       amount := parseFloat (lit "45.67");
       type := lit "expense";
       category := lit "Food & Dining";
       paymentMethod := lit "bank_transfer" |}).
  left. exists [groceryRow]. vm_compute. left. reflexivity.
Defined.

(** X21: the suggested transaction of a receipt, sent to
    [POST /add-single], has what the route asks for exactly when a total
    was found: with the total 0 of a receipt on which no pattern read an
    amount above zero (and with an infinite total) the route refuses it
    as missing its required fields. *)
Theorem suggestion_is_storable_when_a_total_was_found
    (h : Host) (userId : Json) (text : jsstring) :
  lacksRequired
    (transactionData userId
       (jsonOfTransaction (suggestedTransaction (extractReceiptData h text))))
  = true
  <-> total (extractReceiptData h text) = zero
      \/ total (extractReceiptData h text) = S754_infinity false.
Proof.
  rewrite lacksRequired_members.
  destruct (required_of_record
              (suggestedTransaction (extractReceiptData h text))) as (-> & -> & ->).
  unfold suggestedTransaction at 2 3. cbn [description date].
  destruct (receiptDate_some h text) as [t ->].
  cbn [jsonOfDate toBoolean nonEmpty app lit List.map list_ascii_of_string].
  rewrite toISOString_some, !andb_true_r.
  unfold suggestedTransaction. cbn [amount].
  pose proof (total_nonNegative h text) as Hnn.
  destruct (total (extractReceiptData h text)) as [s|s| |s m e];
    cbn in Hnn; subst; try contradiction; cbn;
    split; intros Hx; try discriminate Hx; auto;
    destruct Hx as [Hx | Hx]; discriminate Hx.
Qed.

(** ** The date of a receipt *)

Lemma dateOfLine_default (h : Host) (line : jsstring) (patterns : list RegExp)
    (d : Date) :
  dateOfLine h line patterns d =
  match dateOfLine h line patterns None with
  | Some t => Some t
  | None => d
  end.
Proof.
  induction patterns as [|pattern rest IH]; cbn [dateOfLine]; [reflexivity|].
  destruct (String_match line pattern) as [m|]; [|exact IH].
  destruct (newDate h (at_ m 1)) as [t|]; cbn [invalidDate negb];
    [reflexivity | exact IH].
Qed.

Lemma undated_lines (h : Host) (lines : list jsstring) (d : Date) :
  Forall (fun l => lineDate h l = None) lines ->
  fold_left (fun date l => dateOfLine h l datePatterns date) lines d = d.
Proof.
  intros H. revert d. induction H as [|l lines Hl _ IH]; intros d; [reflexivity|].
  cbn [fold_left]. rewrite IH, dateOfLine_default.
  unfold lineDate in Hl. now rewrite Hl.
Qed.

(** X22: the date of a receipt is the date found on the last line that
    has one, and the time of the call when no line has one. *)
Theorem receipt_date_is_of_the_last_line_with_a_date (h : Host) (text : jsstring) :
  (forall before line after t,
     textLines text = before ++ line :: after ->
     lineDate h line = Some t ->
     Forall (fun l => lineDate h l = None) after ->
     receiptDate (extractReceiptData h text) = Some t)
  /\ (Forall (fun l => lineDate h l = None) (textLines text) ->
      receiptDate (extractReceiptData h text) = Some (Date_now h)).
Proof.
  unfold extractReceiptData. cbv zeta. cbn [receiptDate]. split.
  - intros before line after t -> Hline Hafter.
    rewrite List.fold_left_app. cbn [fold_left].
    rewrite (undated_lines h after _ Hafter), dateOfLine_default.
    unfold lineDate in Hline. now rewrite Hline.
  - intros Hnone. now rewrite (undated_lines h _ _ Hnone).
Qed.

Lemma receipt_date_is_of_the_last_line_with_a_date_witness :
  receiptDate (extractReceiptData exampleHost twoDates) = Some 1740009600000%Z.
Proof.
  apply (proj1 (receipt_date_is_of_the_last_line_with_a_date exampleHost twoDates)
           [lit "01/15/2024"] (lit "02/20/2025") []);
    [vm_compute; reflexivity | vm_compute; reflexivity | constructor].
Defined.

(** ** What a statement line is read as *)

Lemma digit_is_dateUnit (c : list char) :
  Forall (fun x => atomMatches false d_ x = true) c ->
  Forall (fun x => isDateUnit x = true) c.
Proof.
  apply List.Forall_impl. intros x Hx.
  cbn [atomMatches d_ existsb classAtomMatches] in Hx.
  rewrite orb_false_r in Hx. unfold isDateUnit. now rewrite Hx.
Qed.

Lemma separator_is_dateUnit (sep : ascii) (c : list char) :
  sep = "/"%char \/ sep = "-"%char ->
  Forall (fun x => atomMatches false (c_ sep) x = true) c ->
  Forall (fun x => isDateUnit x = true) c.
Proof.
  intros Hsep. apply List.Forall_impl. intros x Hx.
  cbn [atomMatches c_] in Hx. apply N.eqb_eq in Hx. subst x.
  destruct Hsep as [-> | ->]; reflexivity.
Qed.

Lemma space_class (c : list char) :
  Forall (fun x => atomMatches false s_ x = true) c ->
  Forall (fun x => isSpace x = true) c.
Proof.
  apply List.Forall_impl. intros x Hx.
  cbn [atomMatches s_ existsb classAtomMatches] in Hx.
  now rewrite orb_false_r in Hx.
Qed.

Lemma dot_class (c : list char) :
  Forall (fun x => atomMatches false Dot x = true) c ->
  Forall (fun x => isLineTerminator x = false) c.
Proof.
  apply List.Forall_impl. intros x Hx. cbn [atomMatches] in Hx.
  now apply negb_true_iff in Hx.
Qed.

Lemma amount_class (a : Atom) (c : list char) :
  In a [ Class [CChar (ch "+"); CChar (ch "-")]; c_ "$"; Char rupee;
         Class [CRange (ch "0") (ch "9"); CChar (ch ",")]; c_ "."; digit09 ] ->
  Forall (fun x => atomMatches false a x = true) c ->
  Forall (fun x => isAmountUnit x = true) c.
Proof.
  intros Ha. apply List.Forall_impl. intros x Hx. unfold isAmountUnit.
  cbn [In] in Ha.
  destruct Ha as [<- | [<- | [<- | [<- | [<- | [<- | []]]]]]];
    cbn [atomMatches existsb classAtomMatches c_ digit09] in Hx;
    rewrite ?orb_false_r in Hx;
    repeat match type of Hx with
      | (_ || _) = true => apply orb_true_iff in Hx; destruct Hx as [Hx | Hx]
      end;
    try (apply N.eqb_eq in Hx; subst x; reflexivity);
    change (isDigit x = true) in Hx; now rewrite Hx.
Qed.

Lemma includes_unit (s : jsstring) (c : char) :
  In c s -> includes s [c] = true.
Proof.
  induction s as [|x s IH]; [intros []|].
  intros [-> | Hin]; cbn [includes startsWith].
  - now rewrite N.eqb_refl.
  - rewrite (IH Hin). apply orb_true_r.
Qed.

Lemma unit_included (s : jsstring) (c : char) :
  includes s [c] = true -> In c s.
Proof.
  induction s as [|x s IH]; cbn [includes startsWith]; [discriminate|].
  rewrite andb_true_r. intros H. apply orb_true_iff in H as [H | H].
  - left. apply N.eqb_eq in H. congruence.
  - right. now apply IH.
Qed.

Lemma digits_or_commas (c : list char) :
  Forall (fun x => atomMatches false
            (Class [CRange (ch "0") (ch "9"); CChar (ch ",")]) x = true) c ->
  c <> [] -> hasDigit c || includes c (lit ",") = true.
Proof.
  intros H Hne. destruct H as [|x c Hx _]; [congruence|].
  cbn [atomMatches existsb classAtomMatches] in Hx.
  rewrite orb_false_r in Hx. apply orb_true_iff in Hx.
  destruct Hx as [Hx | Hx].
  - change (isDigit x = true) in Hx. unfold hasDigit. cbn [existsb].
    now rewrite Hx.
  - apply N.eqb_eq in Hx. subst x.
    apply orb_true_iff. right.
    exact (includes_unit (44 :: c) 44 (or_introl eq_refl)).
Qed.

Lemma nonEmpty_chunk (c : jsstring) : (1 <= length c)%nat -> c <> [].
Proof. destruct c; simpl; [lia | discriminate]. Qed.

(** The chunks of a match of a transaction pattern, read as the parts of
    the line. *)
Lemma parts_of_chunks (sep : ascii) (l1 h1 l2 h2 l3 h3 : nat)
    (chunks : list jsstring) (pre rest : jsstring) :
  sep = "/"%char \/ sep = "-"%char -> (1 <= l1)%nat ->
  let r := [Open; Rep d_ true l1 (Some h1); Rep (c_ sep) true 1 (Some 1%nat);
            Rep d_ true l2 (Some h2); Rep (c_ sep) true 1 (Some 1%nat);
            Rep d_ true l3 (Some h3); Close]
           ++ [plus s_; Open; lazyPlus Dot; Close; plus s_] ++ signedAmount in
  fits false r chunks ->
  exists p,
    joined p = pre ++ List.concat chunks ++ rest
    /\ wellFormedParts p
    /\ matchArray r chunks
       = [List.concat chunks; dateText p; descriptionText p; token p].
Proof.
  intros Hsep Hl1 r Hfit. subst r.
  unfold signedAmount, plus, lazyPlus, opt, star in Hfit.
  cbn [app fits] in Hfit.
  destruct chunks as [|c1 chunks]; [contradiction|].
  destruct Hfit as (A1 & L1 & _ & Hfit).
  destruct chunks as [|c2 chunks]; [contradiction|].
  destruct Hfit as (A2 & _ & _ & Hfit).
  destruct chunks as [|c3 chunks]; [contradiction|].
  destruct Hfit as (A3 & _ & _ & Hfit).
  destruct chunks as [|c4 chunks]; [contradiction|].
  destruct Hfit as (A4 & _ & _ & Hfit).
  destruct chunks as [|c5 chunks]; [contradiction|].
  destruct Hfit as (A5 & _ & _ & Hfit).
  destruct chunks as [|g1 chunks]; [contradiction|].
  destruct Hfit as (A6 & L6 & _ & Hfit).
  destruct chunks as [|ds chunks]; [contradiction|].
  destruct Hfit as (A7 & L7 & _ & Hfit).
  destruct chunks as [|g2 chunks]; [contradiction|].
  destruct Hfit as (A8 & L8 & _ & Hfit).
  destruct chunks as [|t1 chunks]; [contradiction|].
  destruct Hfit as (A9 & _ & _ & Hfit).
  destruct chunks as [|t2 chunks]; [contradiction|].
  destruct Hfit as (A10 & _ & _ & Hfit).
  destruct chunks as [|t3 chunks]; [contradiction|].
  destruct Hfit as (A11 & _ & _ & Hfit).
  destruct chunks as [|t4 chunks]; [contradiction|].
  destruct Hfit as (A12 & L12 & _ & Hfit).
  destruct chunks as [|t5 chunks]; [contradiction|].
  destruct Hfit as (A13 & _ & _ & Hfit).
  destruct chunks as [|t6 chunks]; [contradiction|].
  destruct Hfit as (A14 & _ & _ & ->).
  exists {| lead := pre;
            dateText := c1 ++ c2 ++ c3 ++ c4 ++ c5;
            gap1 := g1;
            descriptionText := ds;
            gap2 := g2;
            token := t1 ++ t2 ++ t3 ++ t4 ++ t5 ++ t6;
            trail := rest |}.
  split; [|split].
  - unfold joined.
    cbn [lead dateText gap1 descriptionText gap2 token trail List.concat].
    rewrite <- !List.app_assoc, ?List.app_nil_r. reflexivity.
  - unfold wellFormedParts.
    cbn [lead dateText gap1 descriptionText gap2 token trail].
    assert (Hc1 : c1 <> []) by (apply nonEmpty_chunk; lia).
    assert (Ht4 : t4 <> []) by (apply nonEmpty_chunk; lia).
    repeat split.
    + intros E. apply List.app_eq_nil in E as [E _]. congruence.
    + repeat apply Forall_app_2;
        eauto using digit_is_dateUnit, separator_is_dateUnit.
    + apply nonEmpty_chunk; lia.
    + now apply space_class.
    + apply nonEmpty_chunk; lia.
    + now apply dot_class.
    + apply nonEmpty_chunk; lia.
    + now apply space_class.
    + rewrite !hasDigit_app.
      pose proof (digits_or_commas t4 A12 Ht4) as Hd.
      apply orb_true_iff in Hd as [Hd | Hd];
        [rewrite Hd, !orb_true_r; reflexivity|].
      apply orb_true_iff. right.
      apply (includes_unit _ 44), in_or_app. right.
      apply in_or_app. right. apply in_or_app. right.
      apply in_or_app. left. now apply unit_included.
    + repeat apply Forall_app_2;
        (eapply amount_class; [|eassumption]); cbn; tauto.
  - unfold matchArray, signedAmount, plus, lazyPlus, opt, star.
    cbn [app groups option_map].
    rewrite <- !List.app_assoc, ?List.app_nil_r. reflexivity.
Qed.

Lemma firstMatch_pattern (line : jsstring) (patterns : list RegExp)
    (m : list jsstring) :
  firstMatch line patterns = Some m ->
  exists pattern, In pattern patterns /\ String_match line pattern = Some m.
Proof.
  induction patterns as [|pattern rest IH]; cbn [firstMatch]; [discriminate|].
  destruct (String_match line pattern) as [m'|] eqn:Hm.
  - intros [= <-]. exists pattern. split; [now left | exact Hm].
  - intros H. destruct (IH H) as (q & Hq & Hm'). exists q.
    split; [now right | exact Hm'].
Qed.

Lemma transaction_match_parts (line : jsstring) (pattern : RegExp)
    (m : list jsstring) :
  In pattern transactionPatterns ->
  String_match line pattern = Some m ->
  exists p,
    joined p = line /\ wellFormedParts p
    /\ at_ m 1 = Some (dateText p)
    /\ get m 2 = descriptionText p /\ get m 3 = token p.
Proof.
  intros Hin Hm.
  assert (Hshape : exists sep l1 h1 l2 h2 l3 h3,
    (sep = "/"%char \/ sep = "-"%char) /\ (1 <= l1)%nat
    /\ pattern = re ([Open; Rep d_ true l1 (Some h1);
                      Rep (c_ sep) true 1 (Some 1%nat);
                      Rep d_ true l2 (Some h2);
                      Rep (c_ sep) true 1 (Some 1%nat);
                      Rep d_ true l3 (Some h3); Close]
                     ++ [plus s_; Open; lazyPlus Dot; Close; plus s_]
                     ++ signedAmount)).
  { cbn [In transactionPatterns] in Hin.
    destruct Hin as [<- | [<- | [<- | []]]].
    - exists "/"%char, 1%nat, 2%nat, 1%nat, 2%nat, 4%nat, 4%nat.
      split; [now left | split; [lia | reflexivity]].
    - exists "-"%char, 1%nat, 2%nat, 1%nat, 2%nat, 4%nat, 4%nat.
      split; [now right | split; [lia | reflexivity]].
    - exists "-"%char, 4%nat, 4%nat, 1%nat, 2%nat, 1%nat, 2%nat.
      split; [now right | split; [lia | reflexivity]]. }
  destruct Hshape as (sep & l1 & h1 & l2 & h2 & l3 & h3 & Hsep & Hl1 & ->).
  unfold String_match in Hm. cbn [re global ignoreCase source] in Hm.
  apply exec_sound in Hm as (pre & chunks & rest & -> & Hfit & ->).
  destruct (parts_of_chunks sep l1 h1 l2 h2 l3 h3 chunks pre rest Hsep Hl1 Hfit)
    as (p & Hj & Hw & E).
  exists p. rewrite E.
  split; [exact Hj | split; [exact Hw | repeat split]].
Qed.

(** X23: every record read from a bank statement comes from one line of
    the text that reads as: a date shape made of digits and [/] or [-],
    white space, a description without line break, white space, and an
    amount token made of digits, signs, currency symbols, commas and
    points with at least one digit or comma.  The date of the record is
    what the host makes of the date shape, its description the trimmed
    description part, its amount the absolute value of the Number read
    from the token with [$], commas and rupee signs removed. *)
Theorem statement_record_comes_from_a_shaped_line (h : Host) (text : jsstring)
    (r : Transaction) :
  In r (parsePDFTransactions h text) ->
  exists line p,
    In line (textLines text)
    /\ joined p = line /\ wellFormedParts p
    /\ date r = Date_parse h (dateText p)
    /\ description r = trim (descriptionText p)
    /\ amount r = Math_abs (parseFloat (stripMoney (token p))).
Proof.
  unfold parsePDFTransactions. intros Hr.
  apply List.in_flat_map in Hr as (line & Hline & Hr).
  rewrite transactionsOfLine_firstMatch in Hr.
  destruct (firstMatch line transactionPatterns) as [m|] eqn:Hm; [|destruct Hr].
  apply firstMatch_pattern in Hm as (pattern & Hp & Hm).
  destruct (transaction_match_parts line pattern m Hp Hm)
    as (p & Hj & Hw & E1 & E2 & E3).
  apply transactionOfMatch_inv in Hr
    as (_ & Hd & _ & Hdesc & _ & Ha & _).
  exists line, p. rewrite E1 in Hd. rewrite E2 in Hdesc. rewrite E3 in Ha.
  cbn [newDate] in Hd.
  split; [exact Hline | split; [exact Hj | split; [exact Hw |]]].
  split; [exact Hd | split; [exact Hdesc | exact Ha]].
Qed.

Lemma statement_record_comes_from_a_shaped_line_witness :
  exists line p,
    In line (textLines depositLine)
    /\ joined p = line /\ wellFormedParts p
    /\ Some 1705276800000%Z = Date_parse exampleHost (dateText p)
    /\ lit "Deposit from Employer" = trim (descriptionText p)
    /\ parseFloat (lit "1200.00")
       = Math_abs (parseFloat (stripMoney (token p))).
Proof.
  apply (statement_record_comes_from_a_shaped_line exampleHost depositLine
           {| date := Some 1705276800000%Z;
              description := lit "Deposit from Employer";
              amount := parseFloat (lit "1200.00");
              type := lit "income";
              category := lit "Income";
              paymentMethod := lit "bank_transfer" |}).
  vm_compute. left. reflexivity.
Defined.

(** ** Two runs on the same input *)

Section TwoRuns.

Variable parse : jsstring -> Date.
Variables now1 now2 : Z.

Local Abbreviation h1 := (hostWith parse now1).
Local Abbreviation h2 := (hostWith parse now2).

Lemma tryDateFormats_clock (dateField : jsstring) (formats : list RegExp) (d : Date) :
  tryDateFormats h1 dateField formats d = tryDateFormats h2 dateField formats d.
Proof.
  revert d. induction formats as [|format rest IH]; intros d; simpl; [reflexivity|].
  destruct (String_match dateField format) as [m|]; [|apply IH].
  destruct (negb _); [reflexivity | apply IH].
Qed.

Lemma dateOfRow_clock (data : Row) : dateOfRow h1 data = dateOfRow h2 data.
Proof.
  unfold dateOfRow, parseRowDate. cbv zeta.
  rewrite tryDateFormats_clock. reflexivity.
Qed.

Lemma onData_clock (data : Row) :
  Forall2 (agree parse now1 now2 data) (onData h1 data) (onData h2 data).
Proof.
  pose proof (dateOfRow_clock data) as Hdate.
  unfold agree. unfold dateOfRow in *.
  unfold onData. cbv zeta. cbn [amount description].
  rewrite <- Hdate.
  destruct (truthy _ && truthy _ && truthy _); [|constructor].
  destruct (gt _ zero && Nat.ltb 0 _); [|constructor].
  constructor; [|constructor].
  split; [reflexivity|]. cbn [date].
  destruct (parseRowDate h1 _) as [t|]; cbn [invalidDate datedAlike];
    split; reflexivity.
Qed.

Lemma transactionsOfLine_clock (line : jsstring) (patterns : list RegExp) :
  transactionsOfLine h1 line patterns = transactionsOfLine h2 line patterns.
Proof.
  induction patterns as [|pattern rest IH]; simpl; [reflexivity|].
  destruct (String_match line pattern); [reflexivity | exact IH].
Qed.

Lemma dateOfLine_clock (line : jsstring) (patterns : list RegExp) (d : Date) :
  dateOfLine h1 line patterns d = dateOfLine h2 line patterns d.
Proof.
  induction patterns as [|pattern rest IH]; cbn [dateOfLine]; [reflexivity|].
  destruct (String_match line pattern) as [m|]; [|apply IH].
  cbn [newDate hostWith Date_parse]. destruct (negb _); [reflexivity | apply IH].
Qed.

Lemma lineDate_clock (line : jsstring) : lineDate h1 line = lineDate h2 line.
Proof. apply dateOfLine_clock. Qed.

Lemma lastLineDate_clock (lines : list jsstring) :
  lastLineDate h1 lines = lastLineDate h2 lines.
Proof.
  unfold lastLineDate. generalize (@None Z) as d.
  induction lines as [|line lines IH]; intros d; cbn [fold_left]; [reflexivity|].
  now rewrite lineDate_clock, IH.
Qed.

End TwoRuns.

(** The date that the loop over the lines leaves: the date on the last
    line that has one, and the date it started from when no line has
    one. *)
Lemma dateOfLines (h : Host) (lines : list jsstring) (d : Date) :
  fold_left (fun date line => dateOfLine h line datePatterns date) lines d
  = match lastLineDate h lines with
    | Some t => Some t
    | None => d
    end.
Proof.
  unfold lastLineDate.
  induction lines as [|line lines IH] using List.rev_ind; [reflexivity|].
  rewrite !List.fold_left_app. cbn [fold_left].
  rewrite dateOfLine_default, IH. fold (lineDate h line).
  now destruct (lineDate h line).
Qed.

Lemma receiptDate_lastLine (h : Host) (text : jsstring) :
  receiptDate (extractReceiptData h text)
  = match lastLineDate h (textLines text) with
    | Some t => Some t
    | None => Some (Date_now h)
    end.
Proof.
  unfold extractReceiptData. cbv zeta. cbn [receiptDate].
  rewrite dateOfLines. unfold newDateNow.
  now destruct (lastLineDate h (textLines text)).
Qed.



(** ** Dates of the results *)

(** The loop over the date shapes stops at the first shape that gives a
    date, and leaves the Invalid Date when none does. *)
Lemma tryDateFormats_first (h : Host) (cell : jsstring) (tried : list RegExp) :
  forall (format : RegExp) (later : list RegExp) (t : Z) (d : Date),
    Forall (fun f => shapeDate h cell f = None) tried ->
    shapeDate h cell format = Some t ->
    tryDateFormats h cell (tried ++ format :: later) d = Some t.
Proof.
  induction tried as [|f tried IH]; intros format later t d Htried Hshape;
    cbn [app tryDateFormats]; unfold shapeDate in *.
  - destruct (String_match cell format) as [m|]; [|discriminate Hshape].
    now rewrite Hshape.
  - inversion Htried as [|? ? Hf Hrest]; subst.
    destruct (String_match cell f) as [m|].
    + rewrite Hf. cbn [invalidDate negb]. now apply IH.
    + now apply IH.
Qed.

Lemma tryDateFormats_none (h : Host) (cell : jsstring) (formats : list RegExp) :
  Forall (fun f => shapeDate h cell f = None) formats ->
  tryDateFormats h cell formats None = None.
Proof.
  induction 1 as [|f formats Hf _ IH]; cbn [tryDateFormats]; [reflexivity|].
  unfold shapeDate in Hf.
  destruct (String_match cell f) as [m|]; [|exact IH].
  rewrite Hf. cbn [invalidDate negb]. exact IH.
Qed.

(** X4: no result carries the Invalid Date.  A record of a CSV row has
    the date that the engine reads in the date cell when it reads one
    there; otherwise the date that it reads in the first of the three
    date shapes, in the order year-month-day, month/day/year,
    month-day-year, that is found in the cell and gives a date; and the
    reading of the clock while the row is handled when no shape gives
    one.  A record of a statement line has the date that the engine
    reads in the date text of the first pattern that matches the
    line. *)
Theorem result_dates_are_valid (h : Host) :
  (forall data r, In r (onData h data) ->
     let cell := String_ (dateFieldOf (cleanData data)) in
     invalidDate (date r) = false
     /\ (forall t, Date_parse h cell = Some t -> date r = Some t)
     /\ (Date_parse h cell = None ->
         (forall tried format later t,
            dateFormats = tried ++ format :: later ->
            Forall (fun f => shapeDate h cell f = None) tried ->
            shapeDate h cell format = Some t ->
            date r = Some t)
         /\ (Forall (fun f => shapeDate h cell f = None) dateFormats ->
             date r = Some (Date_now h))))
  /\ (forall rows r, In r (parseCSVFile h rows) ->
        exists data, In data rows /\ In r (onData h data))
  /\ (forall parse rows r, In r (parseCSVFileAt parse rows) ->
        exists now data,
          In (now, data) rows /\ In r (onData (hostWith parse now) data))
  /\ (forall text r, In r (parsePDFTransactions h text) ->
        exists line m shape,
          In line (textLines text)
          /\ firstMatch line transactionPatterns = Some m
          /\ at_ m 1 = Some shape
          /\ date r = Date_parse h shape
          /\ invalidDate (date r) = false)
  /\ (forall text, invalidDate (receiptDate (extractReceiptData h text)) = false).
Proof.
  split; [|split; [|split; [|split]]].
  - intros data r Hin. cbv zeta.
    destruct (onData_inv h data r Hin) as (_ & _ & _ & _ & Hdate & _).
    unfold dateOfRow, parseRowDate in Hdate. cbv zeta in Hdate.
    set (cell := String_ (dateFieldOf (cleanData data))) in *.
    split; [|split].
    + rewrite Hdate. now destruct (invalidDate _) eqn:E.
    + intros t Ht. rewrite Ht in Hdate. exact Hdate.
    + intros Hnone. rewrite Hnone in Hdate. cbn [invalidDate] in Hdate.
      split.
      * intros tried format later t Hsplit Htried Hshape.
        rewrite Hsplit in Hdate.
        rewrite (tryDateFormats_first h cell tried format later t None
                   Htried Hshape) in Hdate.
        exact Hdate.
      * intros Hall. rewrite (tryDateFormats_none h cell _ Hall) in Hdate.
        exact Hdate.
  - intros rows r Hin. unfold parseCSVFile in Hin.
    apply List.in_flat_map in Hin as (data & Hdata & Hin). eauto.
  - intros parse rows r Hin. unfold parseCSVFileAt in Hin.
    apply List.in_flat_map in Hin as ([now data] & Hdata & Hin). eauto.
  - intros text r Hin. unfold parsePDFTransactions in Hin.
    apply List.in_flat_map in Hin as (line & Hline & Hin).
    rewrite transactionsOfLine_firstMatch in Hin.
    destruct (firstMatch line transactionPatterns) as [m|] eqn:Hm;
      [|destruct Hin].
    destruct (firstMatch_pattern _ _ _ Hm) as (pattern & Hp & Hmatch).
    destruct (transaction_match_parts line pattern m Hp Hmatch)
      as (p & _ & _ & E1 & _).
    destruct (transactionOfMatch_inv h m r Hin) as (_ & Hd & Hv & _).
    exists line, m, (dateText p). rewrite E1 in Hd.
    split; [exact Hline|]. split; [exact Hm|]. split; [exact E1|].
    split; [exact Hd | exact Hv].
  - intros text. destruct (receiptDate_some h text) as [t ->]. reflexivity.
Qed.

Lemma result_dates_are_valid_witness :
  (forall t, Date_parse exampleHost (lit "2024-01-15") = Some t ->
             Some 1705276800000%Z = Some t)
  /\ Some 1767225600000%Z = Some (Date_now exampleHost).
Proof.
  split.
  - pose proof (proj1 (result_dates_are_valid exampleHost) groceryRow
      {| date := Some 1705276800000%Z;
         description := lit "Grocery Store";
         amount := parseFloat (lit "45.67");
         type := lit "expense";
         category := lit "Food & Dining";
         paymentMethod := lit "bank_transfer" |}
      ltac:(vm_compute; left; reflexivity)) as H.
    cbv zeta in H. exact (proj1 (proj2 H)).
  - pose proof (proj1 (result_dates_are_valid exampleHost) undatedRow
      {| date := Some 1767225600000%Z;
         description := lit "Grocery Store";
         amount := parseFloat (lit "45.67");
         type := lit "expense";
         category := lit "Food & Dining";
         paymentMethod := lit "bank_transfer" |}
      ltac:(vm_compute; left; reflexivity)) as H.
    cbv zeta in H. destruct H as (_ & _ & H).
    apply H; [vm_compute; reflexivity|].
    repeat constructor.
Defined.
